(** * Darwin evolution engine ([bin/evolve.py], [bin/compile.py])

    A shallow embedding of the evolution decision engine and of the skill
    compiler it calls, followed by the properties of the engine.

    Conventions of the embedding.
    - A Python [str] is the list of its Unicode code points ([list N]); the
      function [u] reads a UTF-8 literal of this file into that form.
    - A Python [float] is a binary64 primitive float; [x >= y] is
      [PrimFloat.leb y x], and so on.
    - A [dict] is an association list in insertion order with distinct keys
      ([dict_wf]); a Python [set] of strings is a [gset].
    - The files under [~/.claude/darwin] are the fields of [world]; functions
      that touch files, the clock or a subprocess run in the monad [M]
      (state plus exceptions).
    - What lies outside the repository is a field of the class
      [Environment]: the clock with [strftime], the [:.2f] float format,
      the evaluator subprocess together with the JSON reading of its
      output, and the home directory. *)

From Stdlib Require Import ZArith List Lia Floats Ascii String.
From Stdlib Require DecimalString.
From Stdlib Require DecimalPos.
From stdpp Require Import base option list gmap sets.

Set Warnings "-inexact-float".
Set Default Proof Using "Type".

(* ===================================================================== *)
(** * Strings *)
(* ===================================================================== *)

Abbreviation str := (list N) (only parsing).

Module Utf8.
(** Decoding of the UTF-8 literals of this file into code points. *)
Fixpoint decode (bs : list N) : list N :=
  match bs with
  | [] => []
  | b0 :: r0 =>
    if (b0 <? 128)%N then b0 :: decode r0
    else match r0 with
    | [] => []
    | b1 :: r1 =>
      if (b0 <? 224)%N then ((b0 mod 32) * 64 + b1 mod 64)%N :: decode r1
      else match r1 with
      | [] => []
      | b2 :: r2 =>
        if (b0 <? 240)%N
        then ((b0 mod 16) * 4096 + (b1 mod 64) * 64 + b2 mod 64)%N :: decode r2
        else match r2 with
        | [] => []
        | b3 :: r3 =>
          ((b0 mod 8) * 262144 + (b1 mod 64) * 4096
           + (b2 mod 64) * 64 + b3 mod 64)%N :: decode r3
        end
      end
    end
  end.
End Utf8.

Definition u (s : string) : str :=
  Utf8.decode (List.map N_of_ascii (list_ascii_of_string s)).
Arguments u s%_string : simpl never.

Definition nl : N := 10%N.       (* "\n" *)
Definition colon : N := 58%N.    (* ":" *)
Definition dot : N := 46%N.      (* "." *)
Definition arrow : N := 8594%N.  (* "→", U+2192 *)

(** [c in s] for a one-character [c]. *)
Definition char_in (c : N) (s : str) : bool := existsb (N.eqb c) s.

(** [s.split(sep)] for a one-character separator (every separator of
    [evolve.py] is one code point). *)
Fixpoint split (sep : N) (s : str) : list str :=
  match s with
  | [] => [[]]
  | c :: s' =>
    if (c =? sep)%N then [] :: split sep s'
    else match split sep s' with
         | [] => [[c]]
         | p :: ps => (c :: p) :: ps
         end
  end.

(** [sep.join(parts)]. *)
Fixpoint join (sep : str) (parts : list str) : str :=
  match parts with
  | [] => []
  | [p] => p
  | p :: ps => p ++ sep ++ join sep ps
  end.

(** [str.isspace] on one code point. *)
Definition isspace (c : N) : bool :=
  ((9 <=? c) && (c <=? 13) || (28 <=? c) && (c <=? 32)
   || (c =? 133) || (c =? 160) || (c =? 5760)
   || (8192 <=? c) && (c <=? 8202)
   || (c =? 8232) || (c =? 8233) || (c =? 8239) || (c =? 8287)
   || (c =? 12288))%N.

Fixpoint lstrip (s : str) : str :=
  match s with
  | c :: s' => if isspace c then lstrip s' else s
  | [] => []
  end.

Definition rstrip (s : str) : str := rev (lstrip (rev s)).

(** [s.strip()]. *)
Definition strip (s : str) : str := rstrip (lstrip s).

Fixpoint startswith (p s : str) : bool :=
  match p, s with
  | [], _ => true
  | _ :: _, [] => false
  | a :: p', b :: s' => (a =? b)%N && startswith p' s'
  end.

Fixpoint find_from (sub s : str) (i : Z) : Z :=
  match s with
  | [] => if startswith sub [] then i else (-1)%Z
  | _ :: s' => if startswith sub s then i else find_from sub s' (i + 1)
  end.

(** [s.find(sub)]: the lowest index of an occurrence, [-1] when none. *)
Definition find (sub s : str) : Z := find_from sub s 0.

(** Python slice bounds: a negative index counts from the end, and both
    kinds are clamped to the sequence. *)
Definition slice_index (len : nat) (i : Z) : nat :=
  Z.to_nat (if (i <? 0)%Z then Z.max 0 (Z.of_nat len + i) else Z.min i (Z.of_nat len)).

(** [l[i:]] and [l[:i]]. *)
Definition slice_from {A} (l : list A) (i : Z) : list A :=
  drop (slice_index (length l) i) l.
Definition slice_to {A} (l : list A) (i : Z) : list A :=
  take (slice_index (length l) i) l.

(** [str(n)] for an [int]. *)
Definition str_of_int (n : Z) : str :=
  List.map N_of_ascii
    (list_ascii_of_string (DecimalString.NilZero.string_of_int (Z.to_int n))).

(** ** [int(s)]

    CPython first maps the code points above ASCII: white space to a
    blank, a Unicode decimal digit to its ASCII digit, anything else to
    ["?"]. It then reads blanks, a sign, digits with single underscores
    between them, blanks. [None] stands for [ValueError]. (The optional
    limit on the number of digits of recent CPython versions is not
    modelled.) *)

(** The code points of the digit zero of each Unicode decimal-digit block
    (Unicode 14); the nine that follow each are the digits 1 to 9. *)
Definition decimal_zeros : list N :=
  [ 0x30; 0x660; 0x6f0; 0x7c0; 0x966; 0x9e6; 0xa66; 0xae6; 0xb66; 0xbe6;
    0xc66; 0xce6; 0xd66; 0xde6; 0xe50; 0xed0; 0xf20; 0x1040; 0x1090; 0x17e0;
    0x1810; 0x1946; 0x19d0; 0x1a80; 0x1a90; 0x1b50; 0x1bb0; 0x1c40; 0x1c50;
    0xa620; 0xa8d0; 0xa900; 0xa9d0; 0xa9f0; 0xaa50; 0xabf0; 0xff10; 0x104a0;
    0x10d30; 0x11066; 0x110f0; 0x11136; 0x111d0; 0x112f0; 0x11450; 0x114d0;
    0x11650; 0x116c0; 0x11730; 0x118e0; 0x11950; 0x11c50; 0x11d50; 0x11da0;
    0x16a60; 0x16ac0; 0x16b50; 0x1d7ce; 0x1d7d8; 0x1d7e2; 0x1d7ec; 0x1d7f6;
    0x1e140; 0x1e2f0; 0x1e950; 0x1fbf0 ]%N.

Definition decimal_value (c : N) : option N :=
  match List.find (fun z => (z <=? c) && (c <? z + 10))%N decimal_zeros with
  | Some z => Some (c - z)%N
  | None => None
  end.

Definition to_ascii_decimal (c : N) : N :=
  if (c <? 127)%N then c
  else if isspace c then 32%N
  else match decimal_value c with
       | Some d => (48 + d)%N
       | None => 63%N
       end.

Definition is_c_space (c : N) : bool :=
  ((9 <=? c) && (c <=? 13) || (c =? 32))%N.

Fixpoint skip_c_space (s : str) : str :=
  match s with
  | c :: s' => if is_c_space c then skip_c_space s' else s
  | [] => []
  end.

Fixpoint int_digits (s : str) (after_digit : bool) (acc : Z) : option Z :=
  match s with
  | [] => if after_digit then Some acc else None
  | c :: s' =>
    if ((48 <=? c) && (c <=? 57))%N
    then int_digits s' true (10 * acc + Z.of_N (c - 48))
    else if (c =? 95)%N && after_digit then int_digits s' false acc
    else None
  end.

Definition int_of_str (s : str) : option Z :=
  let t := rev (skip_c_space (rev (skip_c_space (List.map to_ascii_decimal s)))) in
  match t with
  | 43%N :: d => int_digits d false 0
  | 45%N :: d => Z.opp <$> int_digits d false 0
  | _ => int_digits t false 0
  end.

(* ===================================================================== *)
(** * Fitness classifier *)
(* ===================================================================== *)

(** The four labels [classify_skill] returns. *)
Inductive classification :=
  | top_performer | healthy | underperforming | failing.

#[global] Instance classification_eq_dec : EqDecision classification.
Proof. solve_decision. Defined.

Definition classification_label (c : classification) : str :=
  match c with
  | top_performer => u "top_performer"
  | healthy => u "healthy"
  | underperforming => u "underperforming"
  | failing => u "failing"
  end.

(** [THRESHOLDS]: the dictionary has four entries; [classify_skill] reads
    three of them. *)
Definition THRESHOLDS (c : classification) : float :=
  match c with
  | top_performer => 0.70
  | healthy => 0.50
  | underperforming => 0.35
  | failing => 0.20
  end%float.

(** [x >= y] on floats. *)
Definition float_ge (x y : float) : bool := PrimFloat.leb y x.

Definition classify_skill (fitness : float) : classification :=
  if float_ge fitness (THRESHOLDS top_performer) then top_performer
  else if float_ge fitness (THRESHOLDS healthy) then healthy
  else if float_ge fitness (THRESHOLDS underperforming) then underperforming
  else failing.

(** The rank of a band, lowest first. *)
Definition band_rank (c : classification) : nat :=
  match c with
  | failing => 0
  | underperforming => 1
  | healthy => 2
  | top_performer => 3
  end.

Definition float_gt (x y : float) : bool := PrimFloat.ltb y x.
Definition float_lt (x y : float) : bool := PrimFloat.ltb x y.

(** [x] is a number: not NaN. *)
Definition is_number (x : float) : Prop := float_ge x x = true.

(* ===================================================================== *)
(** * Data model *)
(* ===================================================================== *)

(** ** Dictionaries: association lists in insertion order *)

Definition dict (V : Type) : Type := list (str * V).

(** [d.get(k)]. *)
Fixpoint dict_get {V} (k : str) (d : dict V) : option V :=
  match d with
  | [] => None
  | (k', v) :: d' => if decide (k' = k) then Some v else dict_get k d'
  end.

(** [d[k] = v]: an existing key keeps its place, a new one goes last. *)
Fixpoint dict_set {V} (k : str) (v : V) (d : dict V) : dict V :=
  match d with
  | [] => [(k, v)]
  | (k', v') :: d' =>
    if decide (k' = k) then (k, v) :: d' else (k', v') :: dict_set k v d'
  end.

(** [list(d.keys())]. *)
Definition dict_keys {V} (d : dict V) : list str := d.*1.

(** The keys of a dictionary are distinct. *)
Definition dict_wf {V} (d : dict V) : Prop := NoDup d.*1.

(** ** The documents *)

(** One record of [fitness_history]. *)
Module History.
Record t := Build { timestamp : option str; mutation : option str }.
End History.

(** A skill definition, [skills/<name>.yaml]. A key that is absent from
    the document is [None]. *)
Module Skill.
Record t := Build {
  description : option str;
  version : option str;
  core_prompt : option str;
  modules : option (dict str);
  fitness_history : option (list History.t);
  last_compiled : option str;
  other : dict str   (* any further keys, untouched by the engine *)
}.

(** The document [{}]. *)
Definition empty : t := Build None None None None None None [].

Definition set_modules (m : dict str) (d : t) : t :=
  Build (description d) (version d) (core_prompt d) (Some m)
        (fitness_history d) (last_compiled d) (other d).
Definition set_version (v : str) (d : t) : t :=
  Build (description d) (Some v) (core_prompt d) (modules d)
        (fitness_history d) (last_compiled d) (other d).
Definition set_fitness_history (h : list History.t) (d : t) : t :=
  Build (description d) (version d) (core_prompt d) (modules d)
        (Some h) (last_compiled d) (other d).
Definition set_last_compiled (c : str) (d : t) : t :=
  Build (description d) (version d) (core_prompt d) (modules d)
        (fitness_history d) (Some c) (other d).
End Skill.

(** The module registry, [modules/registry.yaml]:
    module type -> version label -> [{prompt: text}]. *)
Module Variant.
Record t := Build { prompt : option str }.
End Variant.

Module Registry.
Record t := Build { modules : option (dict (dict Variant.t)) }.
Definition empty : t := Build None.
End Registry.

(** The evaluator's report. *)
Module Score.
Record t := Build { skill : str; fitness : float; invocations : Z }.
End Score.

Module Evaluation.
Record t := Build {
  error : option str;
  total_invocations : option Z;
  skills : option (list Score.t);
  snapshot_time : option str
}.
Definition set_snapshot_time (s : str) (e : t) : t :=
  Build (error e) (total_invocations e) (skills e) (Some s).
End Evaluation.

(** A candidate mutation. *)
Inductive suggestion_type := absorb | mutate.

#[global] Instance suggestion_type_eq_dec : EqDecision suggestion_type.
Proof. solve_decision. Defined.

Module Suggestion.
Record t := Build {
  type : suggestion_type;
  skill : str;
  module : str;
  from_version : str;
  to_version : str;
  reason : str
}.
End Suggestion.

(** A file that holds a YAML document: [None] is the null document of an
    empty file. [evolve.py] reads a missing file and a null document as
    [{}] ([load_yaml]: [yaml.safe_load(f) or {}]). *)
Definition load_yaml {A} (empty : A) (file : option (option A)) : A :=
  match file with
  | Some (Some d) => d
  | _ => empty
  end.

(* ===================================================================== *)
(** * History tracker *)
(* ===================================================================== *)

(** The [n] most recent records of a history. *)
Definition most_recent {A} (n : nat) (history : list A) : list A :=
  drop (length history - n) history.

(** [f"{module_type}:{version}"]. *)
Definition variant_key (module_type version : str) : str :=
  module_type ++ colon :: version.

(** The body of the loop of [get_recently_tried_variants]: the key a
    descriptor adds to the set, if any. *)
Definition tried_variant (mutation_str : str) : option str :=
  if char_in arrow mutation_str then
    let parts := split arrow mutation_str in
    if length parts =? 2 then
      let to_version := strip (nth 1 parts []) in
      let module_parts := split colon (nth 0 parts []) in
      if length module_parts =? 2 then
        let module_name := strip (nth 0 module_parts []) in
        Some (variant_key module_name to_version)
      else None
    else None
  else None.

Definition get_recently_tried_variants (skill_def : Skill.t) : gset str :=
  let recent_history :=
    slice_from (default [] (Skill.fitness_history skill_def)) (-10) in
  foldl (fun recently_tried h =>
           let mutation_str := default [] (History.mutation h) in
           match tried_variant mutation_str with
           | Some key => recently_tried ∪ {[ key ]}
           | None => recently_tried
           end)
        ∅ recent_history.

(** A suggestion is fresh when its pair is not in the recently-tried set. *)
Definition fresh (recently_tried : gset str) (s : Suggestion.t) : Prop :=
  variant_key (Suggestion.module s) (Suggestion.to_version s) ∉ recently_tried.

(* ===================================================================== *)
(** * The files, and the monad of the commands *)
(* ===================================================================== *)

(** What a command can see and change. [skill_files], [changelog_files],
    [command_files] and [evaluation_files] are directories, keyed by the
    stem of the file name; a skill name is that stem. [command_files] is
    [None] when the output directory of the compiler does not exist.
    [clock], [evaluator_runs] and [compiler_runs] count the readings of the
    clock and record the subprocesses started. *)
Record world := World {
  skill_files : gmap str (option Skill.t);
  registry_file : option (option Registry.t);
  changelog_files : gmap str str;
  command_files : option (gmap str str);
  evaluation_files : gmap str Evaluation.t;
  stdout : list str;
  clock : nat;
  evaluator_runs : nat;
  compiler_runs : list str
}.

Definition set_skill_files (x : gmap str (option Skill.t)) (w : world) : world :=
  World x (registry_file w) (changelog_files w) (command_files w)
        (evaluation_files w) (stdout w) (clock w) (evaluator_runs w)
        (compiler_runs w).
Definition set_changelog_files (x : gmap str str) (w : world) : world :=
  World (skill_files w) (registry_file w) x (command_files w)
        (evaluation_files w) (stdout w) (clock w) (evaluator_runs w)
        (compiler_runs w).
Definition set_command_files (x : option (gmap str str)) (w : world) : world :=
  World (skill_files w) (registry_file w) (changelog_files w) x
        (evaluation_files w) (stdout w) (clock w) (evaluator_runs w)
        (compiler_runs w).
Definition set_evaluation_files (x : gmap str Evaluation.t) (w : world) : world :=
  World (skill_files w) (registry_file w) (changelog_files w) (command_files w)
        x (stdout w) (clock w) (evaluator_runs w) (compiler_runs w).
Definition set_stdout (x : list str) (w : world) : world :=
  World (skill_files w) (registry_file w) (changelog_files w) (command_files w)
        (evaluation_files w) x (clock w) (evaluator_runs w) (compiler_runs w).
Definition set_clock (x : nat) (w : world) : world :=
  World (skill_files w) (registry_file w) (changelog_files w) (command_files w)
        (evaluation_files w) (stdout w) x (evaluator_runs w) (compiler_runs w).
Definition set_evaluator_runs (x : nat) (w : world) : world :=
  World (skill_files w) (registry_file w) (changelog_files w) (command_files w)
        (evaluation_files w) (stdout w) (clock w) x (compiler_runs w).
Definition set_compiler_runs (x : list str) (w : world) : world :=
  World (skill_files w) (registry_file w) (changelog_files w) (command_files w)
        (evaluation_files w) (stdout w) (clock w) (evaluator_runs w) x.

(** The skill definitions with the stamp of the compiler erased: what
    [compile.py] leaves as it is. *)
Definition without_last_compiled (files : gmap str (option Skill.t))
  : gmap str (option Skill.t) :=
  (fun file : option Skill.t => Skill.set_last_compiled [] <$> file) <$> files.

(** What a run of the compiler leaves as it was, from [w] to [w']: the
    skill definitions but for their stamp, the registry, the changelogs,
    the snapshots, and the count of evaluator runs. *)
Definition compiler_frame (w w' : world) : Prop :=
  without_last_compiled (skill_files w') = without_last_compiled (skill_files w) /\
  registry_file w' = registry_file w /\
  changelog_files w' = changelog_files w /\
  evaluation_files w' = evaluation_files w /\
  evaluator_runs w' = evaluator_runs w /\
  compiler_runs w' = compiler_runs w.

(** Nothing was mutated from [w] to [w']: the skill definitions, the
    changelogs, the compiled commands and the snapshots are the same, and
    no compiler was started. *)
Definition untouched (w w' : world) : Prop :=
  skill_files w' = skill_files w /\
  changelog_files w' = changelog_files w /\
  command_files w' = command_files w /\
  evaluation_files w' = evaluation_files w /\
  compiler_runs w' = compiler_runs w.

(** The exceptions the code can raise on the inputs of this model. *)
Inductive exn :=
  | ValueError | AttributeError | FileNotFoundError | JSONDecodeError
  | SystemExit (code : Z).

Inductive result (A : Type) : Type :=
  | Return (a : A) (w : world)
  | Raise (e : exn) (w : world).
Arguments Return {A} a w.
Arguments Raise {A} e w.

Definition world_of {A} (r : result A) : world :=
  match r with Return _ w => w | Raise _ w => w end.

Definition M (A : Type) : Type := world -> result A.

Definition ret {A} (a : A) : M A := fun w => Return a w.
Definition bind {A B} (m : M A) (k : A -> M B) : M B :=
  fun w => match m w with
           | Return a w' => k a w'
           | Raise e w' => Raise e w'
           end.
Definition raise {A} (e : exn) : M A := fun w => Raise e w.
Definition get : M world := fun w => Return w w.
Definition modify (f : world -> world) : M unit := fun w => Return tt (f w).

Declare Scope M_scope.
Delimit Scope M_scope with M.
Bind Scope M_scope with M.
Notation "x <- m ;; k" := (bind m (fun x => k))
  (at level 100, m at next level, right associativity) : M_scope.
Notation "m ;; k" := (bind m (fun _ => k))
  (at level 100, right associativity) : M_scope.
Open Scope M_scope.

(** [print(line)]. *)
Definition print (line : str) : M unit :=
  modify (fun w => set_stdout (stdout w ++ [line]) w).

(** [for x in l: acc = body(acc, x)], with the exceptions of the body. *)
Fixpoint for_fold {A B} (body : B -> A -> M B) (l : list A) (acc : B) : M B :=
  match l with
  | [] => ret acc
  | x :: l' => acc' <- body acc x ;; for_fold body l' acc'
  end.

Definition banner : str :=
  u "═══════════════════════════════════════════════════".
Definition rule : str :=
  u "───────────────────────────────────────────────────".

(** What the n-th run of [evaluate.sh] gives to [run_evaluate]. *)
Inductive evaluator_outcome :=
  | exit_nonzero (stderr : str)            (* returncode != 0 *)
  | unparseable_output                     (* exit 0, json.loads raises *)
  | parsed_output (report : Evaluation.t). (* exit 0, json.loads returns *)

(** One element of [mutations_applied]. *)
Module Applied.
Record t := Build {
old_fitness : float;
new_fitness : float;
suggestion : Suggestion.t
}.
End Applied.

(** [s.upper()] on ASCII text: the labels of the two suggestion types. *)
Definition upper (s : str) : str :=
  List.map (fun c => if ((97 <=? c) && (c <=? 122))%N then (c - 32)%N else c) s.

(** A skill that [cmd_apply] and [cmd_suggest] take up: underperforming or
    failing. *)
Definition low (skill_data : Score.t) : bool :=
  bool_decide (classify_skill (Score.fitness skill_data)
               ∈ [underperforming; failing]).

(** The names of the entries of a report that are underperforming or
    failing, in the order of the report. *)
Definition low_skills (evaluation : Evaluation.t) : list str :=
  Score.skill <$> List.filter low (default [] (Evaluation.skills evaluation)).

(** From [w] to [w'] no file of a skill outside [names] changed but for
    the stamp of the compiler: the definitions and the changelogs of the
    other skills, the registry and the snapshots are the same. *)
Definition touches_only (names : list str) (w w' : world) : Prop :=
  (forall other, other ∉ names ->
     without_last_compiled (skill_files w') !! other
     = without_last_compiled (skill_files w) !! other) /\
  (forall other, other ∉ names ->
     changelog_files w' !! other = changelog_files w !! other) /\
  registry_file w' = registry_file w /\
  evaluation_files w' = evaluation_files w.

(** The computation [m] always returns, with a value that satisfies [Q],
    and does nothing but print. *)
Definition prints_only {A} (m : M A) (Q : A -> Prop) : Prop :=
  forall w, exists a lines,
    m w = Return a (set_stdout (stdout w ++ lines) w) /\ Q a.

(** From [w] to [w'] the compiler was started for some of the names of
    [within], in their order, and for nobody else. *)
Definition runs_within (within : list str) (w w' : world) : Prop :=
  exists started,
    started `sublist_of` within /\
    compiler_runs w' = compiler_runs w ++ started.

(** Both of the above. *)
Definition effect (names within : list str) (w w' : world) : Prop :=
  touches_only names w w' /\ runs_within within w w'.


(* ===================================================================== *)
(** * The engine *)
(* ===================================================================== *)

(** The surroundings of the program: the clock, the float format, the home
    directory and the evaluator. *)
Class Environment := {
  datetime : Type;
  (** [datetime.utcnow()] at the n-th reading of the clock. *)
  utcnow : nat -> datetime;
  (** [d.strftime(format)]. *)
  strftime : str -> datetime -> str;
  (** [f"{x:.2f}"]. *)
  format_2f : float -> str;
  (** The home directory, as text. *)
  home : str;
  (** The n-th run of [evaluate.sh]. *)
  evaluate_sh : nat -> evaluator_outcome
}.

Section Engine.

Context `{Environment}.

Definition DARWIN_DIR : str := home ++ u "/.claude/darwin".
Definition SKILLS_DIR : str := DARWIN_DIR ++ u "/skills".
Definition EVALUATIONS_DIR : str := DARWIN_DIR ++ u "/evaluations".
Definition OUTPUT_DIR : str := home ++ u "/.claude/commands".

(** [datetime.utcnow().strftime(format)]. *)
Definition utcnow_strftime (format : str) : M str :=
  fun w => Return (strftime format (utcnow (clock w))) (set_clock (S (clock w)) w).

Definition run_evaluate : M Evaluation.t :=
  fun w =>
    let w' := set_evaluator_runs (S (evaluator_runs w)) w in
    match evaluate_sh (evaluator_runs w) with
    | exit_nonzero stderr =>
      Return (Evaluation.Build (Some stderr) None (Some []) None) w'
    | unparseable_output => Raise JSONDecodeError w'
    | parsed_output report => Return report w'
    end.

Definition get_module_variants (registry : Registry.t) (module_type : str)
  : list str :=
  let modules := default [] (Registry.modules registry) in
  let module := default [] (dict_get module_type modules) in
  dict_keys module.

Fixpoint get_skill_fitness_loop (skills : list Score.t) (skill_name : str)
  : option float :=
  match skills with
  | [] => None
  | skill :: rest =>
    if decide (Score.skill skill = skill_name) then Some (Score.fitness skill)
    else get_skill_fitness_loop rest skill_name
  end.

Definition get_skill_fitness (evaluation : Evaluation.t) (skill_name : str)
  : option float :=
  get_skill_fitness_loop (default [] (Evaluation.skills evaluation)) skill_name.

(** ** Suggestion engine *)

(** Strategy 1: the loop over the top performers. [files] is the skills
    directory, read and never written here. *)
Definition absorb_pass (files : gmap str (option Skill.t)) (skill_name : str)
    (current_modules : dict str) (recently_tried : gset str)
    (top_performers : list Score.t) (suggestions : list Suggestion.t)
  : list Suggestion.t :=
  foldl (fun suggestions top =>
    match files !! Score.skill top with
    | None => suggestions
    | Some file =>
      let top_def := load_yaml Skill.empty (Some file) in
      let top_modules := default [] (Skill.modules top_def) in
      foldl (fun suggestions '(module_type, top_version) =>
        let key := variant_key module_type top_version in
        if bool_decide (key ∈ recently_tried) then suggestions
        else if bool_decide (dict_get module_type current_modules ≠ Some top_version)
        then suggestions ++ [
          Suggestion.Build absorb skill_name module_type
            (default (u "unknown") (dict_get module_type current_modules))
            top_version
            (u "Absorb from top performer /" ++ Score.skill top
             ++ u " (fitness: " ++ format_2f (Score.fitness top) ++ u ")") ]
        else suggestions)
        suggestions top_modules
    end)
    suggestions top_performers.

(** Strategy 2: the loop over the modules of the skill. *)
Definition mutate_pass (skill_name : str) (current_modules : dict str)
    (recently_tried : gset str) (registry : Registry.t)
    (suggestions : list Suggestion.t) : list Suggestion.t :=
  foldl (fun suggestions '(module_type, current_version) =>
    let variants := get_module_variants registry module_type in
    foldl (fun suggestions variant =>
      let key := variant_key module_type variant in
      if bool_decide (key ∈ recently_tried) then suggestions
      else if bool_decide (variant ≠ current_version) then
        let already_suggested :=
          existsb (fun s => bool_decide (Suggestion.module s = module_type)
                            && bool_decide (Suggestion.to_version s = variant))
                  suggestions in
        if negb already_suggested
        then suggestions ++ [
          Suggestion.Build mutate skill_name module_type current_version variant
            (u "Try alternative variant (not recently tried)") ]
        else suggestions
      else suggestions)
      suggestions variants)
    suggestions current_modules.

Definition suggest_mutations (files : gmap str (option Skill.t))
    (skill_name : str) (skill_def : Skill.t) (fitness : float)
    (registry : Registry.t) (top_performers : list Score.t)
  : list Suggestion.t :=
  let suggestions := [] in
  let current_modules := default [] (Skill.modules skill_def) in
  let classification := classify_skill fitness in
  let recently_tried := get_recently_tried_variants skill_def in
  if bool_decide (classification ∈ [healthy; top_performer]) then []
  else
    let suggestions :=
      absorb_pass files skill_name current_modules recently_tried
                  top_performers suggestions in
    let suggestions :=
      mutate_pass skill_name current_modules recently_tried registry
                  suggestions in
    suggestions.

(** The choice of [cmd_apply] among the suggestions of one skill: none
    when there is no suggestion, else the first absorb suggestion, else
    the first suggestion. *)
Definition top_suggestion (suggestions : list Suggestion.t)
  : option Suggestion.t :=
  match suggestions with
  | [] => None
  | first :: _ =>
    let absorb_suggestions :=
      List.filter (fun s => bool_decide (Suggestion.type s = absorb)) suggestions in
    Some (match absorb_suggestions with a :: _ => a | [] => first end)
  end.

(** *** The two passes as the specification words them

    The absorb pass: for each top performer in the order given, for each
    pair of its module selection, an absorb suggestion when the version
    differs from the current one of the skill and the pair was not tried
    recently. *)
Definition absorb_candidates (files : gmap str (option Skill.t)) (skill_name : str)
    (current_modules : dict str) (recently_tried : gset str)
    (top_performers : list Score.t) : list Suggestion.t :=
  flat_map (fun top =>
    match files !! Score.skill top with
    | None => []
    | Some file =>
      flat_map (fun '(module_type, version) =>
        if bool_decide (dict_get module_type current_modules ≠ Some version
                        ∧ variant_key module_type version ∉ recently_tried)
        then [ Suggestion.Build absorb skill_name module_type
                 (default (u "unknown") (dict_get module_type current_modules))
                 version
                 (u "Absorb from top performer /" ++ Score.skill top
                  ++ u " (fitness: " ++ format_2f (Score.fitness top) ++ u ")") ]
        else [])
        (default [] (Skill.modules (load_yaml Skill.empty (Some file))))
    end) top_performers.

(** The mutate pass: for each module type the skill uses, for each version
    registered for it other than the current one, a mutate suggestion
    unless the pair was tried recently or an absorb suggestion has the
    same module type and destination version. *)
Definition mutate_candidates (skill_name : str) (current_modules : dict str)
    (recently_tried : gset str) (registry : Registry.t)
    (absorbed : list Suggestion.t) : list Suggestion.t :=
  flat_map (fun '(module_type, current_version) =>
    flat_map (fun variant =>
      if bool_decide (variant ≠ current_version
                      ∧ (variant_key module_type variant ∉ recently_tried)
                      ∧ ¬ Exists (fun s => Suggestion.module s = module_type
                                          ∧ Suggestion.to_version s = variant)
                                 absorbed)
      then [ Suggestion.Build mutate skill_name module_type current_version variant
               (u "Try alternative variant (not recently tried)") ]
      else [])
      (get_module_variants registry module_type))
    current_modules.

(** ** Mutation applier *)

(** [f"{module_type}: {old_version} → {new_version}"]. *)
Definition mutation_descriptor (module_type old_version new_version : str)
  : str :=
  module_type ++ u ": " ++ old_version ++ u " → " ++ new_version.

Definition apply_mutation (skill_name module_type new_version : str) : M bool :=
  w <- get ;;
  match skill_files w !! skill_name with
  | None =>
    print (u "  Error: Skill file not found: "
           ++ SKILLS_DIR ++ u "/" ++ skill_name ++ u ".yaml") ;;
    ret false
  | Some file =>
    let skill_def := load_yaml Skill.empty (Some file) in
    let old_version :=
      default (u "unknown")
              (dict_get module_type (default [] (Skill.modules skill_def))) in
    let skill_def :=
      Skill.set_modules
        (dict_set module_type new_version (default [] (Skill.modules skill_def)))
        skill_def in
    let version := default (u "1.0.0") (Skill.version skill_def) in
    let parts := split dot version in
    match int_of_str (List.last parts []) with
    | None => raise ValueError
    | Some patch =>
      let parts := <[length parts - 1 := str_of_int (patch + 1)]> parts in
      let skill_def := Skill.set_version (join [dot] parts) skill_def in
      timestamp <- utcnow_strftime (u "%Y-%m-%dT%H:%M:%SZ") ;;
      let skill_def :=
        Skill.set_fitness_history
          (default [] (Skill.fitness_history skill_def)
           ++ [History.Build (Some timestamp)
                 (Some (mutation_descriptor module_type old_version new_version))])
          skill_def in
      modify (fun w => set_skill_files
                         (<[skill_name := Some skill_def]> (skill_files w)) w) ;;
      ret true
    end
  end.

(** ** The compiler, [compile.py] *)

Definition get_module_prompt (registry : Registry.t) (module_type version : str)
  : str :=
  let modules := default [] (Registry.modules registry) in
  let module := default [] (dict_get module_type modules) in
  let variant := default (Variant.Build None) (dict_get version module) in
  default [] (Variant.prompt variant).

(** [registry] is what [yaml.safe_load] gave for the registry file, [None]
    for an empty file: reading a key of it then raises. *)
Definition compile_skill (skill_name : str) (registry : option Registry.t)
  : M bool :=
  w <- get ;;
  match skill_files w !! skill_name with
  | None =>
    print (u "Error: Skill definition not found: "
           ++ SKILLS_DIR ++ u "/" ++ skill_name ++ u ".yaml") ;;
    ret false
  | Some file =>
    print (u "Compiling: " ++ skill_name) ;;
    match file with
    | None => raise AttributeError
    | Some skill =>
      let description := default [] (Skill.description skill) in
      let version := default (u "1.0.0") (Skill.version skill) in
      let modules := default [] (Skill.modules skill) in
      let input_ver := default (u "v1") (dict_get (u "input") modules) in
      let research_ver := default (u "v1") (dict_get (u "research") modules) in
      let structure_ver := default (u "v1") (dict_get (u "structure") modules) in
      let output_ver := default (u "v1") (dict_get (u "output") modules) in
      let workflow_ver := default (u "v1") (dict_get (u "workflow") modules) in
      let validation_ver := default (u "v3") (dict_get (u "validation") modules) in
      match registry with
      | None => raise AttributeError
      | Some registry =>
        let input_prompt := get_module_prompt registry (u "input") input_ver in
        let research_prompt := get_module_prompt registry (u "research") research_ver in
        let output_prompt := get_module_prompt registry (u "output") output_ver in
        let workflow_prompt := get_module_prompt registry (u "workflow") workflow_ver in
        let validation_prompt :=
          get_module_prompt registry (u "validation") validation_ver in
        let core_prompt := default [] (Skill.core_prompt skill) in
        let assembled :=
          join [nl]
            [ u "---";
              u "description: " ++ description;
              u "darwin_version: " ++ version;
              u "darwin_modules:";
              u "  input: " ++ input_ver;
              u "  research: " ++ research_ver;
              u "  structure: " ++ structure_ver;
              u "  output: " ++ output_ver;
              u "  workflow: " ++ workflow_ver;
              u "  validation: " ++ validation_ver;
              u "---";
              [];
              core_prompt; [];
              input_prompt; [];
              research_prompt; [];
              output_prompt; [];
              workflow_prompt; [];
              validation_prompt; [] ] in
        w <- get ;;
        match command_files w with
        | None => raise FileNotFoundError
        | Some files =>
          modify (set_command_files (Some (<[skill_name := assembled]> files))) ;;
          timestamp <- utcnow_strftime (u "%Y-%m-%dT%H:%M:%SZ") ;;
          let skill := Skill.set_last_compiled timestamp skill in
          modify (fun w => set_skill_files
                             (<[skill_name := Some skill]> (skill_files w)) w) ;;
          print (u "  → " ++ OUTPUT_DIR ++ u "/" ++ skill_name ++ u ".md") ;;
          print (u "  Modules: input=" ++ input_ver
                 ++ u " research=" ++ research_ver
                 ++ u " structure=" ++ structure_ver
                 ++ u " output=" ++ output_ver
                 ++ u " workflow=" ++ workflow_ver
                 ++ u " validation=" ++ validation_ver) ;;
          ret true
        end
      end
    end
  end.

(** [main] of [compile.py] with one argument (the only way the engine
    starts it). [--all] compiles the skills directory as it is listed. *)
Definition compile_main (arg : str) : M unit :=
  w <- get ;;
  match registry_file w with
  | None =>
    print (u "Error: Module registry not found: "
           ++ DARWIN_DIR ++ u "/modules/registry.yaml") ;;
    raise (SystemExit 1)
  | Some registry =>
    if decide (arg = u "--all") then
      print banner ;;
      print (u "DARWIN SKILL COMPILER - All Skills") ;;
      print banner ;;
      print [] ;;
      for_fold (fun (_ : unit) '(stem, _) =>
                  _ <- compile_skill stem registry ;; print [])
               (map_to_list (skill_files w)) tt ;;
      print banner ;;
      print (u "Compilation complete") ;;
      print banner
    else
      _ <- compile_skill arg registry ;; ret tt
  end.

(** [subprocess.run(["python3", ".../compile.py", skill_name],
    capture_output=True)]: the output of the compiler is captured and
    dropped; the exit code is 0 unless the compiler exits with another
    code or dies of an exception. *)
Definition recompile_skill (skill_name : str) : M bool :=
  fun w =>
    let started :=
      set_stdout [] (set_compiler_runs (compiler_runs w ++ [skill_name]) w) in
    match compile_main skill_name started with
    | Return _ w' => Return true (set_stdout (stdout w) w')
    | Raise (SystemExit code) w' =>
      Return (bool_decide (code = 0%Z)) (set_stdout (stdout w) w')
    | Raise _ w' => Return false (set_stdout (stdout w) w')
    end.

(** ** Changelog recorder *)

Definition suggestion_type_label (t : suggestion_type) : str :=
  match t with absorb => u "absorb" | mutate => u "mutate" end.

(** The section marker ["\n## "] that [write_changelog] looks for. *)
Definition section_marker : str := nl :: u "## ".

Definition changelog_title (skill_name : str) : str :=
  u "# /" ++ skill_name ++ u " Evolution Changelog" ++ [nl; nl].

(** The entry [write_changelog] builds. *)
Definition changelog_entry (version timestamp : str)
    (mutations : list Suggestion.t) (old_fitness : float)
    (new_fitness : option float) : str :=
  let entry := nl :: u "## v" ++ version ++ u " (" ++ timestamp ++ u ")" ++ [nl; nl] in
  let entry := entry ++ u "**Fitness:** " ++ format_2f old_fitness in
  let entry :=
    match new_fitness with
    | Some new_fitness =>
      let delta := (new_fitness - old_fitness)%float in
      entry ++ u " → " ++ format_2f new_fitness ++ u " ("
            ++ (if float_ge delta 0%float then u "+" else [])
            ++ format_2f delta ++ u ")"
    | None => entry
    end in
  let entry := entry ++ [nl; nl] in
  let entry := entry ++ u "**Mutations:**" ++ [nl] in
  let entry :=
    foldl (fun entry m =>
             let entry :=
               entry ++ u "- `" ++ Suggestion.module m ++ u "`: "
                     ++ Suggestion.from_version m ++ u " → "
                     ++ Suggestion.to_version m ++ u " ("
                     ++ suggestion_type_label (Suggestion.type m) ++ u ")" ++ [nl] in
             entry ++ u "  - Reason: " ++ Suggestion.reason m ++ [nl])
          entry mutations in
  entry ++ nl :: u "---" ++ [nl].

(** The prepending step of [write_changelog]. *)
Definition prepend_entry (content entry : str) : str :=
  let header_end := find section_marker content in
  if (header_end =? -1)%Z then content ++ entry
  else slice_to content header_end ++ entry ++ slice_from content header_end.

Definition write_changelog (skill_name : str) (mutations : list Suggestion.t)
    (old_fitness : float) (new_fitness : option float) : M unit :=
  w <- get ;;
  let content :=
    match changelog_files w !! skill_name with
    | Some content => content
    | None => changelog_title skill_name
    end in
  let skill_def :=
    match skill_files w !! skill_name with
    | Some file => load_yaml Skill.empty (Some file)
    | None => Skill.empty
    end in
  let version := default (u "?.?.?") (Skill.version skill_def) in
  timestamp <- utcnow_strftime (u "%Y-%m-%d %H:%M UTC") ;;
  let entry := changelog_entry version timestamp mutations old_fitness new_fitness in
  let content := prepend_entry content entry in
  modify (fun w => set_changelog_files
                     (<[skill_name := content]> (changelog_files w)) w).

(** ** Cycle orchestrator *)

(** The three lines [cmd_apply] prints before it applies a suggestion. *)
Definition announce_mutation (skill_name : str) (suggestion : Suggestion.t)
  : M unit :=
  print (u "Evolving /" ++ skill_name ++ u "...") ;;
  print (u "  " ++ Suggestion.module suggestion ++ u ": "
         ++ Suggestion.from_version suggestion ++ u " → "
         ++ Suggestion.to_version suggestion) ;;
  print (u "  Reason: " ++ Suggestion.reason suggestion).

(** The body of the loop of [cmd_apply] for one skill of the report;
    [continue] is the return of [mutations_applied] as it is. *)
Definition cmd_apply_skill (registry : Registry.t) (top_performers : list Score.t)
    (mutations_applied : list Applied.t) (skill_data : Score.t)
  : M (list Applied.t) :=
  let skill_name := Score.skill skill_data in
  let fitness := Score.fitness skill_data in
  let classification := classify_skill fitness in
  if bool_decide (classification ∉ [underperforming; failing])
  then ret mutations_applied
  else
    w <- get ;;
    match skill_files w !! skill_name with
    | None => ret mutations_applied
    | Some file =>
      let skill_def := load_yaml Skill.empty (Some file) in
      let suggestions :=
        suggest_mutations (skill_files w) skill_name skill_def fitness
                          registry top_performers in
      match top_suggestion suggestions with
      | None => ret mutations_applied
      | Some suggestion =>
        announce_mutation skill_name suggestion ;;
        applied <- apply_mutation skill_name (Suggestion.module suggestion)
                                  (Suggestion.to_version suggestion) ;;
        mutations_applied <-
          (if applied : bool then
             recompiled <- recompile_skill skill_name ;;
             if recompiled : bool then
               print (u "  ✓ Mutation applied and recompiled") ;;
               print (u "  ⏳ Verifying fitness change...") ;;
               new_evaluation <- run_evaluate ;;
               new_fitness <-
                 match get_skill_fitness new_evaluation skill_name with
                 | Some new_fitness =>
                   let delta := (new_fitness - fitness)%float in
                   (if float_gt delta 0%float then
                      print (u "  ✓ Fitness improved: " ++ format_2f fitness
                             ++ u " → " ++ format_2f new_fitness
                             ++ u " (+" ++ format_2f delta ++ u ")")
                    else if float_lt delta 0%float then
                      print (u "  ⚠ Fitness dropped: " ++ format_2f fitness
                             ++ u " → " ++ format_2f new_fitness
                             ++ u " (" ++ format_2f delta ++ u ")") ;;
                      print (u "    Consider: python evolve.py rollback "
                             ++ skill_name)
                    else
                      print (u "  → Fitness unchanged: " ++ format_2f fitness)) ;;
                   ret new_fitness
                 | None =>
                   print (u "  ⚠ Could not verify fitness (using baseline)") ;;
                   ret fitness
                 end ;;
               let mutations_applied :=
                 mutations_applied ++ [Applied.Build fitness new_fitness suggestion] in
               write_changelog skill_name [suggestion] fitness (Some new_fitness) ;;
               ret mutations_applied
             else
               print (u "  ✗ Recompilation failed") ;;
               ret mutations_applied
           else
             print (u "  ✗ Mutation failed") ;;
             ret mutations_applied) ;;
        print [] ;;
        ret mutations_applied
      end
    end.

Definition cmd_apply : M unit :=
  evaluation <- run_evaluate ;;
  match Evaluation.error evaluation with
  | Some error => print (u "Error: " ++ error)
  | None =>
    w <- get ;;
    let registry := load_yaml Registry.empty (registry_file w) in
    let skills := default [] (Evaluation.skills evaluation) in
    let top_performers :=
      List.filter (fun s => bool_decide (classify_skill (Score.fitness s) = top_performer))
                  skills in
    print banner ;;
    print (u "DARWIN EVOLUTION - APPLYING MUTATIONS") ;;
    print banner ;;
    print [] ;;
    mutations_applied <-
      for_fold (cmd_apply_skill registry top_performers) skills [] ;;
    (match mutations_applied with
     | _ :: _ =>
       print rule ;;
       print (u "Applied " ++ str_of_int (Z.of_nat (length mutations_applied))
              ++ u " mutation(s)") ;;
       print (u "Changelogs updated in ~/.claude/darwin/changelogs/")
     | [] => print (u "No mutations applied.")
     end) ;;
    print banner
  end.

Definition count_class (c : classification) (skills : list Score.t) : list Score.t :=
  List.filter (fun s => bool_decide (classify_skill (Score.fitness s) = c)) skills.

Definition cmd_cycle : M unit :=
  print banner ;;
  print (u "DARWIN EVOLUTION CYCLE") ;;
  print banner ;;
  print [] ;;
  print (u "Step 1: EVALUATE") ;;
  print rule ;;
  evaluation <- run_evaluate ;;
  match Evaluation.error evaluation with
  | Some error => print (u "Error: " ++ error)
  | None =>
    let skills := default [] (Evaluation.skills evaluation) in
    print (u "Evaluated " ++ str_of_int (Z.of_nat (length skills)) ++ u " skills") ;;
    let top := count_class top_performer skills in
    let healthy := count_class healthy skills in
    let under := count_class underperforming skills in
    let failing := count_class failing skills in
    print (u "  Top performers: " ++ str_of_int (Z.of_nat (length top))) ;;
    print (u "  Healthy: " ++ str_of_int (Z.of_nat (length healthy))) ;;
    print (u "  Underperforming: " ++ str_of_int (Z.of_nat (length under))) ;;
    print (u "  Failing: " ++ str_of_int (Z.of_nat (length failing))) ;;
    print [] ;;
    print (u "Step 2: SNAPSHOT") ;;
    print rule ;;
    week <- utcnow_strftime (u "%Y-W%V") ;;
    snapshot_time <- utcnow_strftime (u "%Y-%m-%dT%H:%M:%SZ") ;;
    let evaluation := Evaluation.set_snapshot_time snapshot_time evaluation in
    modify (fun w => set_evaluation_files
                       (<[week := evaluation]> (evaluation_files w)) w) ;;
    print (u "Saved: " ++ EVALUATIONS_DIR ++ u "/" ++ week ++ u ".json") ;;
    print [] ;;
    print (u "Step 3: EVOLVE") ;;
    print rule ;;
    (match under, failing with
     | [], [] => print (u "All skills are healthy. No evolution needed.")
     | _, _ => cmd_apply
     end) ;;
    print [] ;;
    print banner ;;
    print (u "EVOLUTION CYCLE COMPLETE") ;;
    print banner
  end.

(** ** The command [suggest] *)

(** The two lines [cmd_suggest] prints for one suggestion. *)
Definition show_suggestion (s : Suggestion.t) : M unit :=
  print (u "  [" ++ upper (suggestion_type_label (Suggestion.type s)) ++ u "] "
         ++ Suggestion.module s ++ u ": " ++ Suggestion.from_version s
         ++ u " → " ++ Suggestion.to_version s) ;;
  print (u "           " ++ Suggestion.reason s).

(** The body of the loop of [cmd_suggest] for one skill of the report. *)
Definition cmd_suggest_skill (registry : Registry.t) (top_performers : list Score.t)
    (all_suggestions : list Suggestion.t) (skill_data : Score.t)
  : M (list Suggestion.t) :=
  let skill_name := Score.skill skill_data in
  let fitness := Score.fitness skill_data in
  let classification := classify_skill fitness in
  if bool_decide (classification ∈ [underperforming; failing]) then
    w <- get ;;
    match skill_files w !! skill_name with
    | None => ret all_suggestions
    | Some file =>
      let skill_def := load_yaml Skill.empty (Some file) in
      let suggestions :=
        suggest_mutations (skill_files w) skill_name skill_def fitness
                          registry top_performers in
      match suggestions with
      | [] => ret all_suggestions
      | _ :: _ =>
        print (u "/" ++ skill_name ++ u " (fitness: " ++ format_2f fitness
               ++ u ", " ++ classification_label classification ++ u ")") ;;
        print rule ;;
        for_fold (fun (_ : unit) s => show_suggestion s)
                 (slice_to suggestions 3) tt ;;
        let all_suggestions := all_suggestions ++ slice_to suggestions 3 in
        print [] ;;
        ret all_suggestions
      end
    end
  else ret all_suggestions.

Definition cmd_suggest : M unit :=
  evaluation <- run_evaluate ;;
  match Evaluation.error evaluation with
  | Some error => print (u "Error: " ++ error)
  | None =>
    w <- get ;;
    let registry := load_yaml Registry.empty (registry_file w) in
    let skills := default [] (Evaluation.skills evaluation) in
    let top_performers :=
      List.filter (fun s => bool_decide (classify_skill (Score.fitness s) = top_performer))
                  skills in
    print banner ;;
    print (u "DARWIN EVOLUTION SUGGESTIONS") ;;
    print banner ;;
    print [] ;;
    all_suggestions <-
      for_fold (cmd_suggest_skill registry top_performers) skills [] ;;
    (match all_suggestions with
     | [] =>
       print (u "No mutations needed. All skills are healthy or top performers.")
     | _ :: _ =>
       print (u "Total suggestions: "
              ++ str_of_int (Z.of_nat (length all_suggestions))) ;;
       print [] ;;
       print (u "Run 'python evolve.py apply' to apply top suggestion per skill.")
     end) ;;
    print banner
  end.

End Engine.

(* ===================================================================== *)
(** * Sample data *)
(* ===================================================================== *)

Module Sample.

(** Surroundings in which the clock counts its readings, every float
    prints as "#.##", and the evaluator exits with an error. *)
Definition environment : Environment := {|
  datetime := nat;
  utcnow := fun n => n;
  strftime := fun format d => format ++ u "@" ++ str_of_int (Z.of_nat d);
  format_2f := fun _ => u "#.##";
  home := u "/home/op";
  evaluate_sh := fun _ => exit_nonzero (u "evaluate.sh: no usage log")
|}.

(** The skill of the specification's example of a mutation: version
    1.2.3, validation v3. *)
Definition writer : Skill.t :=
  Skill.Build (Some (u "Writes prose")) (Some (u "1.2.3")) (Some (u "Write."))
              (Some [(u "validation", u "v3")]) None None [].

(** A skill whose version ends in a pre-release tag. *)
Definition drafter : Skill.t :=
  Skill.Build (Some (u "Drafts")) (Some (u "1.0.0-beta")) None
              (Some [(u "validation", u "v3")]) None None [].

(** The skill of the end-to-end scenario: validation v2, and input v1. *)
Definition editor : Skill.t :=
  Skill.Build (Some (u "Edits")) (Some (u "1.0.7")) None
              (Some [(u "validation", u "v2"); (u "input", u "v1")])
              None None [].

(** The top performer of the scenario. *)
Definition reviewer : Skill.t :=
  Skill.Build (Some (u "Reviews")) (Some (u "2.0.0")) None
              (Some [(u "validation", u "v3")]) None None [].

Definition three_versions : dict Variant.t :=
  [(u "v1", Variant.Build (Some (u "one")));
   (u "v2", Variant.Build (Some (u "two")));
   (u "v3", Variant.Build (Some (u "three")))].

Definition registry : Registry.t :=
  Registry.Build (Some [(u "validation", three_versions);
                        (u "input", three_versions)]).

Definition skills : gmap str (option Skill.t) :=
  <[u "writer" := Some writer]>
    (<[u "drafter" := Some drafter]>
       (<[u "editor" := Some editor]>
          (<[u "reviewer" := Some reviewer]> ∅))).

(** A home in which the registry file is missing and no changelog was
    written yet. *)
Definition initial : world :=
  World skills None ∅ (Some ∅) ∅ [] 0 0 [].

Definition top_performers : list Score.t :=
  [Score.Build (u "reviewer") 0.9 12].

(** A report of the evaluator: the editor fails, the reviewer excels. *)
Definition report : Evaluation.t :=
  Evaluation.Build None (Some 17%Z)
    (Some [Score.Build (u "editor") 0.30 5; Score.Build (u "reviewer") 0.9 12])
    None.

(** Surroundings in which the evaluator gives that report at every run. *)
Definition reporting : Environment := {|
  datetime := nat;
  utcnow := fun n => n;
  strftime := fun format d => format ++ u "@" ++ str_of_int (Z.of_nat d);
  format_2f := fun _ => u "#.##";
  home := u "/home/op";
  evaluate_sh := fun _ => parsed_output report
|}.

(** A home with the registry in place. *)
Definition ready : world :=
  World skills (Some (Some registry)) ∅ (Some ∅) ∅ [] 0 0 [].

Definition absorb_validation : Suggestion.t :=
  Suggestion.Build absorb (u "editor") (u "validation") (u "v2") (u "v3")
                   (u "Absorb from top performer /reviewer (fitness: #.##)").

(** The editor after one mutation had been recorded in its history. *)
Definition editor_after_v3 : Skill.t :=
  Skill.set_fitness_history
    [History.Build (Some (u "2024-05-01T10:00:00Z"))
                   (Some (u "validation: v3 → v2"));
     History.Build (Some (u "2024-05-08T10:00:00Z"))
                   (Some (u "validation: v1 → v3"))]
    editor.

Definition mutate_to (module_type from_version to_version : str)
  : Suggestion.t :=
  Suggestion.Build mutate (u "editor") module_type from_version to_version
                   (u "Try alternative variant (not recently tried)").


(** The registry with prompts for the module type structure as well. *)
Definition registry_with_structure : Registry.t :=
  Registry.Build (Some [(u "validation", three_versions);
                        (u "input", three_versions);
                        (u "structure", three_versions)]).

(** Surroundings in which the output of the evaluator never parses. *)
Definition garbling : Environment := {|
  datetime := nat;
  utcnow := fun n => n;
  strftime := fun format d => format ++ u "@" ++ str_of_int (Z.of_nat d);
  format_2f := fun _ => u "#.##";
  home := u "/home/op";
  evaluate_sh := fun _ => unparseable_output
|}.

(** A report in which every skill does well. *)
Definition healthy_report : Evaluation.t :=
  Evaluation.Build None (Some 20%Z)
    (Some [Score.Build (u "reviewer") 0.9 12; Score.Build (u "writer") 0.6 8])
    None.

(** Surroundings in which the evaluator gives that report at every run. *)
Definition thriving : Environment := {|
  datetime := nat;
  utcnow := fun n => n;
  strftime := fun format d => format ++ u "@" ++ str_of_int (Z.of_nat d);
  format_2f := fun _ => u "#.##";
  home := u "/home/op";
  evaluate_sh := fun _ => parsed_output healthy_report
|}.

(** Three changelog entries, oldest first. *)
Definition three_entries : list str :=
  [nl :: u "## v1.0.1 (first)"; nl :: u "## v1.0.2 (second)";
   nl :: u "## v1.0.3 (third)"].

(** The editor after it had tried every other version of its two module
    types. *)
Definition editor_exhausted : Skill.t :=
  Skill.set_fitness_history
    [History.Build None (Some (u "validation: v2 → v1"));
     History.Build None (Some (u "validation: v1 → v3"));
     History.Build None (Some (u "input: v1 → v2"));
     History.Build None (Some (u "input: v2 → v3"))]
    editor.

End Sample.

(* ===================================================================== *)
(** * Properties *)
(* ===================================================================== *)

(** ** Comparison of binary64 values *)

Lemma SFcompare_swap x y : SFcompare y x = CompOpp <$> SFcompare x y.
Proof.
  destruct x as [sx|sx| |sx mx ex], y as [sy|sy| |sy my ey]; simpl;
    repeat match goal with s : bool |- _ => destruct s end; simpl; try reflexivity.
  all: rewrite !Pos.compare_cont_spec, (Z.compare_antisym ex ey),
         (Pos.compare_antisym mx my); simpl;
       destruct (ex ?= ey)%Z; simpl; try reflexivity;
       destruct (mx ?= my)%positive; reflexivity.
Qed.

Lemma SFleb_trans x y z :
  SFleb x y = true -> SFleb y z = true -> SFleb x z = true.
Proof.
  unfold SFleb.
  destruct x as [sx|sx| |sx mx ex], y as [sy|sy| |sy my ey],
           z as [sz|sz| |sz mz ez]; simpl;
    repeat match goal with s : bool |- _ => destruct s end; simpl; try congruence.
  all: rewrite ?Pos.compare_cont_spec; simpl.
  all: destruct (Z.compare_spec ex ey), (Z.compare_spec ey ez),
                (Z.compare_spec ex ez); try lia; try congruence; subst;
       destruct (Pos.compare_spec mx my), (Pos.compare_spec my mz),
                (Pos.compare_spec mx mz); simpl; try lia; try congruence.
Qed.

Lemma SFltb_leb x y : SFltb x y = true -> SFleb x y = true.
Proof. unfold SFltb, SFleb. by destruct (SFcompare x y) as [[]|]. Qed.

Lemma SFltb_not_leb x y : SFltb x y = true -> SFleb y x = false.
Proof.
  unfold SFltb, SFleb. rewrite (SFcompare_swap x y).
  by destruct (SFcompare x y) as [[]|].
Qed.

Lemma SFleb_false_ltb x y :
  SFleb x x = true -> SFleb y y = true -> SFleb x y = false -> SFltb y x = true.
Proof.
  unfold SFltb, SFleb. rewrite (SFcompare_swap x y).
  destruct x as [sx|sx| |sx mx ex], y as [sy|sy| |sy my ey]; simpl; try congruence;
    repeat match goal with s : bool |- _ => destruct s end; simpl; try congruence;
    intros _ _; destruct (ex ?= ey)%Z; simpl; try congruence;
    destruct (Pos.compare_cont Eq mx my); simpl; congruence.
Qed.

(** The same on primitive floats, in the notation of the program. *)

Lemma float_ge_trans x y z :
  float_ge x y = true -> float_ge y z = true -> float_ge x z = true.
Proof.
  unfold float_ge. rewrite !leb_spec. intros H1 H2. by eapply SFleb_trans.
Qed.

Lemma float_gt_ge x y : float_gt x y = true -> float_ge x y = true.
Proof. unfold float_gt, float_ge. rewrite leb_spec, ltb_spec. apply SFltb_leb. Qed.

Lemma float_lt_not_ge x y : float_lt x y = true -> float_ge x y = false.
Proof.
  unfold float_lt, float_ge. rewrite leb_spec, ltb_spec. apply SFltb_not_leb.
Qed.

Lemma float_ge_number_l x y : float_ge x y = true -> is_number x.
Proof.
  unfold is_number, float_ge. rewrite !leb_spec. unfold SFleb.
  destruct (Prim2SF x) as [?|?| |? ? ?], (Prim2SF y) as [?|?| |? ? ?]; simpl;
    repeat match goal with s : bool |- _ => destruct s end; simpl;
    try congruence; intros _;
    rewrite ?Z.compare_refl, ?Pos.compare_cont_refl; done.
Qed.

Lemma float_ge_number_r x y : float_ge x y = true -> is_number y.
Proof.
  unfold is_number, float_ge. rewrite !leb_spec. unfold SFleb.
  destruct (Prim2SF x) as [?|?| |? ? ?], (Prim2SF y) as [?|?| |? ? ?]; simpl;
    repeat match goal with s : bool |- _ => destruct s end; simpl;
    try congruence; intros _;
    rewrite ?Z.compare_refl, ?Pos.compare_cont_refl; done.
Qed.

Lemma float_not_ge_lt x y :
  is_number x -> is_number y -> float_ge x y = false -> float_lt x y = true.
Proof.
  unfold is_number, float_lt, float_ge. rewrite !leb_spec, ltb_spec.
  intros. by apply SFleb_false_ltb.
Qed.

Lemma float_lt_iff_not_ge x y :
  is_number x -> is_number y -> float_lt x y = true <-> float_ge x y = false.
Proof. split; [apply float_lt_not_ge | by apply float_not_ge_lt]. Qed.

Lemma THRESHOLDS_number c : is_number (THRESHOLDS c).
Proof. by destruct c. Qed.

Lemma THRESHOLDS_ordered :
  float_ge (THRESHOLDS top_performer) (THRESHOLDS healthy) = true /\
  float_ge (THRESHOLDS healthy) (THRESHOLDS underperforming) = true /\
  float_ge (THRESHOLDS underperforming) (THRESHOLDS failing) = true /\
  float_ge (THRESHOLDS failing) 0 = true /\
  float_ge 1 (THRESHOLDS top_performer) = true.
Proof. by vm_compute. Qed.

(** ** Fitness classifier *)

(** The classification by the tests of [classify_skill], one band each. *)
Lemma classify_skill_top f :
  classify_skill f = top_performer <-> float_ge f (THRESHOLDS top_performer) = true.
Proof.
  unfold classify_skill.
  repeat match goal with |- context [if ?b then _ else _] => destruct b end;
    split; congruence.
Qed.

Lemma classify_skill_healthy f :
  classify_skill f = healthy <->
  float_ge f (THRESHOLDS top_performer) = false /\
  float_ge f (THRESHOLDS healthy) = true.
Proof.
  unfold classify_skill.
  repeat match goal with |- context [if ?b then _ else _] => destruct b end;
    intuition congruence.
Qed.

Lemma classify_skill_underperforming f :
  classify_skill f = underperforming <->
  float_ge f (THRESHOLDS healthy) = false /\
  float_ge f (THRESHOLDS underperforming) = true.
Proof.
  unfold classify_skill.
  destruct (float_ge f (THRESHOLDS top_performer)) eqn:Ht.
  - pose proof THRESHOLDS_ordered as (H & _).
    rewrite (float_ge_trans _ _ _ Ht H). intuition congruence.
  - repeat match goal with |- context [if ?b then _ else _] => destruct b end;
      intuition congruence.
Qed.

Lemma classify_skill_failing f :
  classify_skill f = failing <-> float_ge f (THRESHOLDS underperforming) = false.
Proof.
  unfold classify_skill.
  pose proof THRESHOLDS_ordered as (H1 & H2 & _).
  destruct (float_ge f (THRESHOLDS top_performer)) eqn:Ht.
  { rewrite (float_ge_trans _ _ _ (float_ge_trans _ _ _ Ht H1) H2).
    split; congruence. }
  destruct (float_ge f (THRESHOLDS healthy)) eqn:Hh.
  { rewrite (float_ge_trans _ _ _ Hh H2). split; congruence. }
  destruct (float_ge f (THRESHOLDS underperforming)); split; congruence.
Qed.

Lemma classify_skill_monotone f1 f2 :
  float_ge f2 f1 = true ->
  band_rank (classify_skill f1) <= band_rank (classify_skill f2).
Proof.
  intros Hle. unfold classify_skill.
  assert (Hup : forall c, float_ge f1 (THRESHOLDS c) = true ->
                          float_ge f2 (THRESHOLDS c) = true).
  { intros c Hc. by eapply float_ge_trans. }
  destruct (float_ge f1 (THRESHOLDS top_performer)) eqn:H1.
  { by rewrite (Hup _ H1). }
  destruct (float_ge f1 (THRESHOLDS healthy)) eqn:H2.
  { rewrite (Hup _ H2). repeat case_match; simpl; lia. }
  destruct (float_ge f1 (THRESHOLDS underperforming)) eqn:H3.
  { rewrite (Hup _ H3). repeat case_match; simpl; lia. }
  simpl. lia.
Qed.

Lemma float_eqb_ge x y : PrimFloat.eqb x y = true -> float_ge x y = true /\ float_ge y x = true.
Proof.
  unfold float_ge. rewrite FloatAxioms.eqb_spec, !leb_spec. unfold SFeqb, SFleb.
  rewrite (SFcompare_swap (Prim2SF x) (Prim2SF y)).
  by destruct (SFcompare _ _) as [[]|].
Qed.

Lemma band_rank_inj c1 c2 : band_rank c1 = band_rank c2 -> c1 = c2.
Proof. by destruct c1, c2. Qed.

(** C2. On a fitness in [0,1], [classify_skill] gives exactly the band
    whose inclusive lower bound the fitness reaches, the bounds being tried
    highest first: at least 0.70 is [top_performer], from 0.50 up to but not
    0.70 is [healthy], from 0.35 up to but not 0.50 is [underperforming],
    below 0.35 is [failing]. The six values named by the specification
    fall as it says, and a higher fitness never gets a lower band. *)
Theorem classify_skill_bands :
  (forall f, float_ge f 0 = true -> float_ge 1 f = true ->
     (classify_skill f = top_performer <-> float_ge f 0.70 = true) /\
     (classify_skill f = healthy <->
        float_ge f 0.50 = true /\ float_lt f 0.70 = true) /\
     (classify_skill f = underperforming <->
        float_ge f 0.35 = true /\ float_lt f 0.50 = true) /\
     (classify_skill f = failing <-> float_lt f 0.35 = true)) /\
  (classify_skill 0.70 = top_performer /\
   classify_skill 0.6999 = healthy /\
   classify_skill 0.50 = healthy /\
   classify_skill 0.35 = underperforming /\
   classify_skill 0.3499 = failing /\
   classify_skill 0.0 = failing) /\
  (forall f1 f2,
     float_ge f1 0 = true -> float_ge 1 f1 = true ->
     float_ge f2 0 = true -> float_ge 1 f2 = true ->
     float_ge f2 f1 = true ->
     band_rank (classify_skill f1) <= band_rank (classify_skill f2)).
Proof.
  split; [|split].
  - intros f H0 _.
    pose proof (float_ge_number_l _ _ H0) as Hf.
    assert (Hlt : forall c, float_lt f (THRESHOLDS c) = true <->
                            float_ge f (THRESHOLDS c) = false).
    { intros c. apply float_lt_iff_not_ge; [done | apply THRESHOLDS_number]. }
    repeat split.
    + by apply classify_skill_top.
    + by apply classify_skill_top.
    + by apply classify_skill_healthy.
    + apply (Hlt top_performer). by apply classify_skill_healthy.
    + intros [? ?%(Hlt top_performer)]. by apply classify_skill_healthy.
    + by apply classify_skill_underperforming.
    + apply (Hlt healthy). by apply classify_skill_underperforming.
    + intros [? ?%(Hlt healthy)]. by apply classify_skill_underperforming.
    + intros ?. apply (Hlt underperforming). by apply classify_skill_failing.
    + intros ?%(Hlt underperforming). by apply classify_skill_failing.
  - by vm_compute.
  - intros f1 f2 _ _ _ _. apply classify_skill_monotone.
Qed.

(** C10. [classify_skill] gives one of the four labels on every float, in
    or out of [0,1]; equal inputs get the same label; whatever is below
    0.35 is [failing] (so is whatever is below the threshold 0.20 that the
    table holds and the function never reads, and whatever is negative);
    whatever is above 1 is [top_performer]. *)
Theorem classify_skill_total :
  (forall f, classification_label (classify_skill f)
             ∈ [u "top_performer"; u "healthy"; u "underperforming"; u "failing"]) /\
  NoDup [u "top_performer"; u "healthy"; u "underperforming"; u "failing"] /\
  (forall f1 f2, PrimFloat.eqb f1 f2 = true -> classify_skill f1 = classify_skill f2) /\
  (forall f, float_lt f 0.35 = true -> classify_skill f = failing) /\
  (forall f, float_lt f (THRESHOLDS failing) = true -> classify_skill f = failing) /\
  (forall f, float_lt f 0 = true -> classify_skill f = failing) /\
  (forall f, float_gt f 1 = true -> classify_skill f = top_performer).
Proof.
  assert (Hbelow : forall f c,
             float_ge (THRESHOLDS underperforming) c = true ->
             float_lt f c = true -> classify_skill f = failing).
  { intros f c Hc Hf. apply classify_skill_failing.
    destruct (float_ge f (THRESHOLDS underperforming)) eqn:Hge; [|done].
    pose proof (float_ge_trans _ _ _ Hge Hc) as Hfc.
    apply float_lt_not_ge in Hf. congruence. }
  repeat split.
  - intros f. destruct (classify_skill f); vm_compute; set_solver.
  - eapply (bool_decide_unpack _). by vm_compute.
  - intros f1 f2 [H1 H2]%float_eqb_ge. apply band_rank_inj.
    apply Nat.le_antisymm; by apply classify_skill_monotone.
  - intros f. by apply Hbelow.
  - intros f. by apply Hbelow.
  - intros f. by apply Hbelow.
  - intros f Hf. apply classify_skill_top.
    apply float_gt_ge in Hf. eapply float_ge_trans; [done|by vm_compute].
Qed.

(** ** Strings: membership and [split] *)

Lemma char_in_spec c s : char_in c s = true <-> c ∈ s.
Proof.
  unfold char_in. rewrite existsb_exists. split.
  - intros (x & Hx%list_elem_of_In & ->%N.eqb_eq). done.
  - intros Hc. exists c. split; [by apply list_elem_of_In | apply N.eqb_refl].
Qed.

Lemma split_not_nil sep s : split sep s <> [].
Proof.
  destruct s as [|c s]; simpl; [done|].
  destruct (c =? sep)%N; [done|]. by destruct (split sep s).
Qed.

Lemma split_notin sep s : sep ∉ s -> split sep s = [s].
Proof.
  induction s as [|c s IH]; simpl; [done|].
  intros [Hc Hs]%not_elem_of_cons.
  destruct (N.eqb_spec c sep) as [->|_]; [done|]. by rewrite IH.
Qed.

Lemma split_app sep a b :
  sep ∉ a -> split sep (a ++ sep :: b) = a :: split sep b.
Proof.
  induction a as [|c a IH]; simpl.
  - intros _. by rewrite N.eqb_refl.
  - intros [Hc Ha]%not_elem_of_cons.
    destruct (N.eqb_spec c sep) as [->|_]; [done|]. by rewrite IH.
Qed.

(** What [split] does, read backwards: the parts hold no separator, and
    joined by it they give the string back. *)
Lemma split_parts sep s :
  Forall (fun p => sep ∉ p) (split sep s) /\ join [sep] (split sep s) = s.
Proof.
  induction s as [|c s [IH1 IH2]]; simpl.
  - split; [|done]. repeat constructor. apply not_elem_of_nil.
  - destruct (N.eqb_spec c sep) as [->|Hne].
    + split; [constructor; [apply not_elem_of_nil | done]|].
      pose proof (split_not_nil sep s).
      destruct (split sep s); [done|]. simpl in *. by rewrite IH2.
    + pose proof (split_not_nil sep s).
      destruct (split sep s) as [|p ps]; [done|].
      apply Forall_cons in IH1 as [Hp Hps]. split.
      * constructor; [|done]. apply not_elem_of_cons. split; [congruence|done].
      * rewrite <- IH2. by destruct ps.
Qed.

Lemma split_two sep s a b :
  split sep s = [a; b] <-> s = a ++ sep :: b /\ (sep ∉ a) /\ (sep ∉ b).
Proof.
  split.
  - intros Hs. destruct (split_parts sep s) as [Hall Hjoin].
    rewrite Hs in Hall, Hjoin. simpl in Hjoin.
    inversion Hall as [|? ? Ha Hall']; inversion Hall' as [|? ? Hb _]; subst. done.
  - intros (-> & Ha & Hb). by rewrite split_app, split_notin.
Qed.

Lemma split_length_two sep s :
  length (split sep s) = 2 ->
  exists a b, split sep s = [a; b].
Proof.
  destruct (split sep s) as [|a [|b [|]]]; simpl; try done. eauto.
Qed.


(** ** History tracker *)

(** A descriptor adds a key exactly when one arrow cuts it in two and one
    colon cuts what precedes the arrow in two; the key joins the stripped
    text before the colon and the stripped text after the arrow. *)
Lemma tried_variant_spec d key :
  tried_variant d = Some key <->
  exists module_type old new,
    d = module_type ++ colon :: old ++ arrow :: new /\
    (colon ∉ module_type) /\ (colon ∉ old) /\
    (arrow ∉ module_type) /\ (arrow ∉ old) /\ (arrow ∉ new) /\
    key = variant_key (strip module_type) (strip new).
Proof.
  unfold tried_variant. split.
  - destruct (char_in arrow d); [|done].
    destruct (length (split arrow d) =? 2) eqn:Hlen; [|done].
    apply Nat.eqb_eq, split_length_two in Hlen as (left & new & Hparts).
    rewrite Hparts. simpl.
    destruct (length (split colon left) =? 2) eqn:Hlen'; [|done].
    apply Nat.eqb_eq, split_length_two in Hlen' as (m & old & Hparts').
    rewrite Hparts'. simpl. intros [= <-].
    apply split_two in Hparts as (-> & Hleft & Hnew).
    apply split_two in Hparts' as (-> & Hm & Hold).
    exists m, old, new. rewrite <- app_assoc. simpl.
    repeat split; try done; set_solver.
  - intros (m & old & new & -> & Hm & Hold & Hm' & Hold' & Hnew & ->).
    assert (Harrow : arrow ∈ m ++ colon :: old ++ arrow :: new) by set_solver.
    apply char_in_spec in Harrow. rewrite Harrow.
    assert (Hleft : arrow ∉ m ++ colon :: old).
    { rewrite not_elem_of_app, not_elem_of_cons. done. }
    replace (m ++ colon :: old ++ arrow :: new)
      with ((m ++ colon :: old) ++ arrow :: new) by (by rewrite <- app_assoc).
    rewrite (split_app arrow _ _ Hleft), (split_notin arrow new Hnew). simpl.
    by rewrite (split_app colon _ _ Hm), (split_notin colon old Hold).
Qed.

Lemma slice_from_last {A} (l : list A) (n : nat) :
  n <> 0 -> slice_from l (- Z.of_nat n) = most_recent n l.
Proof.
  intros Hn. unfold slice_from, most_recent, slice_index. f_equal.
  destruct (Z.ltb_spec (- Z.of_nat n) 0); lia.
Qed.

Lemma recently_tried_fold (l : list History.t) (acc : gset (list N)) key :
  key ∈ foldl (fun recently_tried h =>
                 match tried_variant (default [] (History.mutation h)) with
                 | Some key => recently_tried ∪ {[ key ]}
                 | None => recently_tried
                 end) acc l <->
  (key ∈ acc) \/
  exists h, (h ∈ l) /\ tried_variant (default [] (History.mutation h)) = Some key.
Proof.
  revert acc. induction l as [|h l IH]; intros acc; simpl.
  - split; [auto | intros [ | (? & Hnil & _)]; [done | by apply elem_of_nil in Hnil]].
  - rewrite IH. destruct (tried_variant _) as [k|] eqn:Hk.
    + rewrite elem_of_union, elem_of_singleton. split.
      * intros [[ | ->] | (h' & ? & ?)]; eauto.
        -- right. exists h. split; [left|done].
        -- right. exists h'. split; [by right|done].
      * intros [ | (h' & [-> | ]%elem_of_cons & Hh')]; eauto.
        rewrite Hk in Hh'. injection Hh' as ->. auto.
    + split.
      * intros [ | (h' & ? & ?)]; eauto. right. exists h'. split; [by right|done].
      * intros [ | (h' & [-> | ]%elem_of_cons & Hh')]; eauto. congruence.
Qed.

Lemma get_recently_tried_variants_elem skill_def key :
  key ∈ get_recently_tried_variants skill_def <->
  exists h, (h ∈ most_recent 10 (default [] (Skill.fitness_history skill_def))) /\
            tried_variant (default [] (History.mutation h)) = Some key.
Proof.
  unfold get_recently_tried_variants.
  rewrite (slice_from_last _ 10) by done.
  rewrite recently_tried_fold. split; [intros [[]%not_elem_of_empty | ] | ]; auto.
Qed.

Lemma mutation_descriptor_shape module_type old new :
  mutation_descriptor module_type old new
  = module_type ++ colon :: (32%N :: old ++ [32%N]) ++ arrow :: 32%N :: new.
Proof.
  unfold mutation_descriptor.
  change (u ": ") with [colon; 32%N]. change (u " → ") with [32%N; arrow; 32%N].
  simpl. by rewrite <- !app_assoc.
Qed.

Lemma tried_variant_descriptor module_type old new :
  colon ∉ module_type -> arrow ∉ module_type ->
  colon ∉ old -> arrow ∉ old -> arrow ∉ new ->
  tried_variant (mutation_descriptor module_type old new)
  = Some (variant_key (strip module_type) (strip new)).
Proof.
  intros Hm Hm' Ho Ho' Hn. apply tried_variant_spec.
  exists module_type, (32%N :: old ++ [32%N]), (32%N :: new).
  split; [apply mutation_descriptor_shape|].
  assert (Hc : colon <> 32%N) by done. assert (Ha : arrow <> 32%N) by done.
  repeat split; try done.
  - rewrite not_elem_of_cons, not_elem_of_app, not_elem_of_cons.
    repeat split; try done. apply not_elem_of_nil.
  - rewrite not_elem_of_cons, not_elem_of_app, not_elem_of_cons.
    repeat split; try done. apply not_elem_of_nil.
  - by apply not_elem_of_cons.
Qed.

(** C4. [get_recently_tried_variants] returns exactly the keys read from
    the descriptors of the 10 most recent records. A descriptor gives a key
    when one arrow cuts it in two and one colon cuts the part before the
    arrow in two: the key is the module type (the stripped text before the
    colon), a colon, and the destination version (the stripped text after the
    arrow). Any other descriptor gives nothing, and the function is total.
    In particular a descriptor written as "<module_type>: <old> → <new>"
    from fields without separators gives the key of its module type and
    destination version; the two-record history of the specification gives
    the two keys it names, and the record "broken" gives none. *)
Theorem get_recently_tried_variants_spec :
  (forall skill_def key,
     key ∈ get_recently_tried_variants skill_def <->
     exists h module_type old new,
       (h ∈ most_recent 10 (default [] (Skill.fitness_history skill_def))) /\
       History.mutation h = Some (module_type ++ colon :: old ++ arrow :: new) /\
       (colon ∉ module_type) /\ (colon ∉ old) /\
       (arrow ∉ module_type) /\ (arrow ∉ old) /\ (arrow ∉ new) /\
       key = variant_key (strip module_type) (strip new)) /\
  (forall skill_def h module_type old new,
     h ∈ most_recent 10 (default [] (Skill.fitness_history skill_def)) ->
     History.mutation h = Some (mutation_descriptor module_type old new) ->
     colon ∉ module_type -> arrow ∉ module_type ->
     colon ∉ old -> arrow ∉ old -> arrow ∉ new ->
     strip module_type = module_type -> strip new = new ->
     variant_key module_type new ∈ get_recently_tried_variants skill_def) /\
  get_recently_tried_variants
    (Skill.set_fitness_history
       [History.Build None (Some (u "validation: v1 → v2"));
        History.Build None (Some (u "input: v1 → v3"))] Skill.empty)
  = {[ u "validation:v2"; u "input:v3" ]} /\
  get_recently_tried_variants
    (Skill.set_fitness_history [History.Build None (Some (u "broken"))] Skill.empty)
  = ∅.
Proof.
  split; [|split; [|split]].
  - intros skill_def key. rewrite get_recently_tried_variants_elem. split.
    + intros (h & Hh & Hkey). apply tried_variant_spec in Hkey
        as (m & old & new & Hd & Hrest).
      exists h, m, old, new. split; [done|]. split; [|done].
      destruct (History.mutation h) as [d|]; simpl in Hd; [by subst|].
      by destruct m.
    + intros (h & m & old & new & Hh & Hd & Hrest).
      exists h. split; [done|]. rewrite Hd. simpl.
      apply tried_variant_spec. by exists m, old, new.
  - intros skill_def h m old new Hh Hd Hm Hm' Ho Ho' Hn Hsm Hsn.
    apply get_recently_tried_variants_elem. exists h. split; [done|].
    rewrite Hd. simpl. rewrite tried_variant_descriptor by done.
    by rewrite Hsm, Hsn.
  - unfold get_recently_tried_variants. simpl.
    change (slice_from _ _) with
      [History.Build None (Some (u "validation: v1 → v2"));
       History.Build None (Some (u "input: v1 → v3"))].
    simpl.
    replace (tried_variant (u "validation: v1 → v2"))
      with (Some (u "validation:v2")) by (by vm_compute).
    replace (tried_variant (u "input: v1 → v3"))
      with (Some (u "input:v3")) by (by vm_compute).
    set_solver.
  - unfold get_recently_tried_variants. simpl.
    change (slice_from _ _) with [History.Build None (Some (u "broken"))].
    simpl.
    by replace (tried_variant (u "broken")) with (@None (list N)) by (by vm_compute).
Qed.

(** ** Suggestion engine *)

Lemma foldl_invariant {A B} (P : B -> Prop) (f : B -> A -> B) l acc :
  P acc -> (forall b a, P b -> P (f b a)) -> P (foldl f acc l).
Proof.
  intros Hacc Hstep. revert acc Hacc.
  induction l as [|a l IH]; simpl; intros acc Hacc; [done|]. by apply IH, Hstep.
Qed.

Lemma foldl_app_flat_map {A B} (f : list B -> A -> list B) (g : A -> list B) l acc :
  (forall acc a, f acc a = acc ++ g a) ->
  foldl f acc l = acc ++ flat_map g l.
Proof.
  intros Hf. revert acc. induction l as [|a l IH]; simpl; intros acc.
  - by rewrite app_nil_r.
  - by rewrite IH, Hf, <- app_assoc.
Qed.

Lemma successful_class c :
  c ∈ [healthy; top_performer] <-> c = healthy \/ c = top_performer.
Proof. rewrite !elem_of_cons, elem_of_nil. tauto. Qed.

Section Suggestions.

Context `{Environment}.

Lemma absorb_pass_fresh files skill_name current rt tops acc :
  Forall (fresh rt) acc ->
  Forall (fresh rt) (absorb_pass files skill_name current rt tops acc).
Proof.
  intros Hacc. unfold absorb_pass. apply foldl_invariant; [done|].
  intros acc' top Hacc'. destruct (files !! Score.skill top); [|done].
  apply foldl_invariant; [done|].
  intros acc'' [module_type version] Hacc''.
  case_bool_decide as Hkey; [done|]. case_bool_decide; [|done].
  apply Forall_app. split; [done|]. by repeat constructor.
Qed.

Lemma mutate_pass_fresh skill_name current rt registry acc :
  Forall (fresh rt) acc ->
  Forall (fresh rt) (mutate_pass skill_name current rt registry acc).
Proof.
  intros Hacc. unfold mutate_pass. apply foldl_invariant; [done|].
  intros acc' [module_type current_version] Hacc'.
  apply foldl_invariant; [done|].
  intros acc'' variant Hacc''.
  case_bool_decide as Hkey; [done|]. case_bool_decide; [|done].
  destruct (existsb _ _); simpl; [done|].
  apply Forall_app. split; [done|]. by repeat constructor.
Qed.

(** C3. Whatever the skill, the registry, the top performers and the
    history: no suggestion that [suggest_mutations] returns, absorb or
    mutate, has a key "<module_type>:<to_version>" in the recently-tried
    set computed from the history of the skill. *)
Theorem suggest_mutations_not_recently_tried
    files skill_name skill_def fitness registry top_performers :
  Forall (fun s =>
            variant_key (Suggestion.module s) (Suggestion.to_version s)
            ∉ get_recently_tried_variants skill_def)
         (suggest_mutations files skill_name skill_def fitness registry
                            top_performers).
Proof.
  unfold suggest_mutations. case_bool_decide; [done|].
  by apply mutate_pass_fresh, absorb_pass_fresh.
Qed.

(** C5. A skill that classifies as healthy or top performer gets the
    empty list, whatever the files, the registry, the top performers and
    its history. *)
Theorem suggest_mutations_successful_skill
    files skill_name skill_def fitness registry top_performers :
  classify_skill fitness = healthy \/ classify_skill fitness = top_performer ->
  suggest_mutations files skill_name skill_def fitness registry top_performers = [].
Proof.
  intros Hc. unfold suggest_mutations.
  case_bool_decide as Hin; [done|]. by apply successful_class in Hc.
Qed.

Lemma absorb_pass_candidates files skill_name current rt tops acc :
  absorb_pass files skill_name current rt tops acc
  = acc ++ absorb_candidates files skill_name current rt tops.
Proof.
  unfold absorb_pass, absorb_candidates. apply foldl_app_flat_map.
  intros acc' top. destruct (files !! Score.skill top); [|by rewrite app_nil_r].
  apply foldl_app_flat_map. intros acc'' [module_type version].
  repeat case_bool_decide; rewrite ?app_nil_r; try done; tauto.
Qed.

(** [already_suggested] of the mutate pass, on a list. *)
Lemma already_suggested_spec module_type variant (suggestions : list Suggestion.t) :
  existsb (fun s => bool_decide (Suggestion.module s = module_type)
                    && bool_decide (Suggestion.to_version s = variant))
          suggestions = true <->
  Exists (fun s => Suggestion.module s = module_type
                   /\ Suggestion.to_version s = variant) suggestions.
Proof.
  rewrite existsb_exists, Exists_exists. split.
  - intros (s & Hs%list_elem_of_In & Hb). exists s. split; [done|].
    apply andb_true_iff in Hb as [?%bool_decide_eq_true ?%bool_decide_eq_true]. done.
  - intros (s & Hs%list_elem_of_In & Hm & Hv). exists s. split; [done|].
    apply andb_true_iff. by rewrite !bool_decide_eq_true.
Qed.

(** The candidates of one module type of the skill. *)
Lemma mutate_variants_candidates (skill_name : list N) (rt : gset (list N))
    (absorbed : list Suggestion.t) (module_type current_version : list N)
    (variants : list (list N)) (earlier : list Suggestion.t) :
  NoDup variants ->
  Forall (fun s => Suggestion.module s = module_type ->
                   Suggestion.to_version s ∉ variants) earlier ->
  foldl (fun suggestions variant =>
           let key := variant_key module_type variant in
           if bool_decide (key ∈ rt) then suggestions
           else if bool_decide (variant ≠ current_version) then
             let already_suggested :=
               existsb (fun s => bool_decide (Suggestion.module s = module_type)
                                 && bool_decide (Suggestion.to_version s = variant))
                       suggestions in
             if negb already_suggested
             then suggestions ++ [
               Suggestion.Build mutate skill_name module_type current_version variant
                 (u "Try alternative variant (not recently tried)") ]
             else suggestions
           else suggestions)
        (absorbed ++ earlier) variants
  = (absorbed ++ earlier) ++
    flat_map (fun variant =>
      if bool_decide (variant ≠ current_version
                      ∧ (variant_key module_type variant ∉ rt)
                      ∧ ¬ Exists (fun s => Suggestion.module s = module_type
                                          ∧ Suggestion.to_version s = variant)
                                 absorbed)
      then [ Suggestion.Build mutate skill_name module_type current_version variant
               (u "Try alternative variant (not recently tried)") ]
      else []) variants.
Proof.
  revert earlier. induction variants as [|v variants IH]; intros earlier Hnd Hearlier.
  { simpl. by rewrite app_nil_r. }
  apply NoDup_cons in Hnd as [Hv Hnd].
  assert (Hnot : ~ Exists (fun s => Suggestion.module s = module_type
                                   /\ Suggestion.to_version s = v) earlier).
  { rewrite Exists_exists. intros (s & Hs & Hm & Hto).
    rewrite Forall_forall in Hearlier. apply (Hearlier s Hs Hm).
    rewrite Hto. left. }
  assert (Htail : Forall (fun s => Suggestion.module s = module_type ->
                                   Suggestion.to_version s ∉ variants) earlier).
  { eapply Forall_impl; [done|]. simpl. intros s Hs Hm.
    specialize (Hs Hm). by apply not_elem_of_cons in Hs as [_ ?]. }
  simpl foldl. simpl flat_map.
  destruct (existsb _ (absorbed ++ earlier)) eqn:Hex.
  - apply already_suggested_spec, Exists_app in Hex as [Hex|Hex]; [|done].
    rewrite (bool_decide_eq_false_2 (_ ∧ _ ∧ _)) by tauto.
    simpl. repeat case_bool_decide; by apply IH.
  - assert (Hno : ~ Exists (fun s => Suggestion.module s = module_type
                                    /\ Suggestion.to_version s = v) absorbed).
    { intros Habs. apply not_true_iff_false in Hex. apply Hex.
      apply already_suggested_spec, Exists_app. by left. }
    case_bool_decide as Hkey.
    { rewrite (bool_decide_eq_false_2 (_ ∧ _ ∧ _)) by tauto. by apply IH. }
    case_bool_decide as Hcur.
    + rewrite (bool_decide_eq_true_2 (_ ∧ _ ∧ _)) by done. simpl negb. cbv iota.
      rewrite <- (app_assoc absorbed), (IH (earlier ++ [_])), <- !app_assoc; [done..|].
      apply Forall_app. split; [done|]. by repeat constructor.
    + rewrite (bool_decide_eq_false_2 (_ ∧ _ ∧ _)) by tauto. by apply IH.
Qed.

Lemma mutate_pass_candidates_from (skill_name : list N) (current : dict (list N))
    (rt : gset (list N)) (registry : Registry.t)
    (absorbed earlier : list Suggestion.t) :
  dict_wf current ->
  (forall module_type, NoDup (get_module_variants registry module_type)) ->
  Forall (fun s => Suggestion.module s ∉ current.*1) earlier ->
  mutate_pass skill_name current rt registry (absorbed ++ earlier)
  = (absorbed ++ earlier)
    ++ mutate_candidates skill_name current rt registry absorbed.
Proof.
  intros Hwf Hreg. unfold mutate_pass, mutate_candidates, dict_wf in *.
  revert earlier.
  induction current as [|[module_type current_version] current IH];
    intros earlier Hearlier.
  { simpl. by rewrite !app_nil_r. }
  simpl in Hwf. apply NoDup_cons in Hwf as [Hm Hwf].
  simpl foldl. simpl flat_map.
  rewrite mutate_variants_candidates; [|done|].
  - rewrite <- (app_assoc absorbed), IH, <- !app_assoc; [done..|].
    apply Forall_app. split.
    + eapply Forall_impl; [done|]. simpl. intros s Hs.
      by apply not_elem_of_cons in Hs as [_ ?].
    + apply Forall_flat_map, Forall_forall. intros v _.
      case_bool_decide; by repeat constructor.
  - eapply Forall_impl; [done|]. simpl. intros s Hs Heq.
    apply not_elem_of_cons in Hs as [? _]. done.
Qed.

Lemma mutate_pass_candidates (skill_name : list N) (current : dict (list N))
    (rt : gset (list N)) (registry : Registry.t) (absorbed : list Suggestion.t) :
  dict_wf current ->
  (forall module_type, NoDup (get_module_variants registry module_type)) ->
  mutate_pass skill_name current rt registry absorbed
  = absorbed ++ mutate_candidates skill_name current rt registry absorbed.
Proof.
  intros Hwf Hreg.
  pose proof (mutate_pass_candidates_from skill_name current rt registry
                absorbed [] Hwf Hreg) as Hfrom.
  rewrite !app_nil_r in Hfrom. by apply Hfrom.
Qed.

Lemma top_suggestion_spec (suggestions : list Suggestion.t) :
  top_suggestion suggestions
  = match List.filter (fun s => bool_decide (Suggestion.type s = absorb)) suggestions with
    | a :: _ => Some a
    | [] => head suggestions
    end.
Proof.
  unfold top_suggestion. destruct suggestions as [|s l]; [done|].
  by destruct (List.filter _ (s :: l)).
Qed.

Lemma absorb_candidates_type (files : gmap (list N) (option Skill.t))
    (skill_name : list N) (current : dict (list N)) (rt : gset (list N))
    (tops : list Score.t) :
  Forall (fun s => Suggestion.type s = absorb)
         (absorb_candidates files skill_name current rt tops).
Proof.
  unfold absorb_candidates. apply Forall_flat_map, Forall_forall. intros top _.
  destruct (files !! Score.skill top); [|done].
  apply Forall_flat_map, Forall_forall. intros [module_type version] _.
  case_bool_decide; by repeat constructor.
Qed.

Lemma mutate_candidates_type (skill_name : list N) (current : dict (list N))
    (rt : gset (list N)) (registry : Registry.t) (absorbed : list Suggestion.t) :
  Forall (fun s => Suggestion.type s = mutate)
         (mutate_candidates skill_name current rt registry absorbed).
Proof.
  unfold mutate_candidates. apply Forall_flat_map, Forall_forall.
  intros [module_type current_version] _.
  apply Forall_flat_map, Forall_forall. intros variant _.
  case_bool_decide; by repeat constructor.
Qed.

Lemma filter_absorb_app (absorbed mutated : list Suggestion.t) :
  Forall (fun s => Suggestion.type s = absorb) absorbed ->
  Forall (fun s => Suggestion.type s = mutate) mutated ->
  List.filter (fun s => bool_decide (Suggestion.type s = absorb)) (absorbed ++ mutated)
  = absorbed.
Proof.
  intros Ha Hm. induction Ha as [|s absorbed Hs _ IH]; simpl.
  - induction Hm as [|s mutated Hs _ IH]; simpl; [done|].
    by rewrite Hs.
  - rewrite Hs. simpl. by rewrite IH.
Qed.

(** C6. For a skill that is underperforming or failing, the list that
    [suggest_mutations] returns is the absorb suggestions, in the order of
    the donors, followed by the mutate suggestions. The mutate suggestions
    are, for each module type the skill uses and each version registered
    for it other than the current one, one suggestion unless the pair was
    tried recently or an absorb suggestion has the same module type and
    destination version: what the mutate pass added before plays no part.
    The suggestion chosen for application is the first absorb suggestion
    when there is one, else the first of the list. *)
Theorem suggest_mutations_order
    files skill_name skill_def fitness registry top_performers :
  classify_skill fitness = underperforming \/ classify_skill fitness = failing ->
  dict_wf (default [] (Skill.modules skill_def)) ->
  (forall module_type, NoDup (get_module_variants registry module_type)) ->
  let current_modules := default [] (Skill.modules skill_def) in
  let recently_tried := get_recently_tried_variants skill_def in
  let absorbed :=
    absorb_candidates files skill_name current_modules recently_tried
                      top_performers in
  let mutated :=
    mutate_candidates skill_name current_modules recently_tried registry
                      absorbed in
  suggest_mutations files skill_name skill_def fitness registry top_performers
  = absorbed ++ mutated /\
  Forall (fun s => Suggestion.type s = absorb) absorbed /\
  Forall (fun s => Suggestion.type s = mutate) mutated /\
  top_suggestion (absorbed ++ mutated)
  = match absorbed with a :: _ => Some a | [] => head mutated end /\
  (forall suggestions,
     top_suggestion suggestions
     = match List.filter (fun s => bool_decide (Suggestion.type s = absorb))
                         suggestions with
       | a :: _ => Some a
       | [] => head suggestions
       end).
Proof.
  intros Hclass Hwf Hreg current_modules recently_tried absorbed mutated.
  pose proof (absorb_candidates_type files skill_name current_modules
                recently_tried top_performers) as Ha.
  pose proof (mutate_candidates_type skill_name current_modules recently_tried
                registry absorbed) as Hm.
  repeat split; try done.
  - unfold suggest_mutations. case_bool_decide as Hin.
    { apply successful_class in Hin. destruct Hclass, Hin; congruence. }
    rewrite absorb_pass_candidates. simpl.
    by rewrite mutate_pass_candidates.
  - rewrite top_suggestion_spec, filter_absorb_app by done.
    fold absorbed. by destruct absorbed.
  - apply top_suggestion_spec.
Qed.

End Suggestions.

(** ** Running the monad *)

Lemma bind_Return {A B} (m : M A) (k : A -> M B) w a w' :
  m w = Return a w' -> bind m k w = k a w'.
Proof. unfold bind. by intros ->. Qed.


Lemma last_snoc {A} (l : list A) x d : List.last (l ++ [x]) d = x.
Proof. apply List.last_last. Qed.

Lemma insert_last {A} (l : list A) x y :
  <[length (l ++ [x]) - 1 := y]> (l ++ [x]) = l ++ [y].
Proof.
  rewrite length_app. simpl.
  replace (length l + 1 - 1) with (length l + 0) by lia.
  by rewrite insert_app_r.
Qed.

Lemma dict_get_set {V} k (v : V) d : dict_get k (dict_set k v d) = Some v.
Proof.
  induction d as [|[k' v'] d IH]; simpl; [by rewrite decide_True|].
  destruct (decide (k' = k)) as [->|Hne]; simpl.
  - by rewrite decide_True.
  - by rewrite decide_False.
Qed.

Lemma dict_get_set_ne {V} k k' (v : V) d :
  k' <> k -> dict_get k' (dict_set k v d) = dict_get k' d.
Proof.
  intros Hne. induction d as [|[k0 v0] d IH]; simpl.
  - by rewrite decide_False.
  - destruct (decide (k0 = k)) as [->|Hne0]; simpl.
    + by rewrite !decide_False.
    + destruct (decide (k0 = k')); [done|apply IH].
Qed.

Lemma dict_set_keys {V} k (v : V) d :
  dict_keys (dict_set k v d)
  = if bool_decide (k ∈ dict_keys d) then dict_keys d else dict_keys d ++ [k].
Proof.
  unfold dict_keys. induction d as [|[k' v'] d IH]; csimpl; [done|].
  destruct (decide (k' = k)) as [->|Hne]; csimpl.
  - rewrite bool_decide_eq_true_2; [done|left].
  - rewrite IH. case_bool_decide as Hin.
    + rewrite bool_decide_eq_true_2; [done|by right].
    + rewrite bool_decide_eq_false_2; [done|].
      intros [?|?]%elem_of_cons; congruence.
Qed.

Lemma dict_set_wf {V} k (v : V) d : dict_wf d -> dict_wf (dict_set k v d).
Proof.
  unfold dict_wf. intros Hwf. change (NoDup (dict_keys (dict_set k v d))).
  rewrite dict_set_keys. unfold dict_keys. case_bool_decide as Hin; [done|].
  apply NoDup_app. repeat split; [done| |apply NoDup_singleton].
  intros x Hx ->%list_elem_of_singleton. done.
Qed.

Section Applier.

Context `{Environment}.

(** The definition [apply_mutation] writes, from the one it read. *)
Lemma apply_mutation_run skill_name module_type new_version w file
    earlier patch_text patch :
  skill_files w !! skill_name = Some file ->
  let skill_def := load_yaml Skill.empty (Some file) in
  split dot (default (u "1.0.0") (Skill.version skill_def))
  = earlier ++ [patch_text] ->
  int_of_str patch_text = Some patch ->
  let old_version :=
    default (u "unknown")
            (dict_get module_type (default [] (Skill.modules skill_def))) in
  let record :=
    History.Build
      (Some (strftime (u "%Y-%m-%dT%H:%M:%SZ") (utcnow (clock w))))
      (Some (mutation_descriptor module_type old_version new_version)) in
  let mutated :=
    Skill.Build
      (Skill.description skill_def)
      (Some (join [dot] (earlier ++ [str_of_int (patch + 1)])))
      (Skill.core_prompt skill_def)
      (Some (dict_set module_type new_version
                      (default [] (Skill.modules skill_def))))
      (Some (default [] (Skill.fitness_history skill_def) ++ [record]))
      (Skill.last_compiled skill_def)
      (Skill.other skill_def) in
  apply_mutation skill_name module_type new_version w
  = Return true
      (set_skill_files (<[skill_name := Some mutated]> (skill_files w))
                       (set_clock (S (clock w)) w)).
Proof.
  intros Hfile skill_def Hsplit Hint old_version record mutated.
  unfold apply_mutation, bind, get. rewrite Hfile. fold skill_def. simpl.
  rewrite Hsplit, last_snoc, Hint, insert_last. reflexivity.
Qed.

Lemma apply_mutation_bad_patch skill_name module_type new_version w file :
  skill_files w !! skill_name = Some file ->
  int_of_str
    (List.last (split dot (default (u "1.0.0")
                             (Skill.version (load_yaml Skill.empty (Some file)))))
               [])
  = None ->
  apply_mutation skill_name module_type new_version w = Raise ValueError w.
Proof.
  intros Hfile Hint. unfold apply_mutation, bind, get. rewrite Hfile. simpl.
  simpl in Hint. by rewrite Hint.
Qed.

End Applier.

(** ** Strings: [startswith], [find] and slices *)

Lemma startswith_prefix p x : startswith p (p ++ x) = true.
Proof. induction p as [|a p IH]; simpl; [done|]. by rewrite N.eqb_refl. Qed.

Lemma startswith_true p s : startswith p s = true -> exists r, s = p ++ r.
Proof.
  revert s. induction p as [|a p IH]; intros s; simpl; [by exists s|].
  destruct s as [|b s]; [done|].
  intros [->%N.eqb_eq Hp]%andb_true_iff. destruct (IH s Hp) as [r ->]. by exists r.
Qed.

Lemma startswith_app p s x : startswith p s = true -> startswith p (s ++ x) = true.
Proof.
  intros [r ->]%startswith_true. rewrite <- app_assoc. apply startswith_prefix.
Qed.

Lemma startswith_app_long p s x :
  length p <= length s -> startswith p (s ++ x) = startswith p s.
Proof.
  revert s. induction p as [|a p IH]; intros s; simpl; [done|].
  destruct s as [|b s]; simpl; [lia|]. intros Hlen. rewrite IH; [done|lia].
Qed.

Lemma find_from_spec p s i :
  (find_from p s i = (-1)%Z /\
   forall k, k <= length s -> startswith p (drop k s) = false) \/
  (exists k, k <= length s /\ find_from p s i = (i + Z.of_nat k)%Z /\
             startswith p (drop k s) = true /\
             forall j, j < k -> startswith p (drop j s) = false).
Proof.
  revert i. induction s as [|c s IH]; intros i.
  - simpl find_from. destruct (startswith p []) eqn:Hp.
    + right. exists 0. rewrite Z.add_0_r. repeat split; [simpl; lia|done|lia].
    + left. split; [done|]. intros k _. by rewrite drop_nil.
  - simpl find_from. destruct (startswith p (c :: s)) eqn:Hp.
    + right. exists 0. rewrite Z.add_0_r. repeat split; [simpl; lia|done|lia].
    + destruct (IH (i + 1)%Z) as [[Hf Habs]|(k & Hk & Hf & Hat & Hbefore)].
      * left. split; [done|]. intros [|k] Hk; [done|]. simpl. apply Habs.
        simpl in Hk. lia.
      * right. exists (S k). repeat split.
        -- simpl. lia.
        -- rewrite Hf. lia.
        -- done.
        -- intros [|j] Hj; [done|]. simpl. apply Hbefore. lia.
Qed.

Lemma find_first p s k :
  k <= length s -> startswith p (drop k s) = true ->
  (forall j, j < k -> startswith p (drop j s) = false) ->
  find p s = Z.of_nat k.
Proof.
  intros Hk Hat Hbefore. unfold find.
  destruct (find_from_spec p s 0) as [[_ Habs]|(k' & Hk' & -> & Hat' & Hbefore')].
  - rewrite Habs in Hat; done.
  - destruct (Nat.lt_trichotomy k k') as [Hlt|[->|Hlt]]; [|done|].
    + rewrite (Hbefore' _ Hlt) in Hat. done.
    + rewrite (Hbefore _ Hlt) in Hat'. done.
Qed.

Lemma find_absent p s :
  (forall k, k <= length s -> startswith p (drop k s) = false) ->
  find p s = (-1)%Z.
Proof.
  intros Habs. unfold find.
  destruct (find_from_spec p s 0) as [[? _]|(k & Hk & _ & Hat & _)]; [done|].
  rewrite (Habs _ Hk) in Hat. done.
Qed.

Lemma slice_to_nat {A} (l : list A) k :
  k <= length l -> slice_to l (Z.of_nat k) = take k l.
Proof.
  intros Hk. unfold slice_to, slice_index. f_equal.
  destruct (Z.ltb_spec (Z.of_nat k) 0); lia.
Qed.

Lemma slice_from_nat {A} (l : list A) k :
  k <= length l -> slice_from l (Z.of_nat k) = drop k l.
Proof.
  intros Hk. unfold slice_from, slice_index. f_equal.
  destruct (Z.ltb_spec (Z.of_nat k) 0); lia.
Qed.

Lemma drop_app_lt {A} (l x : list A) j :
  j <= length l -> drop j (l ++ x) = drop j l ++ x.
Proof. intros Hj. rewrite drop_app. by replace (j - length l) with 0 by lia. Qed.

Lemma drop_take_app {A} (l x : list A) k :
  k <= length l -> drop k (take k l ++ x) = x.
Proof.
  intros Hk. rewrite drop_app, length_take.
  replace (k `min` length l) with k by lia.
  rewrite Nat.sub_diag. simpl.
  rewrite drop_ge; [done|]. rewrite length_take. lia.
Qed.


(** ** Changelog recorder *)

(** The section marker does not overlap itself: an occurrence cannot begin
    before a marker and end inside it. *)
Lemma section_marker_no_overlap t x :
  t <> [] -> startswith section_marker t = false ->
  startswith section_marker (t ++ section_marker ++ x) = false.
Proof.
  change section_marker with [10; 35; 35; 32]%N. intros Ht.
  destruct t as [|a [|b [|c [|d t]]]]; [done|..]; cbn [startswith app];
    repeat (match goal with |- context [(?n =? ?m)%N] =>
                              destruct (N.eqb_spec n m) end;
            cbn [andb]; try done).
Qed.

(** Where the first marker is: [header] is the text before it, [sections]
    the rest; without a marker [header] is the whole text. *)
Lemma section_marker_cut content :
  exists header sections,
    content = header ++ sections /\
    find section_marker header = (-1)%Z /\
    (sections = [] \/ startswith section_marker sections = true) /\
    (find section_marker content = (-1)%Z -> sections = []) /\
    forall r,
      find section_marker (header ++ (section_marker ++ r) ++ sections)
      = Z.of_nat (length header) /\
      prepend_entry content (section_marker ++ r)
      = header ++ (section_marker ++ r) ++ sections.
Proof.
  destruct (find_from_spec section_marker content 0)
    as [[Hf Habs]|(k & Hk & Hf & Hat & Hbefore)].
  - exists content, []. repeat split; auto.
    + by rewrite app_nil_r.
    + rewrite app_nil_r. apply find_first.
      * rewrite length_app. lia.
      * rewrite drop_app_length. apply startswith_prefix.
      * intros j Hj. rewrite drop_app_lt by lia.
        apply section_marker_no_overlap; [|apply Habs; lia].
        intros Hnil%(f_equal length). rewrite length_drop in Hnil. simpl in Hnil. lia.
    + unfold prepend_entry. fold (find section_marker content) in Hf.
      rewrite Hf. simpl. by rewrite app_nil_r.
  - fold (find section_marker content) in Hf. rewrite Z.add_0_l in Hf.
    assert (Hlen : length (take k content) = k) by (rewrite length_take; lia).
    destruct (startswith_true _ _ Hat) as [rest Hrest].
    exists (take k content), (drop k content). repeat split.
    + by rewrite take_drop.
    + apply find_absent. intros j Hj. rewrite Hlen in Hj.
      destruct (decide (j = k)) as [->|Hne].
      * by rewrite <- (app_nil_r (take k content)), drop_take_app.
      * destruct (startswith section_marker (drop j (take k content))) eqn:Hs; [|done].
        apply (startswith_app _ _ (drop k content)) in Hs.
        rewrite <- drop_app_lt, take_drop in Hs by lia.
        rewrite Hbefore in Hs; [done|lia].
    + by right.
    + intros Hnone. rewrite Hnone in Hf. lia.
    + rewrite Hlen. apply find_first.
      * rewrite length_app. lia.
      * rewrite drop_take_app, <- app_assoc by done.
        apply startswith_prefix.
      * intros j Hj. rewrite drop_app_lt by lia.
        specialize (Hbefore j Hj).
        rewrite <- (take_drop k content), drop_app_lt, Hrest in Hbefore by lia.
        rewrite <- !app_assoc.
        rewrite (app_assoc _ section_marker), startswith_app_long
          by (rewrite length_app; lia).
        by rewrite (app_assoc _ section_marker), startswith_app_long in Hbefore
          by (rewrite length_app; lia).
    + unfold prepend_entry. rewrite Hf.
      destruct (Z.eqb_spec (Z.of_nat k) (-1)); [lia|].
      by rewrite slice_to_nat, slice_from_nat.
Qed.

Lemma prepend_entry_at header entry sections :
  find section_marker (header ++ entry ++ sections) = Z.of_nat (length header) ->
  forall entry',
    prepend_entry (header ++ entry ++ sections) entry'
    = header ++ entry' ++ entry ++ sections.
Proof.
  intros Hf entry'. unfold prepend_entry. rewrite Hf.
  destruct (Z.eqb_spec (Z.of_nat (length header)) (-1)); [lia|].
  rewrite slice_to_nat, slice_from_nat by (rewrite length_app; lia).
  by rewrite take_app_length, drop_app_length.
Qed.

Lemma find_marker_one_line s i :
  nl ∉ s -> find_from section_marker (s ++ [nl; nl]) i = (-1)%Z.
Proof.
  revert i. induction s as [|c s IH]; intros i Hs; [done|].
  apply not_elem_of_cons in Hs as [Hc Hs].
  change section_marker with [10; 35; 35; 32]%N in *.
  cbn [find_from app startswith].
  destruct (N.eqb_spec 10 c) as [<-|_]; [done|]. cbn [andb]. by apply IH.
Qed.

Lemma changelog_title_no_marker skill_name :
  nl ∉ skill_name -> find section_marker (changelog_title skill_name) = (-1)%Z.
Proof.
  intros Hname. unfold changelog_title, find. rewrite !app_assoc.
  apply find_marker_one_line.
  rewrite !not_elem_of_app. repeat split; try done.
  - apply (bool_decide_unpack _). by vm_compute.
  - apply (bool_decide_unpack _). by vm_compute.
Qed.

Section Changelog.

Context `{Environment}.

Lemma changelog_entry_marker version timestamp mutations old_fitness new_fitness :
  exists r,
    changelog_entry version timestamp mutations old_fitness new_fitness
    = section_marker ++ r.
Proof.
  apply startswith_true. unfold changelog_entry. cbv zeta.
  assert (Hhead : forall rest,
    startswith section_marker (nl :: u "## v" ++ version ++ rest) = true).
  { intros rest. exact (startswith_prefix section_marker (u "v" ++ version ++ rest)). }
  apply startswith_app, foldl_invariant.
  - do 2 apply startswith_app.
    destruct new_fitness; [apply startswith_app|]; apply startswith_app, Hhead.
  - intros entry m Hentry. by do 2 apply startswith_app.
Qed.

Lemma write_changelog_run skill_name mutations old_fitness new_fitness w :
  let content :=
    default (changelog_title skill_name) (changelog_files w !! skill_name) in
  let version :=
    default (u "?.?.?")
      (Skill.version
         (load_yaml Skill.empty (skill_files w !! skill_name))) in
  let entry :=
    changelog_entry version
                    (strftime (u "%Y-%m-%d %H:%M UTC") (utcnow (clock w)))
                    mutations old_fitness new_fitness in
  write_changelog skill_name mutations old_fitness new_fitness w
  = Return tt
      (set_changelog_files
         (<[skill_name := prepend_entry content entry]> (changelog_files w))
         (set_clock (S (clock w)) w)).
Proof.
  unfold write_changelog, bind, get. simpl.
  destruct (changelog_files w !! skill_name), (skill_files w !! skill_name);
    reflexivity.
Qed.

(** C9. [write_changelog] puts each entry before the older ones. Cut the
    changelog the first write starts from (the title it makes up when there
    is no file) at its first section marker, into a header without marker
    and the sections; after the first write the file is the header, the
    entry, the sections; after a second write, on the file the first one
    left, it is the header, the second entry, the first entry, the sections.
    When there was no file and the skill name is one line, the header is the
    whole title that was made up. *)
Theorem write_changelog_newest_first
    skill_name mutations1 old1 new1 mutations2 old2 new2 w w' :
  changelog_files w' !! skill_name
  = changelog_files
      (world_of (write_changelog skill_name mutations1 old1 new1 w))
    !! skill_name ->
  let content :=
    default (changelog_title skill_name) (changelog_files w !! skill_name) in
  let entry1 :=
    changelog_entry
      (default (u "?.?.?")
         (Skill.version (load_yaml Skill.empty (skill_files w !! skill_name))))
      (strftime (u "%Y-%m-%d %H:%M UTC") (utcnow (clock w)))
      mutations1 old1 new1 in
  let entry2 :=
    changelog_entry
      (default (u "?.?.?")
         (Skill.version (load_yaml Skill.empty (skill_files w' !! skill_name))))
      (strftime (u "%Y-%m-%d %H:%M UTC") (utcnow (clock w')))
      mutations2 old2 new2 in
  exists header sections w1 w2,
    write_changelog skill_name mutations1 old1 new1 w = Return tt w1 /\
    write_changelog skill_name mutations2 old2 new2 w' = Return tt w2 /\
    content = header ++ sections /\
    find section_marker header = (-1)%Z /\
    (sections = [] \/ startswith section_marker sections = true) /\
    startswith section_marker entry1 = true /\
    startswith section_marker entry2 = true /\
    changelog_files w1 !! skill_name = Some (header ++ entry1 ++ sections) /\
    changelog_files w2 !! skill_name
    = Some (header ++ entry2 ++ entry1 ++ sections) /\
    (changelog_files w !! skill_name = None -> nl ∉ skill_name ->
     header = changelog_title skill_name /\ sections = []).
Proof.
  intros Hsame content entry1 entry2.
  rewrite write_changelog_run in Hsame. simpl in Hsame.
  rewrite lookup_insert_eq in Hsame. fold content entry1 in Hsame.
  destruct (section_marker_cut content)
    as (header & sections & Hcut & Hheader & Hsections & Hnone & Hprepend).
  destruct (changelog_entry_marker
              (default (u "?.?.?")
                 (Skill.version
                    (load_yaml Skill.empty (skill_files w !! skill_name))))
              (strftime (u "%Y-%m-%d %H:%M UTC") (utcnow (clock w)))
              mutations1 old1 new1) as [r1 Hr1].
  destruct (changelog_entry_marker
              (default (u "?.?.?")
                 (Skill.version
                    (load_yaml Skill.empty (skill_files w' !! skill_name))))
              (strftime (u "%Y-%m-%d %H:%M UTC") (utcnow (clock w')))
              mutations2 old2 new2) as [r2 Hr2].
  fold entry1 in Hr1. fold entry2 in Hr2.
  destruct (Hprepend r1) as [Hfind Hfirst].
  rewrite <- Hr1 in Hfind, Hfirst.
  eexists header, sections, _, _.
  split; [apply write_changelog_run|]. split; [apply write_changelog_run|].
  split_and!; try done.
  - rewrite Hr1. apply startswith_prefix.
  - rewrite Hr2. apply startswith_prefix.
  - simpl. rewrite lookup_insert_eq. fold content entry1. by rewrite Hfirst.
  - simpl. rewrite lookup_insert_eq, Hsame. simpl. fold entry2.
    by rewrite Hfirst, (prepend_entry_at _ _ _ Hfind).
  - intros Hfile Hname. unfold content in Hcut, Hnone. rewrite Hfile in Hcut, Hnone.
    simpl in Hcut, Hnone.
    rewrite (Hnone (changelog_title_no_marker _ Hname)), app_nil_r in Hcut.
    split; [done|]. by apply Hnone, changelog_title_no_marker.
Qed.

End Changelog.

(** ** The compiler *)

Lemma compiler_frame_refl w : compiler_frame w w.
Proof. by repeat split. Qed.

Lemma compiler_frame_trans w1 w2 w3 :
  compiler_frame w1 w2 -> compiler_frame w2 w3 -> compiler_frame w1 w3.
Proof.
  unfold compiler_frame. intros (?&?&?&?&?&?) (?&?&?&?&?&?).
  split_and!; congruence.
Qed.

Lemma compiler_frame_print line w :
  compiler_frame w (world_of (print line w)).
Proof. by repeat split. Qed.

Lemma without_last_compiled_insert files skill_name skill timestamp :
  files !! skill_name = Some (Some skill) ->
  without_last_compiled
    (<[skill_name := Some (Skill.set_last_compiled timestamp skill)]> files)
  = without_last_compiled files.
Proof.
  intros Hfile. unfold without_last_compiled. rewrite fmap_insert.
  apply insert_id. rewrite lookup_fmap, Hfile. done.
Qed.

Lemma without_last_compiled_lookup files files' skill_name skill :
  without_last_compiled files' = without_last_compiled files ->
  files !! skill_name = Some (Some skill) ->
  exists skill',
    files' !! skill_name = Some (Some skill') /\
    Skill.description skill' = Skill.description skill /\
    Skill.version skill' = Skill.version skill /\
    Skill.core_prompt skill' = Skill.core_prompt skill /\
    Skill.modules skill' = Skill.modules skill /\
    Skill.fitness_history skill' = Skill.fitness_history skill /\
    Skill.other skill' = Skill.other skill.
Proof.
  intros Hsame Hfile. apply (f_equal (.!! skill_name)) in Hsame.
  unfold without_last_compiled in Hsame. rewrite !lookup_fmap, Hfile in Hsame.
  destruct (files' !! skill_name) as [[skill'|]|]; simpl in Hsame; try done.
  exists skill'. split; [done|].
  injection Hsame as Hd Hv Hc Hm Hh Ho. done.
Qed.

Section Compiler.

Context `{Environment}.

Lemma compile_skill_frame skill_name registry w :
  compiler_frame w (world_of (compile_skill skill_name registry w)).
Proof.
  unfold compile_skill, bind, get, print, modify, raise, ret, utcnow_strftime.
  simpl.
  destruct (skill_files w !! skill_name) as [[skill|]|] eqn:Hfile; simpl;
    [|by repeat split..].
  destruct registry as [registry|]; simpl; [|by repeat split].
  destruct (command_files w) as [files|]; simpl; [|by repeat split].
  split_and!; try done. simpl. by apply without_last_compiled_insert.
Qed.

Lemma for_fold_frame {A B} (body : B -> A -> M B) l acc w :
  (forall acc x w, compiler_frame w (world_of (body acc x w))) ->
  compiler_frame w (world_of (for_fold body l acc w)).
Proof.
  intros Hbody. revert acc w. induction l as [|x l IH]; intros acc w; simpl.
  - apply compiler_frame_refl.
  - unfold bind. pose proof (Hbody acc x w) as Hx.
    destruct (body acc x w) as [acc' w'|e w']; simpl in *; [|done].
    eapply compiler_frame_trans; [done|apply IH].
Qed.

Lemma bind_frame {A B} (m : M A) (k : A -> M B) w :
  compiler_frame w (world_of (m w)) ->
  (forall a w', compiler_frame w' (world_of (k a w'))) ->
  compiler_frame w (world_of (bind m k w)).
Proof.
  intros Hm Hk. unfold bind. destruct (m w) as [a w'|e w']; simpl in *; [|done].
  eapply compiler_frame_trans; [done|apply Hk].
Qed.

Lemma compile_main_frame arg w :
  compiler_frame w (world_of (compile_main arg w)).
Proof.
  unfold compile_main. apply bind_frame; [apply compiler_frame_refl|].
  intros w0 w'. destruct (registry_file w0) as [registry|].
  - case_decide.
    + repeat (apply bind_frame; [apply compiler_frame_print|]; intros ? ?).
      apply bind_frame.
      * apply for_fold_frame. intros [] [stem file] w''.
        apply bind_frame; [apply compile_skill_frame|].
        intros ? ?. apply compiler_frame_print.
      * intros ? ?.
        repeat (apply bind_frame; [apply compiler_frame_print|]; intros ? ?).
        apply compiler_frame_print.
    + apply bind_frame; [apply compile_skill_frame|]. intros ? ?.
      apply compiler_frame_refl.
  - apply bind_frame; [apply compiler_frame_print|]. intros ? ?.
    apply compiler_frame_refl.
Qed.

(** A run of the compiler from the engine: the exit code apart, it leaves
    the changelogs and, but for the stamp, the skill definitions as they
    were; the engine's output is not written to. *)
Lemma recompile_skill_run skill_name w :
  exists ok w',
    recompile_skill skill_name w = Return ok w' /\
    without_last_compiled (skill_files w') = without_last_compiled (skill_files w) /\
    registry_file w' = registry_file w /\
    changelog_files w' = changelog_files w /\
    evaluation_files w' = evaluation_files w /\
    evaluator_runs w' = evaluator_runs w /\
    compiler_runs w' = compiler_runs w ++ [skill_name] /\
    stdout w' = stdout w.
Proof.
  unfold recompile_skill.
  pose proof (compile_main_frame skill_name
                (set_stdout [] (set_compiler_runs (compiler_runs w ++ [skill_name]) w)))
    as (Hskills & Hreg & Hlogs & Hsnap & Hruns & Hcomp).
  destruct (compile_main _ _) as [[] w'|e w']; simpl in *.
  - eexists _, _. split; [done|]. split_and!; done.
  - destruct e; eexists _, _; (split; [done|]); split_and!; done.
Qed.

End Compiler.

(** ** Mutation applier and cycle orchestrator *)

Lemma split_last sep s :
  split sep s = removelast (split sep s) ++ [List.last (split sep s) []].
Proof. apply app_removelast_last, split_not_nil. Qed.

Section Orchestrator.

Context `{Environment}.

(** C1, as amended. When the definition file of the skill exists and the
    last dot-separated component of its version is an integer literal,
    [apply_mutation] returns [True] and rewrites the definition so that:
    [modules[module_type]] is the new version, the other module types are
    as before; the last component of the version is the integer plus one,
    the components before it are untouched; one record is appended to
    [fitness_history], with the time of the call and the descriptor
    "<module_type>: <old_version> → <new_version>", the old version being
    the one selected before or "unknown"; every other field is as it was.
    No other file changes. *)
Theorem apply_mutation_spec
    skill_name module_type new_version w file earlier patch_text patch :
  skill_files w !! skill_name = Some file ->
  let skill_def := load_yaml Skill.empty (Some file) in
  split dot (default (u "1.0.0") (Skill.version skill_def))
  = earlier ++ [patch_text] ->
  int_of_str patch_text = Some patch ->
  exists mutated record,
    apply_mutation skill_name module_type new_version w
    = Return true
        (set_skill_files (<[skill_name := Some mutated]> (skill_files w))
                         (set_clock (S (clock w)) w)) /\
    (* the module selection *)
    dict_get module_type (default [] (Skill.modules mutated)) = Some new_version /\
    (forall other_type,
       other_type <> module_type ->
       dict_get other_type (default [] (Skill.modules mutated))
       = dict_get other_type (default [] (Skill.modules skill_def))) /\
    dict_keys (default [] (Skill.modules mutated))
    = (let keys := dict_keys (default [] (Skill.modules skill_def)) in
       if bool_decide (module_type ∈ keys) then keys else keys ++ [module_type]) /\
    (* the version *)
    default (u "1.0.0") (Skill.version skill_def)
    = join [dot] (earlier ++ [patch_text]) /\
    Skill.version mutated
    = Some (join [dot] (earlier ++ [str_of_int (patch + 1)])) /\
    (* the history *)
    Skill.fitness_history mutated
    = Some (default [] (Skill.fitness_history skill_def) ++ [record]) /\
    History.timestamp record
    = Some (strftime (u "%Y-%m-%dT%H:%M:%SZ") (utcnow (clock w))) /\
    History.mutation record
    = Some (module_type ++ u ": "
            ++ default (u "unknown")
                 (dict_get module_type (default [] (Skill.modules skill_def)))
            ++ u " → " ++ new_version) /\
    (* the rest *)
    Skill.description mutated = Skill.description skill_def /\
    Skill.core_prompt mutated = Skill.core_prompt skill_def /\
    Skill.last_compiled mutated = Skill.last_compiled skill_def /\
    Skill.other mutated = Skill.other skill_def.
Proof.
  intros Hfile skill_def Hsplit Hint.
  eexists _, _. split; [by eapply apply_mutation_run|].
  split_and!; try done; simpl.
  - apply dict_get_set.
  - intros other_type Hne. by apply dict_get_set_ne.
  - apply dict_set_keys.
  - rewrite <- Hsplit. symmetry. apply split_parts.
Qed.

Lemma apply_mutation_inv skill_name module_type new_version w file w1 :
  skill_files w !! skill_name = Some file ->
  apply_mutation skill_name module_type new_version w = Return true w1 ->
  let skill_def := load_yaml Skill.empty (Some file) in
  exists earlier patch_text patch,
    split dot (default (u "1.0.0") (Skill.version skill_def))
    = earlier ++ [patch_text] /\
    int_of_str patch_text = Some patch.
Proof.
  intros Hfile Hrun skill_def.
  exists (removelast (split dot (default (u "1.0.0") (Skill.version skill_def)))),
         (List.last (split dot (default (u "1.0.0") (Skill.version skill_def))) []).
  destruct (int_of_str (List.last (split dot (default (u "1.0.0")
                                                      (Skill.version skill_def))) []))
    as [patch|] eqn:Hint.
  - exists patch. split; [apply split_last|done].
  - rewrite (apply_mutation_bad_patch _ _ _ _ _ Hfile Hint) in Hrun. done.
Qed.

Lemma announce_mutation_run skill_name suggestion w :
  exists lines,
    announce_mutation skill_name suggestion w
    = Return tt (set_stdout (stdout w ++ lines) w).
Proof.
  eexists [_; _; _]. unfold announce_mutation, bind, print, modify. simpl.
  by rewrite <- !app_assoc.
Qed.

(** C7. In the loop of [cmd_apply], for a skill on which [apply_mutation]
    succeeds and the recompilation that follows fails: the changelogs are
    what they were before the skill was taken up; the definition of the
    skill holds the new module selection, the bumped version and the
    appended history record; the failure is printed; nothing is added to
    the mutations applied, and the loop goes on with the skills that
    remain. *)
Theorem cmd_apply_recompile_failure
    registry top_performers mutations_applied skill_data rest w file
    suggestion w1 w2 :
  let skill_name := Score.skill skill_data in
  let fitness := Score.fitness skill_data in
  let skill_def := load_yaml Skill.empty (Some file) in
  classify_skill fitness = underperforming \/ classify_skill fitness = failing ->
  skill_files w !! skill_name = Some file ->
  top_suggestion
    (suggest_mutations (skill_files w) skill_name skill_def fitness registry
                       top_performers)
  = Some suggestion ->
  apply_mutation skill_name (Suggestion.module suggestion)
                 (Suggestion.to_version suggestion)
                 (world_of (announce_mutation skill_name suggestion w))
  = Return true w1 ->
  recompile_skill skill_name w1 = Return false w2 ->
  exists w3 mutated earlier patch_text patch record,
    cmd_apply_skill registry top_performers mutations_applied skill_data w
    = Return mutations_applied w3 /\
    for_fold (cmd_apply_skill registry top_performers) (skill_data :: rest)
             mutations_applied w
    = for_fold (cmd_apply_skill registry top_performers) rest
               mutations_applied w3 /\
    (* no changelog entry *)
    changelog_files w3 = changelog_files w /\
    (* the mutated definition is still there *)
    skill_files w3 !! skill_name = Some (Some mutated) /\
    dict_get (Suggestion.module suggestion) (default [] (Skill.modules mutated))
    = Some (Suggestion.to_version suggestion) /\
    split dot (default (u "1.0.0") (Skill.version skill_def))
    = earlier ++ [patch_text] /\
    int_of_str patch_text = Some patch /\
    Skill.version mutated
    = Some (join [dot] (earlier ++ [str_of_int (patch + 1)])) /\
    Skill.fitness_history mutated
    = Some (default [] (Skill.fitness_history skill_def) ++ [record]) /\
    History.mutation record
    = Some (mutation_descriptor
              (Suggestion.module suggestion)
              (default (u "unknown")
                 (dict_get (Suggestion.module suggestion)
                           (default [] (Skill.modules skill_def))))
              (Suggestion.to_version suggestion)) /\
    (* the report, and the run of the compiler *)
    stdout w3 = stdout w1 ++ [u "  ✗ Recompilation failed"; []] /\
    compiler_runs w3 = compiler_runs w ++ [skill_name] /\
    evaluator_runs w3 = evaluator_runs w.
Proof.
  intros skill_name fitness skill_def Hclass Hfile Htop Happly Hcompile.
  destruct (announce_mutation_run skill_name suggestion w) as [lines Hannounce].
  rewrite Hannounce in Happly. simpl in Happly.
  assert (Hfile0 : skill_files (set_stdout (stdout w ++ lines) w) !! skill_name
                   = Some file) by done.
  destruct (apply_mutation_inv _ _ _ _ _ _ Hfile0 Happly)
    as (earlier & patch_text & patch & Hsplit & Hint).
  fold skill_def in Hsplit.
  pose proof (apply_mutation_run _ (Suggestion.module suggestion)
                (Suggestion.to_version suggestion) _ _ _ _ _
                Hfile0 Hsplit Hint) as Hrun.
  cbv zeta in Hrun. rewrite Happly in Hrun. injection Hrun as Hw1.
  destruct (recompile_skill_run skill_name w1)
    as (ok & w2' & Hrec & Hskills & _ & Hlogs & _ & Hevals & Hruns & Hout).
  rewrite Hcompile in Hrec. injection Hrec as <- <-.
  edestruct (without_last_compiled_lookup (skill_files w1) (skill_files w2)
               skill_name)
    as (mutated & Hfile2 & _ & Hversion & _ & Hmodules & Hhistory & _);
    [exact Hskills | rewrite Hw1; simpl; apply lookup_insert_eq |].
  assert (Hbody :
    cmd_apply_skill registry top_performers mutations_applied skill_data w
    = Return mutations_applied
             (set_stdout (stdout w2 ++ [u "  ✗ Recompilation failed"; []]) w2)).
  { unfold cmd_apply_skill. fold skill_name fitness.
    rewrite bool_decide_eq_false_2.
    2:{ intros Hnot. apply Hnot. rewrite !elem_of_cons. tauto. }
    unfold bind at 1. unfold get at 1. rewrite Hfile. fold skill_def. rewrite Htop.
    rewrite (bind_Return _ _ _ _ _ Hannounce).
    rewrite (bind_Return _ _ _ _ _ Happly).
    unfold bind at 1. unfold bind at 1. rewrite Hcompile.
    unfold bind, print, modify, ret. simpl. by rewrite <- app_assoc. }
  eexists _, mutated, earlier, patch_text, patch, _.
  split; [exact Hbody|].
  split; [simpl; by rewrite (bind_Return _ _ _ _ _ Hbody)|].
  split_and!; simpl; try done.
  - rewrite Hlogs, Hw1. done.
  - rewrite Hmodules. simpl. apply dict_get_set.
  - by rewrite Hout.
  - rewrite Hruns, Hw1. done.
  - rewrite Hevals, Hw1. done.
Qed.

(** C8. When the evaluator fails, the cycle does nothing to the skills:
    after [cmd_cycle] the skill definitions, the changelogs and the
    compiled commands are what they were, no compiler was started and no
    snapshot was written. A non-zero exit makes [cmd_cycle] print the error
    and return; an output that does not parse makes it die of the
    exception of [json.loads]. The command [apply] behaves the same way on
    a failure of the evaluation it starts with. *)
Theorem cmd_cycle_evaluation_failure w :
  (exists stderr, evaluate_sh (evaluator_runs w) = exit_nonzero stderr) \/
  evaluate_sh (evaluator_runs w) = unparseable_output ->
  untouched w (world_of (cmd_cycle w)) /\
  untouched w (world_of (cmd_apply w)) /\
  evaluator_runs (world_of (cmd_cycle w)) = S (evaluator_runs w) /\
  (forall stderr,
     evaluate_sh (evaluator_runs w) = exit_nonzero stderr ->
     exists w', cmd_cycle w = Return tt w' /\
                List.last (stdout w') [] = u "Error: " ++ stderr) /\
  (evaluate_sh (evaluator_runs w) = unparseable_output ->
   exists w', cmd_cycle w = Raise JSONDecodeError w').
Proof.
  intros Hfail. split_and!.
  - unfold cmd_cycle, bind, print, modify, run_evaluate; simpl.
    destruct Hfail as [[stderr ->] | ->]; by simpl.
  - unfold cmd_apply, bind, print, modify, run_evaluate; simpl.
    destruct Hfail as [[stderr ->] | ->]; by simpl.
  - unfold cmd_cycle, bind, print, modify, run_evaluate; simpl.
    destruct Hfail as [[stderr ->] | ->]; by simpl.
  - intros stderr Hexit. eexists.
    unfold cmd_cycle, bind, print, modify, run_evaluate. simpl. rewrite Hexit.
    simpl. split; [done|]. apply last_snoc.
  - intros Hbad. eexists.
    unfold cmd_cycle, bind, print, modify, run_evaluate. simpl. by rewrite Hbad.
Qed.

End Orchestrator.
(** ** [str] and [int] of an integer, and [split] of a [join] *)

Lemma split_join sep parts :
  parts <> [] -> Forall (fun p => sep ∉ p) parts ->
  split sep (join [sep] parts) = parts.
Proof.
  intros Hne Hall. induction Hall as [|p ps Hp Hps IH]; [done|].
  destruct ps as [|q ps]; simpl.
  - by apply split_notin.
  - rewrite split_app by done. f_equal. by apply IH.
Qed.

(** The text of a decimal numeral, most significant digit first. *)
Lemma digits_text_cons (c : ascii) (s : string) :
  List.map N_of_ascii (list_ascii_of_string (String c s))
  = N_of_ascii c :: List.map N_of_ascii (list_ascii_of_string s).
Proof. done. Qed.

Lemma int_digits_uint_acc (d : Decimal.uint) (acc : positive) :
  int_digits (List.map N_of_ascii
                (list_ascii_of_string (DecimalString.NilEmpty.string_of_uint d)))
             true (Z.pos acc)
  = Some (Z.pos (Pos.of_uint_acc d acc)).
Proof.
  revert acc. induction d as [|d IH|d IH|d IH|d IH|d IH|d IH|d IH|d IH|d IH|d IH];
    intros acc; [done|..];
    cbn [DecimalString.NilEmpty.string_of_uint]; rewrite digits_text_cons;
    simpl int_digits; cbn [Pos.of_uint_acc];
    (etransitivity; [|apply IH]); f_equal; lia.
Qed.

Lemma int_digits_uint (d : Decimal.uint) :
  int_digits (List.map N_of_ascii
                (list_ascii_of_string (DecimalString.NilEmpty.string_of_uint d)))
             true 0
  = Some (Z.of_N (Pos.of_uint d)).
Proof.
  induction d as [|d IH|d IH|d IH|d IH|d IH|d IH|d IH|d IH|d IH|d IH];
    [done|exact IH|..];
    cbn [DecimalString.NilEmpty.string_of_uint]; rewrite digits_text_cons;
    simpl int_digits; cbn [Pos.of_uint Z.of_N]; apply int_digits_uint_acc.
Qed.

Lemma digits_text_plain (d : Decimal.uint) :
  Forall (fun c => (48 <=? c)%N && (c <=? 57)%N = true)
         (List.map N_of_ascii
            (list_ascii_of_string (DecimalString.NilEmpty.string_of_uint d))).
Proof.
  induction d; cbn [DecimalString.NilEmpty.string_of_uint];
    rewrite ?digits_text_cons; by constructor.
Qed.

(** [int] reads a text of ASCII marks without blanks as it stands. *)
Lemma int_of_str_plain (s : list N) :
  Forall (fun c => (c <? 127)%N && negb (is_c_space c) = true) s ->
  rev (skip_c_space (rev (skip_c_space (List.map to_ascii_decimal s)))) = s.
Proof.
  intros Hs.
  assert (Hskip : forall t : list N,
             Forall (fun c => (c <? 127)%N && negb (is_c_space c) = true) t ->
             skip_c_space t = t).
  { intros [|c t] Ht; [done|]. apply Forall_cons in Ht as [Hc _].
    apply andb_true_iff in Hc as [_ Hc]. simpl.
    by destruct (is_c_space c). }
  assert (Hmap : List.map to_ascii_decimal s = s).
  { induction Hs as [|c s Hc _ IH]; [done|]. simpl. rewrite IH. f_equal.
    unfold to_ascii_decimal. apply andb_true_iff in Hc as [Hc _]. by rewrite Hc. }
  rewrite Hmap, (Hskip s Hs), (Hskip (rev s)), rev_involutive; [done|].
  by apply Forall_rev.
Qed.

Lemma digit_plain (c : N) :
  (48 <=? c)%N && (c <=? 57)%N = true ->
  (c <? 127)%N && negb (is_c_space c) = true.
Proof.
  intros [H1%N.leb_le H2%N.leb_le]%andb_true_iff. unfold is_c_space.
  apply andb_true_iff. split; [apply N.ltb_lt; lia|].
  apply negb_true_iff, orb_false_iff. split.
  - apply andb_false_iff. right. apply N.leb_gt. lia.
  - apply N.eqb_neq. lia.
Qed.

Lemma int_of_str_of_int (n : Z) : int_of_str (str_of_int n) = Some n.
Proof.
  assert (Htext : forall d : Decimal.uint,
    d <> Decimal.Nil ->
    let text := List.map N_of_ascii
                  (list_ascii_of_string (DecimalString.NilEmpty.string_of_uint d)) in
    int_of_str text = Some (Z.of_N (Pos.of_uint d)) /\
    int_of_str (45%N :: text) = Some (- Z.of_N (Pos.of_uint d))%Z).
  { intros d Hd text.
    pose proof (digits_text_plain d) as Hplain. fold text in Hplain.
    pose proof (int_digits_uint d) as Hdigits. fold text in Hdigits.
    assert (Hfirst : int_digits text false 0 = int_digits text true 0)
      by (unfold text; by destruct d).
    assert (Hall : Forall (fun c => (c <? 127)%N && negb (is_c_space c) = true) text).
    { eapply Forall_impl; [done|]. apply digit_plain. }
    unfold int_of_str. split.
    - rewrite int_of_str_plain by done. rewrite <- Hdigits, <- Hfirst.
      unfold text. by destruct d.
    - rewrite int_of_str_plain by (by constructor).
      by rewrite Hfirst, Hdigits. }
  destruct n as [|p|p]; [done|..]; unfold str_of_int; simpl Z.to_int;
    pose proof (DecimalPos.Unsigned.to_uint_nonnil p) as Hnil;
    destruct (Htext _ Hnil) as [Hpos Hneg];
    rewrite DecimalPos.Unsigned.of_to in Hpos, Hneg;
    unfold DecimalString.NilZero.string_of_int, DecimalString.NilZero.string_of_uint.
  - by destruct (Pos.to_uint p).
  - etransitivity; [|exact Hneg]. by destruct (Pos.to_uint p).
Qed.

Lemma str_of_int_no_dot (n : Z) : dot ∉ str_of_int n.
Proof.
  assert (Htext : forall d : Decimal.uint,
    dot ∉ List.map N_of_ascii
            (list_ascii_of_string (DecimalString.NilEmpty.string_of_uint d))).
  { intros d Hin. pose proof (digits_text_plain d) as Hplain.
    rewrite Forall_forall in Hplain. by specialize (Hplain _ Hin). }
  unfold str_of_int. destruct n as [|p|p]; simpl Z.to_int;
    unfold DecimalString.NilZero.string_of_int, DecimalString.NilZero.string_of_uint.
  - apply (bool_decide_unpack _). by vm_compute.
  - destruct (Pos.to_uint p) eqn:Hp; try (rewrite <- Hp; apply Htext).
    apply (bool_decide_unpack _). by vm_compute.
  - destruct (Pos.to_uint p) eqn:Hp;
      try (rewrite digits_text_cons, <- Hp; apply not_elem_of_cons;
           split; [done|apply Htext]).
    apply (bool_decide_unpack _). by vm_compute.
Qed.

Lemma most_recent_last {A} (n : nat) (l : list A) (x : A) :
  x ∈ most_recent (S n) (l ++ [x]).
Proof.
  unfold most_recent. rewrite length_app. simpl.
  rewrite drop_app_le by lia. apply elem_of_app. right. left.
Qed.

Lemma dict_get_elem {V} (k : list N) (v : V) (d : dict V) :
  dict_wf d -> (k, v) ∈ d -> dict_get k d = Some v.
Proof.
  unfold dict_wf. induction d as [|[k' v'] d IH]; csimpl.
  - by intros _ ?%elem_of_nil.
  - intros [Hk Hd]%NoDup_cons [[= -> ->] | Hin]%elem_of_cons.
    + by rewrite decide_True.
    + rewrite decide_False; [by apply IH|].
      intros ->. apply Hk. apply list_elem_of_fmap. by exists (k, v).
Qed.

(** ** Mutation applier: outcomes, repetition, and the oscillation guard *)

Section Mutations.

Context `{Environment}.

(** The three outcomes of [apply_mutation]. *)
Lemma apply_mutation_cases (skill_name module_type new_version : list N)
    (w : world) :
  let r := apply_mutation skill_name module_type new_version w in
  (skill_files w !! skill_name = None /\
   r = Return false
         (set_stdout (stdout w ++ [u "  Error: Skill file not found: "
                                   ++ SKILLS_DIR ++ u "/" ++ skill_name
                                   ++ u ".yaml"]) w)) \/
  (exists file,
     skill_files w !! skill_name = Some file /\
     int_of_str
       (List.last (split dot (default (u "1.0.0")
                                (Skill.version (load_yaml Skill.empty (Some file)))))
                  []) = None /\
     r = Raise ValueError w) \/
  (exists file mutated,
     skill_files w !! skill_name = Some file /\
     r = Return true
           (set_skill_files (<[skill_name := Some mutated]> (skill_files w))
                            (set_clock (S (clock w)) w))).
Proof.
  intros r. destruct (skill_files w !! skill_name) as [file|] eqn:Hfile.
  - right.
    destruct (int_of_str
                (List.last (split dot (default (u "1.0.0")
                   (Skill.version (load_yaml Skill.empty (Some file))))) []))
      as [patch|] eqn:Hint.
    + right. exists file. eexists. split; [done|].
      eapply apply_mutation_run; [done|apply split_last|done].
    + left. exists file. split_and!; try done.
      by apply apply_mutation_bad_patch with file.
  - left. split; [done|]. unfold r, apply_mutation, bind, get. by rewrite Hfile.
Qed.

(** X1. [apply_mutation] is all or nothing. It has three outcomes: without a
    definition file it prints an error and returns [False]; with a file
    whose version does not end in an integer literal it raises
    [ValueError] from [int] and the home is exactly what it was; else it
    returns [True], having rewritten the one definition and read the clock
    once. Whatever the outcome, the definitions of the other skills, the
    changelogs, the compiled commands, the registry and the snapshots stay
    as they were, and neither the compiler nor the evaluator is started. *)
Theorem apply_mutation_outcomes (skill_name module_type new_version : list N)
    (w : world) :
  let r := apply_mutation skill_name module_type new_version w in
  ((skill_files w !! skill_name = None /\
    r = Return false
          (set_stdout (stdout w ++ [u "  Error: Skill file not found: "
                                    ++ SKILLS_DIR ++ u "/" ++ skill_name
                                    ++ u ".yaml"]) w)) \/
   (exists file,
      skill_files w !! skill_name = Some file /\
      int_of_str
        (List.last (split dot (default (u "1.0.0")
                                 (Skill.version (load_yaml Skill.empty (Some file)))))
                   []) = None /\
      r = Raise ValueError w) \/
   (exists file mutated,
      skill_files w !! skill_name = Some file /\
      r = Return true
            (set_skill_files (<[skill_name := Some mutated]> (skill_files w))
                             (set_clock (S (clock w)) w)))) /\
  (forall other, other <> skill_name ->
     skill_files (world_of r) !! other = skill_files w !! other) /\
  changelog_files (world_of r) = changelog_files w /\
  command_files (world_of r) = command_files w /\
  registry_file (world_of r) = registry_file w /\
  evaluation_files (world_of r) = evaluation_files w /\
  compiler_runs (world_of r) = compiler_runs w /\
  evaluator_runs (world_of r) = evaluator_runs w.
Proof.
  intros r.
  pose proof (apply_mutation_cases skill_name module_type new_version w)
    as Hcases.
  fold r in Hcases.
  split; [exact Hcases|].
  destruct Hcases as [[_ ->] | [(file & _ & _ & ->) | (file & mutated & _ & ->)]];
    simpl; split_and!; try done.
  intros other Hother. by rewrite lookup_insert_ne.
Qed.

(** X2. A mutation can follow a mutation. When [apply_mutation] has returned
    [True] for a skill, the version it wrote ends in an integer literal
    again ([str] of an [int] is read back by [int]), so a second call for
    the same skill returns [True] too: the last component of the version
    is then the first integer plus two, the components before it are the
    ones the first call found, and the history has grown by two records,
    the second of which starts from the module selection the first call
    left. *)
Theorem apply_mutation_repeatable
    (skill_name module1 version1 module2 version2 : list N) (w w1 : world) :
  apply_mutation skill_name module1 version1 w = Return true w1 ->
  exists file earlier patch_text patch w2 again record1 record2,
    skill_files w !! skill_name = Some file /\
    split dot (default (u "1.0.0")
                 (Skill.version (load_yaml Skill.empty (Some file))))
    = earlier ++ [patch_text] /\
    int_of_str patch_text = Some patch /\
    apply_mutation skill_name module2 version2 w1 = Return true w2 /\
    skill_files w2 !! skill_name = Some (Some again) /\
    Skill.version again
    = Some (join [dot] (earlier ++ [str_of_int (patch + 2)])) /\
    Skill.fitness_history again
    = Some (default [] (Skill.fitness_history (load_yaml Skill.empty (Some file)))
            ++ [record1; record2]) /\
    History.mutation record2
    = Some (mutation_descriptor module2
              (if decide (module2 = module1) then version1
               else default (u "unknown")
                      (dict_get module2
                         (default [] (Skill.modules
                                        (load_yaml Skill.empty (Some file))))))
              version2) /\
    clock w2 = S (S (clock w)).
Proof.
  intros Hfirst.
  destruct (skill_files w !! skill_name) as [file|] eqn:Hfile.
  2:{ unfold apply_mutation, bind, get in Hfirst. by rewrite Hfile in Hfirst. }
  destruct (apply_mutation_inv _ _ _ _ _ _ Hfile Hfirst)
    as (earlier & patch_text & patch & Hsplit & Hint).
  pose proof (apply_mutation_run _ module1 version1 _ _ _ _ _ Hfile Hsplit Hint)
    as Hrun.
  cbv zeta in Hrun. rewrite Hfirst in Hrun. injection Hrun as ->.
  set (skill_def := load_yaml Skill.empty (Some file)) in *.
  match goal with
  | |- context [<[skill_name := Some ?m]> (skill_files w)] => set (mutated := m)
  end.
  assert (Hfile1 :
    skill_files (set_skill_files (<[skill_name := Some mutated]> (skill_files w))
                                 (set_clock (S (clock w)) w)) !! skill_name
    = Some (Some mutated)) by apply lookup_insert_eq.
  assert (Hparts : Forall (fun p => dot ∉ p) (earlier ++ [str_of_int (patch + 1)])).
  { pose proof (split_parts dot (default (u "1.0.0") (Skill.version skill_def)))
      as [Hall _].
    rewrite Hsplit in Hall. apply Forall_app in Hall as [Hearlier _].
    apply Forall_app. split; [done|]. repeat constructor.
    apply str_of_int_no_dot. }
  assert (Hsplit1 :
    split dot (default (u "1.0.0")
                 (Skill.version (load_yaml Skill.empty (Some (Some mutated)))))
    = earlier ++ [str_of_int (patch + 1)]).
  { simpl. apply split_join; [by destruct earlier|done]. }
  pose proof (apply_mutation_run _ module2 version2 _ _ _ _ _ Hfile1 Hsplit1
                (int_of_str_of_int (patch + 1))) as Hsecond.
  cbv zeta in Hsecond.
  eexists file, earlier, patch_text, patch, _, _, _, _.
  split; [done|]. split; [done|]. split; [done|]. split; [exact Hsecond|].
  split; [apply lookup_insert_eq|].
  split_and!; simpl.
  - by replace (patch + 1 + 1)%Z with (patch + 2)%Z by lia.
  - by rewrite <- app_assoc.
  - do 3 f_equal. destruct (decide (module2 = module1)) as [->|Hne].
    + by rewrite dict_get_set.
    + by rewrite dict_get_set_ne.
  - done.
Qed.

(** X3. What is applied is guarded. After [apply_mutation] has returned [True]
    for a module type and a version that hold no separator and no outer
    blank, from a selection that holds none either, the history it wrote
    puts the pair among the recently tried variants of the skill, and
    [suggest_mutations] on the definition it wrote proposes that pair to no
    one: whatever the fitness, the registry and the top performers. *)
Theorem apply_mutation_guards_variant
    (skill_name module_type new_version : list N) (w w1 : world) :
  apply_mutation skill_name module_type new_version w = Return true w1 ->
  colon ∉ module_type -> arrow ∉ module_type -> strip module_type = module_type ->
  arrow ∉ new_version -> strip new_version = new_version ->
  (forall old_version,
     dict_get module_type
       (default [] (Skill.modules
                      (load_yaml Skill.empty (skill_files w !! skill_name))))
     = Some old_version ->
     (colon ∉ old_version) /\ (arrow ∉ old_version)) ->
  exists mutated,
    skill_files w1 !! skill_name = Some (Some mutated) /\
    variant_key module_type new_version ∈ get_recently_tried_variants mutated /\
    forall files fitness registry top_performers,
      Forall (fun s => ~ (Suggestion.module s = module_type /\
                          Suggestion.to_version s = new_version))
             (suggest_mutations files skill_name mutated fitness registry
                                top_performers).
Proof.
  intros Hrun Hm Hm' Hsm Hn Hsn Hold.
  destruct (skill_files w !! skill_name) as [file|] eqn:Hfile.
  2:{ unfold apply_mutation, bind, get in Hrun. by rewrite Hfile in Hrun. }
  destruct (apply_mutation_inv _ _ _ _ _ _ Hfile Hrun)
    as (earlier & patch_text & patch & Hsplit & Hint).
  pose proof (apply_mutation_run _ module_type new_version _ _ _ _ _
                Hfile Hsplit Hint) as Hw1.
  cbv zeta in Hw1. rewrite Hrun in Hw1. injection Hw1 as ->.
  eexists. split; [apply lookup_insert_eq|].
  match goal with |- ?key ∈ ?rt /\ _ => assert (Hkey : key ∈ rt) end.
  { apply get_recently_tried_variants_elem. eexists. split.
    - simpl. apply (most_recent_last 9).
    - simpl. rewrite tried_variant_descriptor;
        [by rewrite Hsm, Hsn|done|done| | |done]; simpl.
      + destruct (dict_get module_type _) as [old|] eqn:Hget; simpl.
        * by apply (Hold old).
        * apply (bool_decide_unpack _). by vm_compute.
      + destruct (dict_get module_type _) as [old|] eqn:Hget; simpl.
        * by apply (Hold old).
        * apply (bool_decide_unpack _). by vm_compute. }
  split; [exact Hkey|].
  intros files fitness registry top_performers.
  match goal with
  | |- Forall _ (suggest_mutations _ _ ?d _ _ _) =>
    assert (Hfresh : Forall (fresh (get_recently_tried_variants d))
                            (suggest_mutations files skill_name d fitness registry
                                               top_performers))
  end.
  { unfold suggest_mutations. case_bool_decide; [done|].
    by apply mutate_pass_fresh, absorb_pass_fresh. }
  eapply Forall_impl; [exact Hfresh|].
  intros s Hs [Hmod Hto]. apply Hs. by rewrite Hmod, Hto.
Qed.

End Mutations.

(** ** Suggestion engine: what a suggestion is made of *)

Lemma foldl_invariant_elem {A B} (P : B -> Prop) (f : B -> A -> B)
    (l : list A) (acc : B) :
  P acc -> (forall b a, a ∈ l -> P b -> P (f b a)) -> P (foldl f acc l).
Proof.
  revert acc. induction l as [|a l IH]; simpl; intros acc Hacc Hstep; [done|].
  apply IH.
  - apply Hstep; [left|done].
  - intros b a' Ha'. apply Hstep. by right.
Qed.

Lemma NaN_not_ge (x y : float) : ~ is_number x -> float_ge x y = false.
Proof.
  intros Hx. destruct (float_ge x y) eqn:Hge; [|done].
  by apply float_ge_number_l in Hge.
Qed.

(** X4. A fitness that is not a number (the [NaN] that [json.loads] accepts)
    passes none of the three tests of [classify_skill]: the skill is
    [failing]. *)
Theorem classify_skill_nan (fitness : float) :
  ~ is_number fitness -> classify_skill fitness = failing.
Proof. intros Hnan. apply classify_skill_failing. by apply NaN_not_ge. Qed.

(** X5. [get_skill_fitness] returns the fitness of the first entry of the
    report that bears the name, whatever entries of the same name follow,
    and [None] exactly when no entry bears it. *)
Theorem get_skill_fitness_first_match (evaluation : Evaluation.t)
    (skill_name : list N) :
  let skills := default [] (Evaluation.skills evaluation) in
  (forall fitness,
     get_skill_fitness evaluation skill_name = Some fitness <->
     exists before entry after,
       skills = before ++ entry :: after /\
       (skill_name ∉ Score.skill <$> before) /\
       Score.skill entry = skill_name /\
       Score.fitness entry = fitness) /\
  (get_skill_fitness evaluation skill_name = None <->
   skill_name ∉ Score.skill <$> skills).
Proof.
  intros skills. unfold get_skill_fitness. fold skills.
  induction skills as [|entry skills [IHsome IHnone]]; simpl.
  - split.
    + intros fitness. split; [done|]. intros (before & e & after & Hnil & _).
      by destruct before.
    + split; [intros _; apply not_elem_of_nil | done].
  - destruct (decide (Score.skill entry = skill_name)) as [Hname|Hname]; split.
    + intros fitness. split.
      * intros [= <-]. exists [], entry, skills. split_and!; try done.
        apply not_elem_of_nil.
      * intros (before & e & after & Hcut & Hbefore & He & Hf).
        destruct before as [|b before]; simpl in Hcut.
        -- injection Hcut as -> _. by rewrite Hf.
        -- injection Hcut as -> _. exfalso. apply Hbefore. csimpl.
           rewrite Hname. left.
    + split; [done|]. intros Hnot. exfalso. apply Hnot. csimpl. rewrite Hname. left.
    + intros fitness. rewrite IHsome. split.
      * intros (before & e & after & -> & Hbefore & He & Hf).
        exists (entry :: before), e, after. split_and!; try done. csimpl.
        apply not_elem_of_cons. split; [congruence|done].
      * intros (before & e & after & Hcut & Hbefore & He & Hf).
        destruct before as [|b before]; simpl in Hcut.
        -- injection Hcut as -> _. done.
        -- injection Hcut as -> ->. exists before, e, after. split_and!; try done.
           csimpl in Hbefore. by apply not_elem_of_cons in Hbefore as [_ ?].
    + rewrite IHnone. csimpl. rewrite not_elem_of_cons. split; [|tauto].
      intros ?. split; [congruence|done].
Qed.

Section Soundness.

Context `{Environment}.

(** X6. Every suggestion of [suggest_mutations] is for the skill asked about,
    which is underperforming or failing; it names as origin the version
    the skill selects for the module type ("unknown" when it selects
    none) and as destination a version other than that one. An absorb
    suggestion takes its pair from the module selection of a top
    performer whose definition file exists; a mutate suggestion is for a
    module type the skill uses and a version the registry lists for it. *)
Theorem suggest_mutations_sound
    (files : gmap (list N) (option Skill.t)) (skill_name : list N)
    (skill_def : Skill.t) (fitness : float) (registry : Registry.t)
    (top_performers : list Score.t) (s : Suggestion.t) :
  dict_wf (default [] (Skill.modules skill_def)) ->
  s ∈ suggest_mutations files skill_name skill_def fitness registry
                        top_performers ->
  let current_modules := default [] (Skill.modules skill_def) in
  (classify_skill fitness = underperforming \/ classify_skill fitness = failing) /\
  Suggestion.skill s = skill_name /\
  dict_get (Suggestion.module s) current_modules
  <> Some (Suggestion.to_version s) /\
  Suggestion.from_version s
  = default (u "unknown") (dict_get (Suggestion.module s) current_modules) /\
  match Suggestion.type s with
  | absorb =>
    exists top file,
      top ∈ top_performers /\
      files !! Score.skill top = Some file /\
      (Suggestion.module s, Suggestion.to_version s)
      ∈ default [] (Skill.modules (load_yaml Skill.empty (Some file)))
  | mutate =>
    Suggestion.module s ∈ dict_keys current_modules /\
    Suggestion.to_version s ∈ get_module_variants registry (Suggestion.module s)
  end.
Proof.
  intros Hwf Hs current_modules. unfold suggest_mutations in Hs.
  fold current_modules in Hs.
  case_bool_decide as Hclass; [by apply elem_of_nil in Hs|].
  split.
  { rewrite !elem_of_cons, elem_of_nil in Hclass.
    destruct (classify_skill fitness); tauto. }
  set (Q := fun s : Suggestion.t =>
    Suggestion.skill s = skill_name /\
    dict_get (Suggestion.module s) current_modules
    <> Some (Suggestion.to_version s) /\
    Suggestion.from_version s
    = default (u "unknown") (dict_get (Suggestion.module s) current_modules) /\
    match Suggestion.type s with
    | absorb =>
      exists top file,
        top ∈ top_performers /\
        files !! Score.skill top = Some file /\
        (Suggestion.module s, Suggestion.to_version s)
        ∈ default [] (Skill.modules (load_yaml Skill.empty (Some file)))
    | mutate =>
      Suggestion.module s ∈ dict_keys current_modules /\
      Suggestion.to_version s ∈ get_module_variants registry (Suggestion.module s)
    end).
  cut (Forall Q (mutate_pass skill_name current_modules
                   (get_recently_tried_variants skill_def) registry
                   (absorb_pass files skill_name current_modules
                      (get_recently_tried_variants skill_def) top_performers []))).
  { rewrite Forall_forall. intros Hall. exact (Hall s Hs). }
  unfold mutate_pass. apply foldl_invariant_elem.
  - unfold absorb_pass. apply foldl_invariant_elem; [done|].
    intros acc top Htop Hacc.
    destruct (files !! Score.skill top) as [file|] eqn:Hfile; [|done].
    apply foldl_invariant_elem; [done|].
    intros acc' [module_type top_version] Hpair Hacc'.
    case_bool_decide; [done|]. case_bool_decide as Hdiff; [|done].
    apply Forall_app. split; [done|]. repeat constructor; simpl; try done.
    by exists top, file.
  - intros acc [module_type current_version] Hpair Hacc.
    apply foldl_invariant_elem; [done|].
    intros acc' variant Hvariant Hacc'.
    case_bool_decide; [done|]. case_bool_decide as Hdiff; [|done].
    destruct (existsb _ _); simpl; [done|].
    apply Forall_app. split; [done|].
    pose proof (dict_get_elem _ _ _ Hwf Hpair) as Hget.
    change (dict_get module_type current_modules = Some current_version) in Hget.
    repeat constructor; simpl; try done.
    + rewrite Hget. congruence.
    + by rewrite Hget.
    + apply list_elem_of_fmap. by exists (module_type, current_version).
Qed.

End Soundness.

(** ** The compiler: exit code, idempotence, and what it reads *)

Section Compilation.

Context `{Environment}.

(** What a successful [compile_skill] found and left. *)
Lemma compile_skill_inv (skill_name : list N) (registry : option Registry.t)
    (w w1 : world) :
  compile_skill skill_name registry w = Return true w1 ->
  exists skill modules files text lines,
    skill_files w !! skill_name = Some (Some skill) /\
    registry = Some modules /\
    command_files w = Some files /\
    w1 = set_stdout (stdout w ++ lines)
           (set_skill_files
              (<[skill_name :=
                   Some (Skill.set_last_compiled
                           (strftime (u "%Y-%m-%dT%H:%M:%SZ") (utcnow (clock w)))
                           skill)]> (skill_files w))
              (set_clock (S (clock w))
                 (set_command_files (Some (<[skill_name := text]> files)) w))) /\
    forall w0 stamp,
      skill_files w0 !! skill_name = Some (Some (Skill.set_last_compiled stamp skill)) ->
      command_files w0 = Some (<[skill_name := text]> files) ->
      exists lines0,
        compile_skill skill_name registry w0
        = Return true
            (set_stdout (stdout w0 ++ lines0)
               (set_skill_files
                  (<[skill_name :=
                       Some (Skill.set_last_compiled
                               (strftime (u "%Y-%m-%dT%H:%M:%SZ") (utcnow (clock w0)))
                               skill)]> (skill_files w0))
                  (set_clock (S (clock w0)) w0))).
Proof.
  unfold compile_skill, bind, get, print, modify, raise, ret, utcnow_strftime.
  simpl.
  destruct (skill_files w !! skill_name) as [[skill|]|] eqn:Hfile; simpl; try done.
  destruct registry as [modules|]; simpl; [|done].
  destruct (command_files w) as [files|] eqn:Hfiles; simpl; [|done].
  intros [= <-]. eexists skill, modules, files, _, [_; _; _].
  split; [done|]. split; [done|]. split; [done|]. split.
  { rewrite <- !app_assoc. reflexivity. }
  intros w0 stamp Hfile0 Hfiles0. eexists [_; _; _].
  rewrite Hfile0. simpl. rewrite Hfiles0. simpl.
  rewrite insert_insert_eq, <- !app_assoc. simpl.
  destruct w0. simpl in *. by rewrite Hfiles0.
Qed.

(** X7. Compiling twice is compiling once, the stamp apart. When
    [compile_skill] has returned [True], a second call on the home it left
    returns [True] as well and writes the same command file; only the
    stamp [last_compiled] of the definition and the clock move. *)
Theorem compile_skill_idempotent (skill_name : list N)
    (registry : option Registry.t) (w w1 : world) :
  compile_skill skill_name registry w = Return true w1 ->
  exists w2,
    compile_skill skill_name registry w1 = Return true w2 /\
    command_files w2 = command_files w1 /\
    without_last_compiled (skill_files w2) = without_last_compiled (skill_files w1) /\
    changelog_files w2 = changelog_files w1 /\
    clock w2 = S (clock w1).
Proof.
  intros Hfirst.
  destruct (compile_skill_inv _ _ _ _ Hfirst)
    as (skill & modules & files & text & lines & Hfile & -> & Hfiles & -> & Hagain).
  match goal with
  | |- exists w2, compile_skill _ _ ?w1 = _ /\ _ =>
    destruct (Hagain w1 (strftime (u "%Y-%m-%dT%H:%M:%SZ") (utcnow (clock w))))
      as [lines0 Hsecond]
  end; [apply lookup_insert_eq|reflexivity|].
  eexists. split; [exact Hsecond|]. simpl. split_and!; try done.
  unfold without_last_compiled. by rewrite insert_insert_eq, !fmap_insert.
Qed.

(** X8. The compiler reads five module types of the registry: input,
    research, output, workflow and validation. Two registries that agree
    on these give the same run of [compile_skill], whatever else they
    hold: the prompts registered for the module type structure, whose
    version the header of the command names, are never read. *)
Theorem compile_skill_reads_five_modules (skill_name : list N)
    (registry1 registry2 : Registry.t) (w : world) :
  (forall module_type,
     module_type ∈ [u "input"; u "research"; u "output"; u "workflow";
                    u "validation"] ->
     dict_get module_type (default [] (Registry.modules registry1))
     = dict_get module_type (default [] (Registry.modules registry2))) ->
  compile_skill skill_name (Some registry1) w
  = compile_skill skill_name (Some registry2) w.
Proof.
  intros Hsame.
  assert (Hprompt : forall module_type version,
    module_type ∈ [u "input"; u "research"; u "output"; u "workflow";
                   u "validation"] ->
    get_module_prompt registry1 module_type version
    = get_module_prompt registry2 module_type version).
  { intros module_type version Hin. unfold get_module_prompt.
    by rewrite (Hsame _ Hin). }
  cbv [compile_skill bind get].
  destruct (skill_files w !! skill_name) as [[skill|]|]; try reflexivity.
  rewrite !(Hprompt (u "input")), !(Hprompt (u "research")),
    !(Hprompt (u "output")), !(Hprompt (u "workflow")),
    !(Hprompt (u "validation")); try done;
    rewrite !elem_of_cons; tauto.
Qed.

(** The ways a run of [compile_skill] can end. *)
Lemma compile_skill_outcome (skill_name : list N) (registry : option Registry.t)
    (w : world) :
  match skill_files w !! skill_name with
  | None =>
    exists line,
      compile_skill skill_name registry w
      = Return false (set_stdout (stdout w ++ [line]) w)
  | Some None =>
    exists w', compile_skill skill_name registry w = Raise AttributeError w'
  | Some (Some skill) =>
    match registry, command_files w with
    | None, _ =>
      exists w', compile_skill skill_name registry w = Raise AttributeError w'
    | Some _, None =>
      exists w', compile_skill skill_name registry w = Raise FileNotFoundError w'
    | Some _, Some _ =>
      exists w', compile_skill skill_name registry w = Return true w'
    end
  end.
Proof.
  unfold compile_skill, bind, get, print, modify, raise, ret, utcnow_strftime.
  cbv beta iota.
  destruct (skill_files w !! skill_name) as [[skill|]|]; cbv beta iota;
    [|by eexists..].
  destruct registry as [registry|]; [|by eexists].
  change (command_files (set_stdout _ w)) with (command_files w).
  destruct (command_files w); by eexists.
Qed.

(** X9. The exit code of the compiler as the engine sees it, for a skill not
    named ["--all"]. [recompile_skill] always returns; it returns [True]
    exactly when the registry file exists and either the definition file
    of the skill does not exist ([main] drops what [compile_skill]
    returns), or the definition and the registry are documents and the
    output directory exists. In the first case the run leaves the home as
    it was. *)
Theorem recompile_skill_exit_code (skill_name : list N) (w : world) :
  skill_name <> u "--all" ->
  exists ok w',
    recompile_skill skill_name w = Return ok w' /\
    (ok = true <->
     registry_file w <> None /\
     (skill_files w !! skill_name = None \/
      exists skill registry files,
        skill_files w !! skill_name = Some (Some skill) /\
        registry_file w = Some (Some registry) /\
        command_files w = Some files)) /\
    (registry_file w <> None -> skill_files w !! skill_name = None ->
     ok = true /\
     w' = set_compiler_runs (compiler_runs w ++ [skill_name]) w).
Proof.
  intros Hname. unfold recompile_skill.
  set (started := set_stdout [] (set_compiler_runs (compiler_runs w ++ [skill_name]) w)).
  unfold compile_main. unfold bind at 1, get at 1.
  change (registry_file started) with (registry_file w).
  destruct (registry_file w) as [registry|] eqn:Hregistry.
  2:{ eexists _, _. split; [reflexivity|]. split; [|done].
      split; [done|]. by intros [? _]. }
  rewrite decide_False by done. unfold bind at 1.
  pose proof (compile_skill_outcome skill_name registry started) as Hout.
  change (skill_files started) with (skill_files w) in Hout.
  change (command_files started) with (command_files w) in Hout.
  destruct (skill_files w !! skill_name) as [[skill|]|] eqn:Hfile.
  - destruct registry as [registry|].
    + destruct (command_files w) as [files|] eqn:Hfiles;
        destruct Hout as [w' ->]; eexists _, _; (split; [reflexivity|]);
        (split; [|done]).
      * split; [|done]. intros _. split; [done|]. right.
        by exists skill, registry, files.
      * split; [done|]. intros [_ [? | (? & ? & ? & _ & _ & ?)]]; done.
    + destruct Hout as [w' ->]. eexists _, _. split; [reflexivity|].
      split; [|done]. split; [done|].
      intros [_ [? | (? & ? & ? & _ & ? & _)]]; done.
  - destruct Hout as [w' ->]. eexists _, _. split; [reflexivity|].
    split; [|done]. split; [done|].
    intros [_ [? | (? & ? & ? & ? & _)]]; done.
  - destruct Hout as [line ->]. eexists _, _. split; [reflexivity|]. split.
    + split; [|done]. intros _. split; [done|]. by left.
    + intros _ _. split; [done|]. reflexivity.
Qed.

End Compilation.

(** ** Changelog recorder: any number of entries *)

(** X10. Newest first, however many entries. Cut a changelog at its first
    section marker into a header and the sections. Prepending entries one
    after the other, each of which opens with the section marker as the
    entries of [write_changelog] do, gives the header, the entries from the
    last prepended to the first, and the sections. *)
Theorem prepend_entry_newest_first (content : list N) (entries : list (list N)) :
  Forall (fun entry => startswith section_marker entry = true) entries ->
  exists header sections,
    content = header ++ sections /\
    find section_marker header = (-1)%Z /\
    (sections = [] \/ startswith section_marker sections = true) /\
    foldl prepend_entry content entries
    = header ++ concat (rev entries) ++ sections.
Proof.
  intros Hentries.
  destruct (section_marker_cut content)
    as (header & sections & Hcut & Hheader & Hsections & _ & Hprepend).
  exists header, sections. split_and!; try done.
  induction entries as [|entry entries IH] using rev_ind; [done|].
  apply Forall_app in Hentries as [Hentries Hentry].
  apply Forall_cons in Hentry as [[r ->]%startswith_true _].
  rewrite foldl_app, rev_unit. simpl. rewrite IH by done.
  destruct (rev entries) as [|newest older] eqn:Hrev.
  - simpl. rewrite <- Hcut, app_nil_r. apply Hprepend.
  - assert (Hnewest : newest ∈ entries).
    { apply list_elem_of_In, in_rev, list_elem_of_In. rewrite Hrev. left. }
    rewrite Forall_forall in Hentries.
    destruct (startswith_true _ _ (Hentries _ Hnewest)) as [r' ->].
    simpl concat. rewrite <- !app_assoc.
    apply (prepend_entry_at header (section_marker ++ r' ++ concat older) sections).
    by destruct (Hprepend (r' ++ concat older)) as [Hfind _].
Qed.

(** ** Computations that only print *)

Lemma bind_Raise {A B} (m : M A) (k : A -> M B) (w : world) (e : exn) (w' : world) :
  m w = Raise e w' -> bind m k w = Raise e w'.
Proof. unfold bind. by intros ->. Qed.

Lemma set_stdout_nil (w : world) : set_stdout (stdout w ++ []) w = w.
Proof. destruct w. unfold set_stdout. simpl. by rewrite app_nil_r. Qed.

Lemma set_stdout_app (w : world) (lines more : list (list N)) :
  set_stdout (stdout (set_stdout (stdout w ++ lines) w) ++ more)
             (set_stdout (stdout w ++ lines) w)
  = set_stdout (stdout w ++ lines ++ more) w.
Proof. unfold set_stdout. simpl. by rewrite app_assoc. Qed.

Lemma prints_only_ret {A} (a : A) (Q : A -> Prop) : Q a -> prints_only (ret a) Q.
Proof. intros Ha w. exists a, []. by rewrite set_stdout_nil. Qed.

Lemma prints_only_print (line : list N) : prints_only (print line) (fun _ => True).
Proof. intros w. by exists tt, [line]. Qed.

Lemma prints_only_bind {A B} (m : M A) (k : A -> M B)
    (P : A -> Prop) (Q : B -> Prop) :
  prints_only m P -> (forall a, P a -> prints_only (k a) Q) ->
  prints_only (bind m k) Q.
Proof.
  intros Hm Hk w. destruct (Hm w) as (a & lines & Hrun & Ha).
  destruct (Hk a Ha (set_stdout (stdout w ++ lines) w)) as (b & more & Hrun' & Hb).
  exists b, (lines ++ more). unfold bind. by rewrite Hrun, Hrun', set_stdout_app.
Qed.

Lemma prints_only_for_fold {A B} (body : B -> A -> M B) (I : list A -> B -> Prop)
    (l : list A) (acc : B) :
  I [] acc ->
  (forall done acc x, I done acc -> prints_only (body acc x) (I (done ++ [x]))) ->
  prints_only (for_fold body l acc) (I l).
Proof.
  intros Hacc Hbody.
  cut (forall done acc,
         I done acc -> prints_only (for_fold body l acc) (I (done ++ l))).
  { intros Hall. by apply (Hall []). }
  clear acc Hacc. induction l as [|x l IH]; intros done acc Hdone; simpl.
  - rewrite app_nil_r. by apply prints_only_ret.
  - eapply prints_only_bind; [by apply Hbody|].
    intros acc' Hacc'. replace (done ++ x :: l) with ((done ++ [x]) ++ l)
      by (by rewrite <- app_assoc).
    by apply IH.
Qed.

Lemma slice_to_take {A} (l : list A) (k : nat) : slice_to l (Z.of_nat k) = take k l.
Proof.
  unfold slice_to, slice_index.
  destruct (Z.ltb_spec (Z.of_nat k) 0); [lia|].
  destruct (decide (k <= length l)) as [Hk|Hk].
  - f_equal. lia.
  - rewrite !take_ge; [done|lia..].
Qed.

(** ** The command [suggest] *)

Section Suggest.

Context `{Environment}.

Lemma suggest_mutations_skill (files : gmap (list N) (option Skill.t))
    (skill_name : list N) (skill_def : Skill.t) (fitness : float)
    (registry : Registry.t) (top_performers : list Score.t) :
  Forall (fun s => Suggestion.skill s = skill_name)
         (suggest_mutations files skill_name skill_def fitness registry
                            top_performers).
Proof.
  unfold suggest_mutations. case_bool_decide; [done|].
  unfold mutate_pass. apply foldl_invariant.
  - unfold absorb_pass. apply foldl_invariant; [done|].
    intros acc top Hacc. destruct (files !! Score.skill top); [|done].
    apply foldl_invariant; [done|]. intros acc' [module_type version] Hacc'.
    repeat case_bool_decide; try done.
    apply Forall_app. split; [done|]. by repeat constructor.
  - intros acc [module_type version] Hacc. apply foldl_invariant; [done|].
    intros acc' variant Hacc'. repeat case_bool_decide; try done.
    destruct (existsb _ _); simpl; [done|].
    apply Forall_app. split; [done|]. by repeat constructor.
Qed.

Lemma show_suggestion_prints (s : Suggestion.t) :
  prints_only (show_suggestion s) (fun _ => True).
Proof.
  unfold show_suggestion. eapply prints_only_bind; [apply prints_only_print|].
  intros _ _. apply prints_only_print.
Qed.

(** One pass of the loop of [cmd_suggest]. *)
Lemma cmd_suggest_skill_prints (registry : Registry.t)
    (top_performers : list Score.t) (all_suggestions : list Suggestion.t)
    (skill_data : Score.t) :
  prints_only
    (cmd_suggest_skill registry top_performers all_suggestions skill_data)
    (fun all =>
       exists added,
         all = all_suggestions ++ added /\
         length added <= (if low skill_data then 3 else 0) /\
         Forall (fun s => Suggestion.skill s = Score.skill skill_data) added).
Proof.
  assert (Hnone : forall w : M (list Suggestion.t), w = ret all_suggestions ->
    prints_only w
      (fun all =>
         exists added,
           all = all_suggestions ++ added /\
           length added <= (if low skill_data then 3 else 0) /\
           Forall (fun s => Suggestion.skill s = Score.skill skill_data) added)).
  { intros w ->. apply prints_only_ret. exists []. rewrite app_nil_r.
    split_and!; [done|simpl; lia|done]. }
  unfold cmd_suggest_skill. fold (low skill_data).
  destruct (low skill_data) eqn:Hlow; [|by apply Hnone].
  intros w. unfold bind at 1, get at 1.
  destruct (skill_files w !! Score.skill skill_data) as [file|]; [|by apply Hnone].
  pose proof (suggest_mutations_skill (skill_files w) (Score.skill skill_data)
                (load_yaml Skill.empty (Some file)) (Score.fitness skill_data)
                registry top_performers) as Hskill.
  destruct (suggest_mutations _ _ _ _ _ _) as [|s suggestions] eqn:Hsuggestions;
    [by apply Hnone|].
  match goal with
  | |- exists a lines, ?m w = Return a _ /\ @?Q a =>
    cut (prints_only m Q); [intros Hprints; exact (Hprints w)|]
  end.
  eapply prints_only_bind; [apply prints_only_print|]. intros _ _.
  eapply prints_only_bind; [apply prints_only_print|]. intros _ _.
  eapply prints_only_bind.
  { apply (prints_only_for_fold _ (fun _ _ => True)); [done|].
    intros _ _ x _. apply show_suggestion_prints. }
  intros _ _. eapply prints_only_bind; [apply prints_only_print|]. intros _ _.
  apply prints_only_ret. eexists. split; [done|].
  change 3%Z with (Z.of_nat 3). rewrite slice_to_take. split.
  - rewrite length_take. lia.
  - by apply Forall_take.
Qed.

Lemma cmd_suggest_loop_prints (registry : Registry.t)
    (top_performers skills : list Score.t) :
  prints_only (for_fold (cmd_suggest_skill registry top_performers) skills [])
              (fun _ => True).
Proof.
  apply (prints_only_for_fold _ (fun _ _ => True)); [done|].
  intros _ all skill_data _ w.
  destruct (cmd_suggest_skill_prints registry top_performers all skill_data w)
    as (all' & lines & Hrun & _).
  by exists all', lines.
Qed.

(** X11. The loop of [cmd_suggest] shows at most three suggestions for a skill
    and none for a skill that is healthy or a top performer: the
    suggestions it counts are at most three times the underperforming or
    failing entries of the report, and each is for one of these. The loop
    always runs to its end and does nothing but print. *)
Theorem cmd_suggest_at_most_three (registry : Registry.t)
    (top_performers skills : list Score.t) :
  prints_only
    (for_fold (cmd_suggest_skill registry top_performers) skills [])
    (fun all_suggestions =>
       length all_suggestions <= 3 * length (List.filter low skills) /\
       Forall (fun s => Suggestion.skill s
                        ∈ Score.skill <$> List.filter low skills)
              all_suggestions).
Proof.
  apply (prints_only_for_fold _
           (fun done all =>
              length all <= 3 * length (List.filter low done) /\
              Forall (fun s => Suggestion.skill s
                               ∈ Score.skill <$> List.filter low done) all)).
  { split; [simpl; lia|done]. }
  intros done all skill_data [Hlength Hall] w.
  destruct (cmd_suggest_skill_prints registry top_performers all skill_data w)
    as (all' & lines & Hrun & added & -> & Hadded & Hskill).
  exists (all ++ added), lines. split; [done|]. cbv beta.
  rewrite List.filter_app, !length_app, fmap_app. simpl.
  destruct (low skill_data); simpl in *.
  - split; [simpl; lia|].
    apply Forall_app. split.
    + eapply Forall_impl; [done|]. simpl. intros s Hs. apply elem_of_app. by left.
    + eapply Forall_impl; [done|]. simpl. intros s ->. apply elem_of_app.
      right. left.
  - destruct added; [|simpl in Hadded; lia]. rewrite !app_nil_r.
    split; [simpl; lia|done].
Qed.

(** How [cmd_suggest] ends: it prints and returns, or dies of the exception
    of [json.loads] with nothing printed. *)
Lemma cmd_suggest_run_shape (w : world) :
  match evaluate_sh (evaluator_runs w) with
  | unparseable_output =>
    cmd_suggest w
    = Raise JSONDecodeError (set_evaluator_runs (S (evaluator_runs w)) w)
  | _ =>
    exists lines,
      cmd_suggest w
      = Return tt (set_stdout (stdout w ++ lines)
                              (set_evaluator_runs (S (evaluator_runs w)) w))
  end.
Proof.
  assert (Hrest : forall evaluation,
    prints_only
      (match Evaluation.error evaluation with
       | Some error => print (u "Error: " ++ error)
       | None =>
         w <- get ;;
         let registry := load_yaml Registry.empty (registry_file w) in
         let skills := default [] (Evaluation.skills evaluation) in
         let top_performers :=
           List.filter
             (fun s => bool_decide (classify_skill (Score.fitness s) = top_performer))
             skills in
         print banner ;;
         print (u "DARWIN EVOLUTION SUGGESTIONS") ;;
         print banner ;;
         print [] ;;
         all_suggestions <-
           for_fold (cmd_suggest_skill registry top_performers) skills [] ;;
         (match all_suggestions with
          | [] =>
            print (u "No mutations needed. All skills are healthy or top performers.")
          | _ :: _ =>
            print (u "Total suggestions: "
                   ++ str_of_int (Z.of_nat (length all_suggestions))) ;;
            print [] ;;
            print (u "Run 'python evolve.py apply' to apply top suggestion per skill.")
          end) ;;
         print banner
       end)
      (fun _ => True)).
  { intros evaluation. destruct (Evaluation.error evaluation).
    { intros w0. destruct (prints_only_print (u "Error: " ++ l) w0)
        as ([] & lines & Hrun & _). by exists tt, lines. }
    eapply (prints_only_bind get _ (fun _ => True)).
    { intros w0. exists w0, []. by rewrite set_stdout_nil. }
    intros w0 _. cbv zeta.
    do 4 (eapply prints_only_bind; [apply prints_only_print|]; intros _ _).
    eapply prints_only_bind; [apply cmd_suggest_loop_prints|].
    intros all _. eapply prints_only_bind.
    - destruct all.
      + apply prints_only_print.
      + do 2 (eapply prints_only_bind; [apply prints_only_print|]; intros _ _).
        apply prints_only_print.
    - intros _ _. intros w1. destruct (prints_only_print banner w1)
        as ([] & lines & Hrun & _). by exists tt, lines. }
  unfold cmd_suggest.
  destruct (evaluate_sh (evaluator_runs w)) as [stderr| |report] eqn:Hout.
  - erewrite bind_Return by (unfold run_evaluate; by rewrite Hout).
    by eexists [_].
  - apply bind_Raise. unfold run_evaluate. by rewrite Hout.
  - erewrite bind_Return by (unfold run_evaluate; by rewrite Hout).
    destruct (Hrest report (set_evaluator_runs (S (evaluator_runs w)) w))
      as ([] & lines & Hrun & _).
    exists lines. exact Hrun.
Qed.

(** X12. The command [suggest] reads and prints; it changes nothing. After
    [cmd_suggest] the skill definitions, the changelogs, the compiled
    commands, the snapshots and the registry are what they were, no
    compiler was started and the clock was not read; the evaluator was run
    once. The command returns unless the output of the evaluator does not
    parse, in which case it dies of the exception of [json.loads]. *)
Theorem cmd_suggest_read_only (w : world) :
  untouched w (world_of (cmd_suggest w)) /\
  registry_file (world_of (cmd_suggest w)) = registry_file w /\
  clock (world_of (cmd_suggest w)) = clock w /\
  evaluator_runs (world_of (cmd_suggest w)) = S (evaluator_runs w) /\
  match evaluate_sh (evaluator_runs w) with
  | unparseable_output =>
    cmd_suggest w
    = Raise JSONDecodeError (set_evaluator_runs (S (evaluator_runs w)) w)
  | _ => exists w', cmd_suggest w = Return tt w'
  end.
Proof.
  pose proof (cmd_suggest_run_shape w) as Hrun.
  destruct (evaluate_sh (evaluator_runs w)) as [stderr| |report];
    [destruct Hrun as [lines ->] | rewrite Hrun | destruct Hrun as [lines ->]];
    unfold untouched; split_and!; try done; by eexists.
Qed.

End Suggest.

(** ** What a run touches, and the compilers it starts *)

Lemma effect_same (names : list (list N)) (w w' : world) :
  skill_files w' = skill_files w -> changelog_files w' = changelog_files w ->
  registry_file w' = registry_file w -> evaluation_files w' = evaluation_files w ->
  compiler_runs w' = compiler_runs w ->
  effect names [] w w'.
Proof.
  intros Hs Hl Hr He Hc. split.
  - unfold touches_only. rewrite Hs, Hl. by split_and!.
  - exists []. split; [done|]. by rewrite app_nil_r.
Qed.

Lemma effect_refl (names : list (list N)) (w : world) : effect names [] w w.
Proof. by apply effect_same. Qed.

Lemma effect_mono (names names' within within' : list (list N)) (w w' : world) :
  (forall x, x ∈ names -> x ∈ names') -> within `sublist_of` within' ->
  effect names within w w' -> effect names' within' w w'.
Proof.
  intros Hnames Hwithin [(Hs & Hl & Hr & He) (started & Hstarted & Hruns)]. split.
  - split_and!; try done.
    + intros other Hother. apply Hs. intros ?. by apply Hother, Hnames.
    + intros other Hother. apply Hl. intros ?. by apply Hother, Hnames.
  - exists started. split; [|done]. by transitivity within.
Qed.

Lemma effect_trans (names within1 within2 : list (list N)) (w1 w2 w3 : world) :
  effect names within1 w1 w2 -> effect names within2 w2 w3 ->
  effect names (within1 ++ within2) w1 w3.
Proof.
  intros [(Hs & Hl & Hr & He) (l & Hl1 & Hruns)]
         [(Hs' & Hl' & Hr' & He') (l' & Hl2 & Hruns')].
  split.
  - split_and!; try congruence.
    + intros other Hother. by rewrite Hs', Hs.
    + intros other Hother. by rewrite Hl', Hl.
  - exists (l ++ l'). split; [by apply sublist_app|].
    by rewrite Hruns', Hruns, app_assoc.
Qed.

Lemma effect_bind {A B} (names within1 within2 : list (list N))
    (m : M A) (k : A -> M B) (w : world) :
  effect names within1 w (world_of (m w)) ->
  (forall a w', effect names within2 w' (world_of (k a w'))) ->
  effect names (within1 ++ within2) w (world_of (bind m k w)).
Proof.
  intros Hm Hk. unfold bind. destruct (m w) as [a w'|e w']; simpl in *.
  - eapply effect_trans; [done|apply Hk].
  - eapply effect_mono; [done| |done]. by apply sublist_inserts_r.
Qed.

Lemma effect_bind_quiet {A B} (names within : list (list N))
    (m : M A) (k : A -> M B) (w : world) :
  effect names [] w (world_of (m w)) ->
  (forall a w', effect names within w' (world_of (k a w'))) ->
  effect names within w (world_of (bind m k w)).
Proof. intros Hm Hk. by apply (effect_bind names [] within). Qed.

Lemma effect_bind_then_quiet {A B} (names within : list (list N))
    (m : M A) (k : A -> M B) (w : world) :
  effect names within w (world_of (m w)) ->
  (forall a w', effect names [] w' (world_of (k a w'))) ->
  effect names within w (world_of (bind m k w)).
Proof.
  intros Hm Hk. rewrite <- (app_nil_r within). by apply effect_bind.
Qed.

Lemma effect_for_fold {A B} (names : list (list N)) (g : A -> list (list N))
    (body : B -> A -> M B) (l : list A) (acc : B) (w : world) :
  (forall acc x w, x ∈ l -> effect names (g x) w (world_of (body acc x w))) ->
  effect names (flat_map g l) w (world_of (for_fold body l acc w)).
Proof.
  revert acc w. induction l as [|x l IH]; intros acc w Hbody; simpl.
  - apply effect_refl.
  - apply effect_bind; [apply Hbody; left|].
    intros acc' w'. apply IH. intros acc'' x' w'' Hx'. apply Hbody. by right.
Qed.

Lemma effect_print (names : list (list N)) (line : list N) (w : world) :
  effect names [] w (world_of (print line w)).
Proof. by apply effect_same. Qed.

Lemma effect_ret {A} (names : list (list N)) (a : A) (w : world) :
  effect names [] w (world_of (ret a w)).
Proof. apply effect_refl. Qed.

Lemma low_skills_flat_map (skills : list Score.t) :
  flat_map (fun skill_data => if low skill_data then [Score.skill skill_data] else [])
           skills
  = Score.skill <$> List.filter low skills.
Proof.
  induction skills as [|skill_data skills IH]; simpl; [done|].
  destruct (low skill_data); simpl; by rewrite IH.
Qed.

Section Effects.

Context `{Environment}.

Lemma effect_run_evaluate (names : list (list N)) (w : world) :
  effect names [] w (world_of (run_evaluate w)).
Proof.
  unfold run_evaluate. destruct (evaluate_sh (evaluator_runs w));
    by apply effect_same.
Qed.

Lemma effect_announce_mutation (names : list (list N)) (skill_name : list N)
    (suggestion : Suggestion.t) (w : world) :
  effect names [] w (world_of (announce_mutation skill_name suggestion w)).
Proof.
  destruct (announce_mutation_run skill_name suggestion w) as [lines ->].
  by apply effect_same.
Qed.

Lemma effect_apply_mutation (names : list (list N))
    (skill_name module_type new_version : list N) (w : world) :
  skill_name ∈ names ->
  effect names [] w
         (world_of (apply_mutation skill_name module_type new_version w)).
Proof.
  intros Hname.
  destruct (apply_mutation_cases skill_name module_type new_version w)
    as [[_ ->] | [(file & _ & _ & ->) | (file & mutated & _ & ->)]];
    [by apply effect_same | apply effect_refl |].
  split.
  - split_and!; try done. intros other Hother. simpl.
    unfold without_last_compiled. rewrite fmap_insert, lookup_insert_ne; [done|].
    by intros <-.
  - exists []. split; [done|]. simpl. by rewrite app_nil_r.
Qed.

Lemma effect_recompile_skill (names : list (list N)) (skill_name : list N)
    (w : world) :
  effect names [skill_name] w (world_of (recompile_skill skill_name w)).
Proof.
  destruct (recompile_skill_run skill_name w)
    as (ok & w' & -> & Hskills & Hregistry & Hlogs & Hsnaps & _ & Hruns & _).
  split.
  - unfold touches_only. simpl. rewrite Hskills, Hlogs. by split_and!.
  - by exists [skill_name].
Qed.

Lemma effect_write_changelog (names : list (list N)) (skill_name : list N)
    (mutations : list Suggestion.t) (old_fitness : float)
    (new_fitness : option float) (w : world) :
  skill_name ∈ names ->
  effect names [] w
         (world_of (write_changelog skill_name mutations old_fitness new_fitness w)).
Proof.
  intros Hname. rewrite write_changelog_run. split.
  - split_and!; try done. intros other Hother. simpl.
    rewrite lookup_insert_ne; [done|]. by intros <-.
  - exists []. split; [done|]. simpl. by rewrite app_nil_r.
Qed.

(** One pass of the loop of [cmd_apply]: only the skill of the entry is
    touched, and only when it is underperforming or failing; the compiler
    is started at most once, for that skill. *)
Lemma effect_cmd_apply_skill (names : list (list N)) (registry : Registry.t)
    (top_performers : list Score.t) (mutations_applied : list Applied.t)
    (skill_data : Score.t) (w : world) :
  (low skill_data = true -> Score.skill skill_data ∈ names) ->
  effect names (if low skill_data then [Score.skill skill_data] else []) w
         (world_of (cmd_apply_skill registry top_performers mutations_applied
                                    skill_data w)).
Proof.
  intros Hnames. unfold cmd_apply_skill.
  assert (Hlow : bool_decide (classify_skill (Score.fitness skill_data)
                              ∉ [underperforming; failing])
                 = negb (low skill_data)).
  { unfold low. by repeat case_bool_decide. }
  rewrite Hlow. destruct (low skill_data); simpl negb; cbv iota;
    [|apply effect_ret].
  specialize (Hnames eq_refl).
  assert (Hskip : forall w0 : world,
    effect names [Score.skill skill_data] w0
           (world_of (ret mutations_applied w0))).
  { intros w0. eapply effect_mono; [done| |apply effect_ret].
    apply sublist_nil_l. }
  apply effect_bind_quiet; [apply effect_refl|]. intros w0 w1.
  destruct (skill_files w0 !! Score.skill skill_data) as [file|]; [|apply Hskip].
  destruct (top_suggestion _) as [suggestion|]; [|apply Hskip].
  apply effect_bind_quiet; [apply effect_announce_mutation|]. intros _ w2.
  apply effect_bind_quiet; [by apply effect_apply_mutation|]. intros applied w3.
  apply (effect_bind names [Score.skill skill_data] []).
  2:{ intros acc w4. apply effect_bind_quiet; [apply effect_print|].
      intros _ w5. apply effect_ret. }
  destruct applied.
  2:{ eapply effect_mono; [done|apply sublist_nil_l|].
      apply effect_bind_quiet; [apply effect_print|]. intros _ w4.
      apply effect_ret. }
  apply (effect_bind names [Score.skill skill_data] []);
    [apply effect_recompile_skill|].
  intros recompiled w4. destruct recompiled.
  2:{ apply effect_bind_quiet; [apply effect_print|]. intros _ w5.
      apply effect_ret. }
  apply effect_bind_quiet; [apply effect_print|]. intros _ w5.
  apply effect_bind_quiet; [apply effect_print|]. intros _ w6.
  apply effect_bind_quiet; [apply effect_run_evaluate|]. intros new_evaluation w7.
  apply effect_bind_quiet.
  { destruct (get_skill_fitness _ _) as [new_fitness|].
    - apply effect_bind_quiet; [|intros _ w8; apply effect_ret].
      destruct (float_gt _ _); [apply effect_print|].
      destruct (float_lt _ _); [|apply effect_print].
      apply effect_bind_quiet; [apply effect_print|]. intros _ w8.
      apply effect_print.
    - apply effect_bind_quiet; [apply effect_print|]. intros _ w8.
      apply effect_ret. }
  intros new_fitness w8.
  apply effect_bind_quiet; [by apply effect_write_changelog|]. intros _ w9.
  apply effect_ret.
Qed.

(** The loop of [cmd_apply]. *)
Lemma effect_cmd_apply_loop (registry : Registry.t)
    (top_performers skills : list Score.t) (mutations_applied : list Applied.t)
    (w : world) :
  let names := Score.skill <$> List.filter low skills in
  effect names names w
         (world_of (for_fold (cmd_apply_skill registry top_performers) skills
                             mutations_applied w)).
Proof.
  intros names. unfold names at 2. rewrite <- low_skills_flat_map.
  apply effect_for_fold. intros acc skill_data w' Hin.
  apply effect_cmd_apply_skill. intros Hlow.
  apply list_elem_of_fmap. exists skill_data. split; [done|].
  apply list_elem_of_In, List.filter_In. by rewrite <- list_elem_of_In.
Qed.

Lemma effect_cmd_apply (w : world) :
  let names :=
    match evaluate_sh (evaluator_runs w) with
    | parsed_output report => low_skills report
    | _ => []
    end in
  effect names names w (world_of (cmd_apply w)).
Proof.
  intros names. unfold cmd_apply.
  assert (Hprint : forall line w0, effect names [] w0 (world_of (print line w0)))
    by (intros; apply effect_print).
  destruct (evaluate_sh (evaluator_runs w)) as [stderr| |report] eqn:Hout.
  - erewrite bind_Return by (unfold run_evaluate; by rewrite Hout).
    by apply effect_same.
  - erewrite bind_Raise by (unfold run_evaluate; by rewrite Hout).
    by apply effect_same.
  - erewrite bind_Return by (unfold run_evaluate; by rewrite Hout).
    assert (Hstart : effect names []
                       w (set_evaluator_runs (S (evaluator_runs w)) w))
      by (by apply effect_same).
    apply (effect_trans names [] names _ _ _ Hstart).
    destruct (Evaluation.error report).
    { eapply effect_mono; [done|apply sublist_nil_l|apply effect_print]. }
    apply effect_bind_quiet; [apply effect_refl|]. intros w0 w1. cbv zeta.
    do 4 (apply effect_bind_quiet; [apply effect_print|]; intros _ ?).
    apply effect_bind_then_quiet; [apply effect_cmd_apply_loop|].
    intros mutations_applied w2. apply effect_bind_quiet; [|intros; apply effect_print].
    destruct mutations_applied; [apply effect_print|].
    do 2 (apply effect_bind_quiet; [apply effect_print|]; intros _ ?).
    apply effect_print.
Qed.

End Effects.

(** ** One pass of [apply] that goes through *)

(** The fields of a world after a sequence of updates. *)
Ltac fields :=
  cbn [skill_files registry_file changelog_files command_files evaluation_files
       stdout clock evaluator_runs compiler_runs
       set_skill_files set_changelog_files set_command_files
       set_evaluation_files set_stdout set_clock set_evaluator_runs
       set_compiler_runs world_of].

Ltac fields_in H :=
  cbn [skill_files registry_file changelog_files command_files evaluation_files
       stdout clock evaluator_runs compiler_runs
       set_skill_files set_changelog_files set_command_files
       set_evaluation_files set_stdout set_clock set_evaluator_runs
       set_compiler_runs world_of] in H.

Lemma print_run (line : list N) (w : world) :
  print line w = Return tt (set_stdout (stdout w ++ [line]) w).
Proof. done. Qed.

Section Verification.

Context `{Environment}.

Lemma run_evaluate_run (w : world) :
  run_evaluate w
  = match evaluate_sh (evaluator_runs w) with
    | exit_nonzero stderr =>
      Return (Evaluation.Build (Some stderr) None (Some []) None)
             (set_evaluator_runs (S (evaluator_runs w)) w)
    | unparseable_output =>
      Raise JSONDecodeError (set_evaluator_runs (S (evaluator_runs w)) w)
    | parsed_output report =>
      Return report (set_evaluator_runs (S (evaluator_runs w)) w)
    end.
Proof. done. Qed.

(** What [cmd_apply] has after the mutation and the compilation went
    through, for a skill it took up: the world after the announcement, the
    mutation and the compilation, and what they left. *)
Lemma cmd_apply_skill_compiled
    (registry : Registry.t) (top_performers : list Score.t)
    (mutations_applied : list Applied.t) (skill_data : Score.t) (w : world)
    (file : option Skill.t) (suggestion : Suggestion.t) (w1 w2 : world) :
  let skill_name := Score.skill skill_data in
  let fitness := Score.fitness skill_data in
  let skill_def := load_yaml Skill.empty (Some file) in
  skill_files w !! skill_name = Some file ->
  apply_mutation skill_name (Suggestion.module suggestion)
                 (Suggestion.to_version suggestion)
                 (world_of (announce_mutation skill_name suggestion w))
  = Return true w1 ->
  recompile_skill skill_name w1 = Return true w2 ->
  exists earlier patch_text patch mutated,
    split dot (default (u "1.0.0") (Skill.version skill_def))
    = earlier ++ [patch_text] /\
    int_of_str patch_text = Some patch /\
    skill_files w2 !! skill_name = Some (Some mutated) /\
    Skill.version mutated
    = Some (join [dot] (earlier ++ [str_of_int (patch + 1)])) /\
    dict_get (Suggestion.module suggestion) (default [] (Skill.modules mutated))
    = Some (Suggestion.to_version suggestion) /\
    changelog_files w2 = changelog_files w /\
    evaluator_runs w2 = evaluator_runs w /\
    compiler_runs w2 = compiler_runs w ++ [skill_name].
Proof.
  intros skill_name fitness skill_def Hfile Happly Hcompile.
  destruct (announce_mutation_run skill_name suggestion w) as [lines Hannounce].
  rewrite Hannounce in Happly. simpl in Happly.
  assert (Hfile0 : skill_files (set_stdout (stdout w ++ lines) w) !! skill_name
                   = Some file) by done.
  destruct (apply_mutation_inv _ _ _ _ _ _ Hfile0 Happly)
    as (earlier & patch_text & patch & Hsplit & Hint).
  fold skill_def in Hsplit.
  pose proof (apply_mutation_run _ (Suggestion.module suggestion)
                (Suggestion.to_version suggestion) _ _ _ _ _
                Hfile0 Hsplit Hint) as Hrun.
  cbv zeta in Hrun. rewrite Happly in Hrun. injection Hrun as Hw1.
  destruct (recompile_skill_run skill_name w1)
    as (ok & w2' & Hrec & Hskills & _ & Hlogs & _ & Hevals & Hruns & Hout).
  rewrite Hcompile in Hrec. injection Hrec as <- <-.
  edestruct (without_last_compiled_lookup (skill_files w1) (skill_files w2)
               skill_name)
    as (mutated & Hfile2 & _ & Hversion & _ & Hmodules & Hhistory & _);
    [exact Hskills | rewrite Hw1; simpl; apply lookup_insert_eq |].
  exists earlier, patch_text, patch, mutated. split_and!; try done.
  - rewrite Hmodules. simpl. apply dict_get_set.
  - rewrite Hlogs, Hw1. done.
  - rewrite Hevals, Hw1. done.
  - rewrite Hruns, Hw1. done.
Qed.

(** X13. The pass of the loop of [cmd_apply] in which everything goes through.
    For a skill it takes up, when the mutation and the compilation succeed
    and the output of the evaluator parses or the evaluator exits with an
    error: the pass adds one element to the mutations applied, whose new
    fitness is the one of the first entry of the new report that bears the
    name of the skill, and the old fitness when there is none (the
    baseline); it prepends one entry to the changelog of the skill, which
    bears the bumped version, the two fitness values and the suggestion;
    the evaluator has run once, the compiler once. *)
Theorem cmd_apply_skill_success
    (registry : Registry.t) (top_performers : list Score.t)
    (mutations_applied : list Applied.t) (skill_data : Score.t) (w : world)
    (file : option Skill.t) (suggestion : Suggestion.t) (w1 w2 : world) :
  let skill_name := Score.skill skill_data in
  let fitness := Score.fitness skill_data in
  let skill_def := load_yaml Skill.empty (Some file) in
  classify_skill fitness = underperforming \/ classify_skill fitness = failing ->
  skill_files w !! skill_name = Some file ->
  top_suggestion
    (suggest_mutations (skill_files w) skill_name skill_def fitness registry
                       top_performers)
  = Some suggestion ->
  apply_mutation skill_name (Suggestion.module suggestion)
                 (Suggestion.to_version suggestion)
                 (world_of (announce_mutation skill_name suggestion w))
  = Return true w1 ->
  recompile_skill skill_name w1 = Return true w2 ->
  evaluate_sh (evaluator_runs w) <> unparseable_output ->
  let new_fitness :=
    default fitness
      match evaluate_sh (evaluator_runs w) with
      | parsed_output report => get_skill_fitness report skill_name
      | _ => None
      end in
  exists w3 earlier patch_text patch,
    cmd_apply_skill registry top_performers mutations_applied skill_data w
    = Return (mutations_applied ++ [Applied.Build fitness new_fitness suggestion])
             w3 /\
    split dot (default (u "1.0.0") (Skill.version skill_def))
    = earlier ++ [patch_text] /\
    int_of_str patch_text = Some patch /\
    changelog_files w3
    = <[skill_name :=
          prepend_entry
            (default (changelog_title skill_name)
                     (changelog_files w !! skill_name))
            (changelog_entry
               (join [dot] (earlier ++ [str_of_int (patch + 1)]))
               (strftime (u "%Y-%m-%d %H:%M UTC") (utcnow (clock w2)))
               [suggestion] fitness (Some new_fitness))]>
        (changelog_files w) /\
    skill_files w3 = skill_files w2 /\
    command_files w3 = command_files w2 /\
    evaluator_runs w3 = S (evaluator_runs w) /\
    compiler_runs w3 = compiler_runs w ++ [skill_name] /\
    List.last (stdout w3) (u "?") = [].
Proof.
  intros skill_name fitness skill_def Hclass Hfile Htop Happly Hcompile Hparse
         new_fitness.
  destruct (cmd_apply_skill_compiled registry top_performers mutations_applied
              skill_data w file suggestion w1 w2 Hfile Happly Hcompile)
    as (earlier & patch_text & patch & mutated & Hsplit & Hint & Hfile2
        & Hversion & _ & Hlogs & Hevals & Hruns).
  fold skill_name in Hfile2, Hruns.
  destruct (announce_mutation_run skill_name suggestion w) as [lines Hannounce].
  rewrite Hannounce in Happly. simpl in Happly.
  set (report :=
         match evaluate_sh (evaluator_runs w) with
         | exit_nonzero stderr => Evaluation.Build (Some stderr) None (Some []) None
         | unparseable_output => Evaluation.Build None None None None
         | parsed_output report => report
         end).
  assert (Hreport : forall wa, evaluator_runs wa = evaluator_runs w ->
    run_evaluate wa = Return report (set_evaluator_runs (S (evaluator_runs wa)) wa)).
  { intros wa Hwa. rewrite run_evaluate_run, Hwa. unfold report.
    by destruct (evaluate_sh (evaluator_runs w)). }
  assert (Hnew : new_fitness = default fitness (get_skill_fitness report skill_name)).
  { unfold new_fitness, report. by destruct (evaluate_sh (evaluator_runs w)). }
  clearbody report new_fitness.
  unfold cmd_apply_skill. fold skill_name fitness.
  rewrite bool_decide_eq_false_2.
  2:{ intros Hnot. apply Hnot. rewrite !elem_of_cons. tauto. }
  unfold bind at 1. unfold get at 1. rewrite Hfile. fold skill_def. rewrite Htop.
  rewrite (bind_Return _ _ _ _ _ Hannounce).
  rewrite (bind_Return _ _ _ _ _ Happly).
  unfold bind at 1. unfold bind at 1. rewrite Hcompile.
  rewrite (bind_Return _ _ _ _ _ (print_run _ _)). fields.
  rewrite (bind_Return _ _ _ _ _ (print_run _ _)). fields.
  match goal with
  | |- context [bind run_evaluate ?k ?wa] =>
    rewrite (bind_Return run_evaluate k wa _ _ (Hreport wa Hevals))
  end.
  rewrite Hnew.
  destruct (get_skill_fitness report skill_name) as [measured|];
    [destruct (float_gt (measured - fitness) 0);
       [|destruct (float_lt (measured - fitness) 0)]|];
    (erewrite bind_Return by (unfold bind, print, modify, ret; reflexivity));
    rewrite (bind_Return _ _ _ _ _ (write_changelog_run _ _ _ _ _));
    unfold ret at 1; cbv beta iota;
    rewrite (bind_Return _ _ _ _ _ (print_run _ _)); unfold ret;
    eexists _, earlier, patch_text, patch;
    (split; [reflexivity|]); fields; rewrite Hfile2, Hlogs, Hevals, Hruns;
    cbn [load_yaml default]; rewrite Hversion; cbn [default];
    (split_and!; [done..|apply last_snoc]).
Qed.

(** X14. The pass of the loop of [cmd_apply] in which the verification dies.
    For a skill it takes up, when the mutation and the compilation succeed
    and the output of the evaluator then does not parse, [json.loads]
    raises inside the loop: the command ends there, with the skills that
    remain not looked at; the definition of the skill keeps the mutation
    and the bumped version and was compiled, but no entry was written to
    its changelog and nothing was added to the mutations applied. *)
Theorem cmd_apply_verification_crash
    (registry : Registry.t) (top_performers : list Score.t)
    (mutations_applied : list Applied.t) (skill_data : Score.t)
    (rest : list Score.t) (w : world)
    (file : option Skill.t) (suggestion : Suggestion.t) (w1 w2 : world) :
  let skill_name := Score.skill skill_data in
  let fitness := Score.fitness skill_data in
  let skill_def := load_yaml Skill.empty (Some file) in
  classify_skill fitness = underperforming \/ classify_skill fitness = failing ->
  skill_files w !! skill_name = Some file ->
  top_suggestion
    (suggest_mutations (skill_files w) skill_name skill_def fitness registry
                       top_performers)
  = Some suggestion ->
  apply_mutation skill_name (Suggestion.module suggestion)
                 (Suggestion.to_version suggestion)
                 (world_of (announce_mutation skill_name suggestion w))
  = Return true w1 ->
  recompile_skill skill_name w1 = Return true w2 ->
  evaluate_sh (evaluator_runs w) = unparseable_output ->
  exists w3 earlier patch_text patch mutated,
    cmd_apply_skill registry top_performers mutations_applied skill_data w
    = Raise JSONDecodeError w3 /\
    for_fold (cmd_apply_skill registry top_performers) (skill_data :: rest)
             mutations_applied w
    = Raise JSONDecodeError w3 /\
    split dot (default (u "1.0.0") (Skill.version skill_def))
    = earlier ++ [patch_text] /\
    int_of_str patch_text = Some patch /\
    skill_files w3 !! skill_name = Some (Some mutated) /\
    Skill.version mutated
    = Some (join [dot] (earlier ++ [str_of_int (patch + 1)])) /\
    dict_get (Suggestion.module suggestion) (default [] (Skill.modules mutated))
    = Some (Suggestion.to_version suggestion) /\
    changelog_files w3 = changelog_files w /\
    command_files w3 = command_files w2 /\
    compiler_runs w3 = compiler_runs w ++ [skill_name] /\
    evaluator_runs w3 = S (evaluator_runs w).
Proof.
  intros skill_name fitness skill_def Hclass Hfile Htop Happly Hcompile Hgarbled.
  destruct (cmd_apply_skill_compiled registry top_performers mutations_applied
              skill_data w file suggestion w1 w2 Hfile Happly Hcompile)
    as (earlier & patch_text & patch & mutated & Hsplit & Hint & Hfile2
        & Hversion & Hmodule & Hlogs & Hevals & Hruns).
  fold skill_name in Hfile2, Hruns.
  destruct (announce_mutation_run skill_name suggestion w) as [lines Hannounce].
  rewrite Hannounce in Happly. simpl in Happly.
  assert (Hraise : forall wa, evaluator_runs wa = evaluator_runs w ->
    run_evaluate wa
    = Raise JSONDecodeError (set_evaluator_runs (S (evaluator_runs wa)) wa)).
  { intros wa Hwa. by rewrite run_evaluate_run, Hwa, Hgarbled. }
  assert (Hbody : exists w3,
    cmd_apply_skill registry top_performers mutations_applied skill_data w
    = Raise JSONDecodeError w3 /\
    skill_files w3 = skill_files w2 /\
    changelog_files w3 = changelog_files w2 /\
    command_files w3 = command_files w2 /\
    compiler_runs w3 = compiler_runs w2 /\
    evaluator_runs w3 = S (evaluator_runs w2)).
  { unfold cmd_apply_skill. fold skill_name fitness.
    rewrite bool_decide_eq_false_2.
    2:{ intros Hnot. apply Hnot. rewrite !elem_of_cons. tauto. }
    unfold bind at 1. unfold get at 1. rewrite Hfile. fold skill_def. rewrite Htop.
    rewrite (bind_Return _ _ _ _ _ Hannounce).
    rewrite (bind_Return _ _ _ _ _ Happly).
    unfold bind at 1. unfold bind at 1. rewrite Hcompile.
    rewrite (bind_Return _ _ _ _ _ (print_run _ _)). fields.
    rewrite (bind_Return _ _ _ _ _ (print_run _ _)). fields.
    match goal with
    | |- context [bind run_evaluate ?k ?wa] =>
      rewrite (bind_Raise run_evaluate k wa _ _ (Hraise wa Hevals))
    end.
    eexists. split; [reflexivity|]. fields. by split_and!. }
  destruct Hbody as (w3 & Hbody & Hskills3 & Hlogs3 & Hcommands3 & Hruns3 & Hevals3).
  exists w3, earlier, patch_text, patch, mutated.
  split; [exact Hbody|].
  split; [simpl; by rewrite (bind_Raise _ _ _ _ _ Hbody)|].
  split_and!; try done; congruence.
Qed.

End Verification.

(** ** The commands [apply] and [cycle] as a whole *)

Lemma filter_low_nil (skills : list Score.t) (c : classification) :
  c ∈ [underperforming; failing] ->
  List.filter low skills = [] ->
  List.filter (fun s => bool_decide (classify_skill (Score.fitness s) = c)) skills
  = [].
Proof.
  intros Hc. induction skills as [|s skills IH]; simpl; [done|].
  destruct (low s) eqn:Hlow; [done|]. intros Hrest.
  rewrite bool_decide_eq_false_2; [by apply IH|].
  intros Hs. unfold low in Hlow. apply bool_decide_eq_false in Hlow.
  apply Hlow. by rewrite Hs.
Qed.

Section Commands.

Context `{Environment}.

(** X15. The command [apply] starts the compiler only for skills that the
    report of the evaluator gives as underperforming or failing, in the
    order of the report and at most once for each entry. *)
Theorem cmd_apply_compiles_low_skills_once (w : world) :
  exists started,
    compiler_runs (world_of (cmd_apply w)) = compiler_runs w ++ started /\
    started `sublist_of`
      match evaluate_sh (evaluator_runs w) with
      | parsed_output report => low_skills report
      | _ => []
      end.
Proof.
  destruct (effect_cmd_apply w) as [_ (started & Hstarted & Hruns)].
  by exists started.
Qed.

(** X16. The command [apply] leaves alone every skill that the report of the
    evaluator does not give as underperforming or failing: its definition
    is the same, the stamp of the compiler apart, and so is its changelog.
    The registry and the snapshots are not written to. *)
Theorem cmd_apply_touches_low_skills_only (w : world) (other : list N) :
  other ∉ match evaluate_sh (evaluator_runs w) with
          | parsed_output report => low_skills report
          | _ => []
          end ->
  without_last_compiled (skill_files (world_of (cmd_apply w))) !! other
  = without_last_compiled (skill_files w) !! other /\
  changelog_files (world_of (cmd_apply w)) !! other
  = changelog_files w !! other /\
  registry_file (world_of (cmd_apply w)) = registry_file w /\
  evaluation_files (world_of (cmd_apply w)) = evaluation_files w.
Proof.
  intros Hother.
  destruct (effect_cmd_apply w) as [(Hskills & Hlogs & Hregistry & Hsnaps) _].
  split_and!; [by apply Hskills | by apply Hlogs | done | done].
Qed.

Lemma utcnow_strftime_run (format : list N) (w : world) :
  utcnow_strftime format w
  = Return (strftime format (utcnow (clock w))) (set_clock (S (clock w)) w).
Proof. done. Qed.

Lemma modify_run (f : world -> world) (w : world) : modify f w = Return tt (f w).
Proof. done. Qed.

(** [cmd_cycle] up to the third step, on a report without error. *)
Lemma cmd_cycle_run (w : world) (report : Evaluation.t) :
  evaluate_sh (evaluator_runs w) = parsed_output report ->
  Evaluation.error report = None ->
  exists w1,
    let skills := default [] (Evaluation.skills report) in
    cmd_cycle w
    = ((match count_class underperforming skills, count_class failing skills with
        | [], [] => print (u "All skills are healthy. No evolution needed.")
        | _, _ => cmd_apply
        end) ;;
       print [] ;;
       print banner ;;
       print (u "EVOLUTION CYCLE COMPLETE") ;;
       print banner) w1 /\
    skill_files w1 = skill_files w /\
    registry_file w1 = registry_file w /\
    changelog_files w1 = changelog_files w /\
    command_files w1 = command_files w /\
    compiler_runs w1 = compiler_runs w /\
    evaluator_runs w1 = S (evaluator_runs w) /\
    clock w1 = S (S (clock w)) /\
    evaluation_files w1
    = <[strftime (u "%Y-W%V") (utcnow (clock w)) :=
          Evaluation.set_snapshot_time
            (strftime (u "%Y-%m-%dT%H:%M:%SZ") (utcnow (S (clock w)))) report]>
        (evaluation_files w).
Proof.
  intros Hout Herror. unfold cmd_cycle.
  do 6 (rewrite (bind_Return _ _ _ _ _ (print_run _ _)); fields).
  match goal with
  | |- context [bind run_evaluate ?k ?wa] =>
    assert (Heval : run_evaluate wa
                    = Return report (set_evaluator_runs (S (evaluator_runs wa)) wa))
      by (rewrite run_evaluate_run; fields; by rewrite Hout);
    rewrite (bind_Return run_evaluate k wa _ _ Heval)
  end.
  fields. rewrite Herror.
  do 8 (rewrite (bind_Return _ _ _ _ _ (print_run _ _)); fields).
  do 2 (rewrite (bind_Return _ _ _ _ _ (utcnow_strftime_run _ _)); fields).
  rewrite (bind_Return _ _ _ _ _ (modify_run _ _)). fields.
  do 4 (rewrite (bind_Return _ _ _ _ _ (print_run _ _)); fields).
  eexists. split; [reflexivity|]. fields. by split_and!.
Qed.

(** X17. The snapshot of [cmd_cycle] is written before any evolution and
    outlives it. On a report without error, after [cmd_cycle] the
    snapshots are those of before plus one, under the week read at the
    first reading of the clock: the report of the opening evaluation with
    its [snapshot_time] set to the second reading. This holds whether the
    third step finds nothing to evolve, applies mutations, or dies. *)
Theorem cmd_cycle_snapshot (w : world) (report : Evaluation.t) :
  evaluate_sh (evaluator_runs w) = parsed_output report ->
  Evaluation.error report = None ->
  evaluation_files (world_of (cmd_cycle w))
  = <[strftime (u "%Y-W%V") (utcnow (clock w)) :=
        Evaluation.set_snapshot_time
          (strftime (u "%Y-%m-%dT%H:%M:%SZ") (utcnow (S (clock w)))) report]>
      (evaluation_files w).
Proof.
  intros Hout Herror.
  destruct (cmd_cycle_run w report Hout Herror)
    as (w1 & -> & _ & _ & _ & _ & _ & _ & _ & <-).
  match goal with
  | |- evaluation_files (world_of (bind ?m ?k w1)) = _ =>
    assert (Heffect : exists names within,
              effect names within w1 (world_of (bind m k w1)))
  end.
  { assert (Hrest : forall (names : list (list N)) (w0 : world),
      effect names [] w0
             (world_of ((print [] ;; print banner ;;
                         print (u "EVOLUTION CYCLE COMPLETE") ;;
                         print banner) w0))).
    { intros names w0.
      do 3 (apply effect_bind_quiet; [apply effect_print|]; intros _ ?).
      apply effect_print. }
    destruct (count_class underperforming _); [destruct (count_class failing _)|].
    - exists [], []. apply effect_bind_quiet; [apply effect_print|].
      intros _ ?. apply Hrest.
    - eexists _, _. apply effect_bind_then_quiet; [apply effect_cmd_apply|].
      intros _ ?. apply Hrest.
    - eexists _, _. apply effect_bind_then_quiet; [apply effect_cmd_apply|].
      intros _ ?. apply Hrest. }
  by destruct Heffect as (names & within & (_ & _ & _ & ->) & _).
Qed.

(** X18. When no entry of the report is underperforming or failing,
    [cmd_cycle] evaluates, writes the snapshot and stops there: it
    returns, the skill definitions, the changelogs and the compiled
    commands are what they were, no compiler was started, and the
    evaluator was run once (the command [apply], which would run it again,
    is not entered). *)
Theorem cmd_cycle_all_healthy (w : world) (report : Evaluation.t) :
  evaluate_sh (evaluator_runs w) = parsed_output report ->
  Evaluation.error report = None ->
  low_skills report = [] ->
  exists w',
    cmd_cycle w = Return tt w' /\
    skill_files w' = skill_files w /\
    changelog_files w' = changelog_files w /\
    command_files w' = command_files w /\
    registry_file w' = registry_file w /\
    compiler_runs w' = compiler_runs w /\
    evaluator_runs w' = S (evaluator_runs w) /\
    clock w' = S (S (clock w)) /\
    List.last (stdout w') [] = banner.
Proof.
  intros Hout Herror Hlow.
  destruct (cmd_cycle_run w report Hout Herror)
    as (w1 & -> & Hskills & Hregistry & Hlogs & Hcommands & Hcompiler
        & Hevaluator & Hclock & _).
  assert (Hnone : List.filter low (default [] (Evaluation.skills report)) = []).
  { unfold low_skills in Hlow. by apply fmap_nil_inv in Hlow. }
  unfold count_class.
  rewrite !filter_low_nil; [|right; left|done|left|done].
  do 4 (rewrite (bind_Return _ _ _ _ _ (print_run _ _)); fields).
  eexists. split; [apply print_run|]. fields.
  split_and!; [done..|apply last_snoc].
Qed.

End Commands.

(** ** One pass of [apply], whatever happens *)

Section Outcomes.

Context `{Environment}.


(** X20. Nothing left to try. When every pair that a top performer could give
    and every other version that the registry lists for a module type of
    the skill was tried recently, [suggest_mutations] returns the empty
    list, for an underperforming or failing skill too: [cmd_apply] passes
    the skill over until its history has moved on. *)
Theorem suggest_mutations_all_tried
    (files : gmap (list N) (option Skill.t)) (skill_name : list N)
    (skill_def : Skill.t) (fitness : float) (registry : Registry.t)
    (top_performers : list Score.t) :
  let current_modules := default [] (Skill.modules skill_def) in
  let recently_tried := get_recently_tried_variants skill_def in
  (forall top file module_type version,
     top ∈ top_performers ->
     files !! Score.skill top = Some file ->
     (module_type, version)
     ∈ default [] (Skill.modules (load_yaml Skill.empty (Some file))) ->
     dict_get module_type current_modules <> Some version ->
     variant_key module_type version ∈ recently_tried) ->
  (forall module_type current_version variant,
     (module_type, current_version) ∈ current_modules ->
     variant ∈ get_module_variants registry module_type ->
     variant <> current_version ->
     variant_key module_type variant ∈ recently_tried) ->
  suggest_mutations files skill_name skill_def fitness registry top_performers
  = [] /\
  top_suggestion
    (suggest_mutations files skill_name skill_def fitness registry
                       top_performers)
  = None.
Proof.
  intros current_modules recently_tried Habsorb Hmutate.
  assert (Hnone : suggest_mutations files skill_name skill_def fitness registry
                                    top_performers = []).
  { unfold suggest_mutations. fold current_modules recently_tried.
    case_bool_decide; [done|]. unfold mutate_pass. apply foldl_invariant_elem.
    - unfold absorb_pass. apply foldl_invariant_elem; [done|].
      intros acc top Htop ->.
      destruct (files !! Score.skill top) as [file|] eqn:Hfile; [|done].
      apply foldl_invariant_elem; [done|].
      intros acc [module_type version] Hpair ->.
      case_bool_decide as Hkey; [done|]. case_bool_decide as Hdiff; [|done].
      exfalso. apply Hkey. by apply (Habsorb top file).
    - intros acc [module_type current_version] Hpair ->.
      apply foldl_invariant_elem; [done|].
      intros acc variant Hvariant ->.
      case_bool_decide as Hkey; [done|]. case_bool_decide as Hdiff; [|done].
      exfalso. apply Hkey. by apply (Hmutate module_type current_version). }
  by rewrite Hnone.
Qed.

End Outcomes.

(** ** The exceptions of the commands *)






Section Exceptions.

Context `{Environment}.







End Exceptions.

(** ** The compiler on all skills *)

Section CompileAll.

Context `{Environment}.

(** A run of [compile_skill] that goes through. *)
Lemma compile_skill_run (stem : list N) (registry : Registry.t) (w : world)
    (skill : Skill.t) (files : gmap (list N) (list N)) :
  skill_files w !! stem = Some (Some skill) ->
  command_files w = Some files ->
  exists text w1,
    compile_skill stem (Some registry) w = Return true w1 /\
    skill_files w1
    = <[stem := Some (Skill.set_last_compiled
                        (strftime (u "%Y-%m-%dT%H:%M:%SZ") (utcnow (clock w)))
                        skill)]> (skill_files w) /\
    command_files w1 = Some (<[stem := text]> files) /\
    registry_file w1 = registry_file w /\
    changelog_files w1 = changelog_files w /\
    evaluation_files w1 = evaluation_files w /\
    compiler_runs w1 = compiler_runs w /\
    evaluator_runs w1 = evaluator_runs w.
Proof.
  intros Hfile Hfiles. unfold compile_skill.
  unfold bind at 1. unfold get at 1. rewrite Hfile.
  rewrite (bind_Return _ _ _ _ _ (print_run _ _)). fields.
  unfold bind at 1. unfold get at 1. fields. rewrite Hfiles.
  rewrite (bind_Return _ _ _ _ _ (modify_run _ _)). fields.
  rewrite (bind_Return _ _ _ _ _ (utcnow_strftime_run _ _)). fields.
  rewrite (bind_Return _ _ _ _ _ (modify_run _ _)). fields.
  do 2 (rewrite (bind_Return _ _ _ _ _ (print_run _ _)); fields).
  unfold ret. eexists _, _. split; [reflexivity|]. fields. by split_and!.
Qed.

(** The loop of [main] over the skills directory. *)
Lemma compile_all_loop (registry : Registry.t)
    (l : list (list N * option Skill.t)) (w : world)
    (files : gmap (list N) (list N)) :
  command_files w = Some files ->
  (forall stem, stem ∈ l.*1 ->
     exists skill, skill_files w !! stem = Some (Some skill)) ->
  exists w' commands,
    for_fold (fun (_ : unit) '(stem, _) =>
                _ <- compile_skill stem (Some registry) ;; print [])
             l tt w
    = Return tt w' /\
    command_files w' = Some commands /\
    (forall stem, stem ∈ l.*1 -> is_Some (commands !! stem)) /\
    (forall stem, stem ∉ l.*1 -> commands !! stem = files !! stem) /\
    without_last_compiled (skill_files w') = without_last_compiled (skill_files w) /\
    changelog_files w' = changelog_files w.
Proof.
  revert w files. induction l as [|[stem file] l IH]; intros w files Hfiles Hall.
  - exists w, files. split; [done|]. split_and!; try done.
    by intros stem ?%elem_of_nil.
  - destruct (Hall stem) as [skill Hskill]; [left|].
    destruct (compile_skill_run stem registry w skill files Hskill Hfiles)
      as (text & w1 & Hrun & Hskills1 & Hfiles1 & _ & Hlogs1 & _).
    cbn [for_fold]. unfold bind at 1. unfold bind at 1. rewrite Hrun.
    rewrite print_run.
    destruct (IH (set_stdout (stdout w1 ++ [[]]) w1) (<[stem := text]> files))
      as (w' & commands & Hloop & Hcommands & Hin & Hout & Hskills & Hlogs).
    { done. }
    { intros stem' Hstem'. fields. rewrite Hskills1.
      destruct (decide (stem' = stem)) as [->|Hne].
      - rewrite lookup_insert_eq. by eexists.
      - rewrite lookup_insert_ne by done. apply Hall. by right. }
    fields_in Hskills. fields_in Hlogs.
    exists w', commands. split; [exact Hloop|]. split_and!; try done.
    + intros stem' Hstem'. destruct (decide (stem' ∈ l.*1)) as [Hl|Hl].
      * by apply Hin.
      * rewrite (Hout stem' Hl). csimpl in Hstem'.
        apply elem_of_cons in Hstem' as [-> | ?]; [|done].
        rewrite lookup_insert_eq. by eexists.
    + intros stem' Hstem'. csimpl in Hstem'.
      apply not_elem_of_cons in Hstem' as [Hne Hl].
      by rewrite (Hout stem' Hl), lookup_insert_ne.
    + rewrite Hskills, Hskills1. by apply without_last_compiled_insert.
    + by rewrite Hlogs.
Qed.

(** X22. The compiler on all skills. With the registry a document, the
    output directory in place and no definition file empty, [compile.py
    --all] goes through the whole skills directory and returns: every skill
    has a compiled command afterwards, the commands that were there under
    other names are kept, and the definitions are what they were, the
    stamp of the compiler apart. *)
Theorem compile_main_all (w : world) (registry : Registry.t)
    (files : gmap (list N) (list N)) :
  registry_file w = Some (Some registry) ->
  command_files w = Some files ->
  (forall stem, skill_files w !! stem <> Some None) ->
  exists w' commands,
    compile_main (u "--all") w = Return tt w' /\
    command_files w' = Some commands /\
    (forall stem, is_Some (skill_files w !! stem) -> is_Some (commands !! stem)) /\
    (forall stem, skill_files w !! stem = None -> commands !! stem = files !! stem) /\
    without_last_compiled (skill_files w') = without_last_compiled (skill_files w) /\
    changelog_files w' = changelog_files w.
Proof.
  intros Hregistry Hfiles Hdocuments.
  assert (Hstems : forall stem,
    stem ∈ (map_to_list (skill_files w)).*1 <-> is_Some (skill_files w !! stem)).
  { intros stem. rewrite list_elem_of_fmap. split.
    - intros [[stem' file] [-> Hin]]. apply elem_of_map_to_list in Hin.
      by exists file.
    - intros [file Hin]. exists (stem, file). split; [done|].
      by apply elem_of_map_to_list. }
  unfold compile_main. unfold bind at 1. unfold get at 1. rewrite Hregistry.
  rewrite decide_True by done.
  do 4 (rewrite (bind_Return _ _ _ _ _ (print_run _ _)); fields).
  match goal with
  | |- context [bind (for_fold ?body ?l tt) ?k ?w1] =>
    destruct (compile_all_loop registry l w1 files)
      as (w' & commands & Hloop & Hcommands & Hin & Hout & Hskills & Hlogs)
  end.
  { done. }
  { intros stem [file Hfile]%Hstems. fields.
    destruct file as [skill|]; [by exists skill|]. by destruct (Hdocuments stem). }
  fields_in Hskills. fields_in Hlogs.
  rewrite (bind_Return _ _ _ _ _ Hloop).
  do 2 (rewrite (bind_Return _ _ _ _ _ (print_run _ _)); fields).
  rewrite print_run. eexists _, commands. split; [reflexivity|]. fields.
  split_and!; try done.
  - intros stem Hstem. by apply Hin, Hstems.
  - intros stem Hstem. apply Hout. rewrite Hstems, Hstem. by intros [? ?].
Qed.

End CompileAll.

(* ===================================================================== *)
(** * The properties on the sample data *)
(* ===================================================================== *)

#[local] Existing Instance Sample.environment.

(** C2 at 0.6, and at 0.4 against 0.6. *)
Lemma classify_skill_bands_witness :
  classify_skill 0.6 = healthy /\
  band_rank (classify_skill 0.4) <= band_rank (classify_skill 0.6).
Proof.
  destruct classify_skill_bands as (Hbands & _ & Hmono). split.
  - apply (Hbands 0.6%float); by vm_compute.
  - apply (Hmono 0.4%float 0.6%float); by vm_compute.
Defined.

(** C10 at -3.5, 0.1, 7 and the two zeros. *)
Lemma classify_skill_total_witness :
  classify_skill (-3.5) = failing /\ classify_skill 0.1 = failing /\
  classify_skill 7 = top_performer /\ classify_skill (-0.0) = classify_skill 0.0.
Proof.
  destruct classify_skill_total as (_ & _ & Heq & _ & Hlow & Hneg & Hhigh).
  split_and!.
  - apply Hneg. by vm_compute.
  - apply Hlow. by vm_compute.
  - apply Hhigh. by vm_compute.
  - apply Heq. by vm_compute.
Defined.

(** C5 on the reviewer, a top performer. *)
Lemma suggest_mutations_successful_skill_witness :
  suggest_mutations Sample.skills (u "reviewer") Sample.reviewer 0.9
                    Sample.registry Sample.top_performers = [].
Proof.
  apply suggest_mutations_successful_skill. right. by vm_compute.
Defined.

(** C4 on a history of two records. *)
Lemma get_recently_tried_variants_spec_witness :
  u "validation:v3" ∈ get_recently_tried_variants Sample.editor_after_v3.
Proof.
  destruct get_recently_tried_variants_spec as (_ & Hdescriptor & _).
  apply (Hdescriptor Sample.editor_after_v3
           (History.Build (Some (u "2024-05-08T10:00:00Z"))
                          (Some (u "validation: v1 → v3")))
           (u "validation") (u "v1") (u "v3"));
    try (by vm_compute); try (apply (bool_decide_unpack _); by vm_compute).
  change (most_recent 10 _) with
    [History.Build (Some (u "2024-05-01T10:00:00Z"))
                   (Some (u "validation: v3 → v2"));
     History.Build (Some (u "2024-05-08T10:00:00Z"))
                   (Some (u "validation: v1 → v3"))].
  apply elem_of_cons. right. apply elem_of_cons. by left.
Defined.

(** A pair of the recently-tried set is proposed by neither pass. *)
Example suggest_mutations_skips_tried :
  suggest_mutations Sample.skills (u "editor") Sample.editor_after_v3 0.30
                    Sample.registry Sample.top_performers
  = [Sample.mutate_to (u "validation") (u "v2") (u "v1");
     Sample.mutate_to (u "input") (u "v1") (u "v2");
     Sample.mutate_to (u "input") (u "v1") (u "v3")].
Proof. by vm_compute. Qed.

(** C6 on the editor: one absorb suggestion, then the mutate suggestions,
    two of them for the module type input; the absorb one is chosen. *)
Lemma suggest_mutations_order_witness :
  suggest_mutations Sample.skills (u "editor") Sample.editor 0.30
                    Sample.registry Sample.top_performers
  = [Sample.absorb_validation;
     Sample.mutate_to (u "validation") (u "v2") (u "v1");
     Sample.mutate_to (u "input") (u "v1") (u "v2");
     Sample.mutate_to (u "input") (u "v1") (u "v3")] /\
  top_suggestion
    (suggest_mutations Sample.skills (u "editor") Sample.editor 0.30
                       Sample.registry Sample.top_performers)
  = Some Sample.absorb_validation.
Proof.
  destruct (suggest_mutations_order Sample.skills (u "editor") Sample.editor
              0.30%float Sample.registry Sample.top_performers)
    as (Hlist & _ & _ & Htop & _).
  - right. by vm_compute.
  - apply (bool_decide_unpack _). by vm_compute.
  - intros module_type. unfold get_module_variants, Sample.registry. simpl.
    repeat case_decide; simpl; try apply NoDup_nil_2;
      apply (bool_decide_unpack _); by vm_compute.
  - rewrite Hlist. split; [by vm_compute|]. rewrite Htop. by vm_compute.
Defined.

(** C1 on the writer: 1.2.3 becomes 1.2.4 and the record reads
    "validation: v3 → v4". *)
Lemma apply_mutation_spec_witness :
  exists mutated record,
    apply_mutation (u "writer") (u "validation") (u "v4") Sample.initial
    = Return true
        (set_skill_files (<[u "writer" := Some mutated]> Sample.skills)
                         (set_clock 1 Sample.initial)) /\
    dict_get (u "validation") (default [] (Skill.modules mutated)) = Some (u "v4") /\
    Skill.version mutated = Some (u "1.2.4") /\
    Skill.fitness_history mutated = Some [record] /\
    History.mutation record = Some (u "validation: v3 → v4").
Proof.
  destruct (apply_mutation_spec (u "writer") (u "validation") (u "v4")
              Sample.initial (Some Sample.writer) [u "1"; u "2"] (u "3") 3)
    as (mutated & record & Hrun & Hmodule & _ & _ & _ & Hversion & Hhistory & _
        & Hdescriptor & _); [by vm_compute..|].
  exists mutated, record. by split_and!.
Defined.

(** C1 as the specification words it fails on a version that ends in a
    pre-release tag: the file of the skill exists, and
    [apply_mutation] raises [ValueError] (from [int]) instead of returning,
    leaving the files as they were. *)
Lemma apply_mutation_counterexample :
  skill_files Sample.initial !! u "drafter" = Some (Some Sample.drafter) /\
  Skill.version Sample.drafter = Some (u "1.0.0-beta") /\
  apply_mutation (u "drafter") (u "validation") (u "v4") Sample.initial
  = Raise ValueError Sample.initial /\
  ~ (exists w', apply_mutation (u "drafter") (u "validation") (u "v4")
                               Sample.initial = Return true w').
Proof.
  assert (Hraise : apply_mutation (u "drafter") (u "validation") (u "v4")
                                  Sample.initial = Raise ValueError Sample.initial)
    by (by vm_compute).
  split_and!; [by vm_compute|done|done|].
  intros [w' Hw']. rewrite Hraise in Hw'. done.
Qed.

(** C7 on the editor, in a home without registry file: the compiler exits
    with an error. *)
Lemma cmd_apply_recompile_failure_witness :
  exists w3 mutated,
    cmd_apply_skill Registry.empty Sample.top_performers []
                    (Score.Build (u "editor") 0.30 5) Sample.initial
    = Return [] w3 /\
    changelog_files w3 = ∅ /\
    compiler_runs w3 = [u "editor"] /\
    List.last (stdout w3) [] = [] /\
    skill_files w3 !! u "editor" = Some (Some mutated) /\
    dict_get (u "validation") (default [] (Skill.modules mutated))
    = Some (u "v3") /\
    Skill.version mutated = Some (u "1.0.8").
Proof.
  set (w0 := world_of (announce_mutation (u "editor") Sample.absorb_validation
                                         Sample.initial)).
  set (w1 := world_of (apply_mutation (u "editor") (u "validation") (u "v3") w0)).
  set (w2 := world_of (recompile_skill (u "editor") w1)).
  destruct (cmd_apply_recompile_failure Registry.empty Sample.top_performers []
              (Score.Build (u "editor") 0.30 5) [] Sample.initial
              (Some Sample.editor) Sample.absorb_validation w1 w2)
    as (w3 & mutated & earlier & patch_text & patch & record & Hbody & _ & Hlogs
        & Hfile & Hmodule & Hsplit & Hint & Hversion & _ & _ & Hout & Hruns & _).
  - right. by vm_compute.
  - by vm_compute.
  - by vm_compute.
  - by vm_compute.
  - by vm_compute.
  - exists w3, mutated. split_and!; try done.
    + rewrite Hout. apply (last_snoc (stdout w1 ++ [_]) [] []).
    + change (split dot _) with ([u "1"; u "0"] ++ [u "7"]) in Hsplit.
      apply app_inj_tail in Hsplit as [<- <-].
      assert (patch = 7%Z) as -> by (vm_compute in Hint; congruence).
      rewrite Hversion. by vm_compute.
Defined.

(** C8 with an evaluator that exits with an error. *)
Lemma cmd_cycle_evaluation_failure_witness :
  skill_files (world_of (cmd_cycle Sample.initial)) = Sample.skills /\
  compiler_runs (world_of (cmd_cycle Sample.initial)) = [] /\
  exists w', cmd_cycle Sample.initial = Return tt w'.
Proof.
  destruct (cmd_cycle_evaluation_failure Sample.initial)
    as ((Hskills & _ & _ & _ & Hruns) & _ & _ & Hexit & _).
  - left. by eexists.
  - split_and!; [done..|].
    destruct (Hexit (u "evaluate.sh: no usage log")) as (w' & Hw' & _); [done|].
    by exists w'.
Defined.

(** C9 on a skill that has no changelog yet. *)
Lemma write_changelog_newest_first_witness :
  exists w1 w2 entry1 entry2,
    write_changelog (u "writer") [Sample.absorb_validation] 0.30 (Some 0.45%float)
                    Sample.initial = Return tt w1 /\
    write_changelog (u "writer") [Sample.mutate_to (u "input") (u "v1") (u "v2")]
                    0.45 None w1 = Return tt w2 /\
    startswith (nl :: u "## v1.2.3 (") entry1 = true /\
    startswith (nl :: u "## v1.2.3 (") entry2 = true /\
    entry1 <> entry2 /\
    changelog_files w2 !! u "writer"
    = Some (u "# /writer Evolution Changelog" ++ [nl; nl] ++ entry2 ++ entry1).
Proof.
  set (w1 := world_of (write_changelog (u "writer") [Sample.absorb_validation]
                                       0.30 (Some 0.45%float) Sample.initial)).
  destruct (write_changelog_newest_first
              (u "writer") [Sample.absorb_validation] 0.30%float (Some 0.45%float)
              [Sample.mutate_to (u "input") (u "v1") (u "v2")] 0.45%float None
              Sample.initial w1)
    as (header & sections & w1' & w2 & Hw1 & Hw2 & _ & _ & _ & _ & _ & _ & Hfile
        & Hnew); [done|].
  destruct Hnew as [-> ->]; [by vm_compute | apply (bool_decide_unpack _); by vm_compute |].
  assert (w1' = w1) as ->.
  { unfold w1. by rewrite Hw1. }
  match type of Hfile with
  | _ = Some (_ ++ ?e2 ++ ?e1 ++ _) => exists w1, w2, e1, e2
  end.
  split; [exact Hw1|]. split; [exact Hw2|].
  rewrite Hfile, app_nil_r.
  split_and!; [by vm_compute | by vm_compute | by vm_compute | by vm_compute].
Defined.
(** The whole pass of [apply] where nothing fails: the editor absorbs the
    validation module of the reviewer, is recompiled, re-evaluated and
    logged. *)
Example cmd_apply_scenario :
  exists w',
    @cmd_apply Sample.reporting Sample.ready = Return tt w' /\
    Skill.version (load_yaml Skill.empty (skill_files w' !! u "editor"))
    = Some (u "1.0.8") /\
    compiler_runs w' = [u "editor"] /\
    evaluator_runs w' = 2 /\
    dom (changelog_files w') = {[ u "editor" ]} /\
    List.last (stdout w') [] = banner.
Proof.
  eexists. split; [by vm_compute|]. split_and!; try by vm_compute.
Qed.

Example int_of_str_examples :
  int_of_str (u "3") = Some 3%Z /\ int_of_str (u " 010 ") = Some 10%Z /\
  int_of_str (u "-0") = Some 0%Z /\ int_of_str (u "1_0") = Some 10%Z /\
  int_of_str (u "٣") = Some 3%Z /\ int_of_str (u "1__0") = None /\
  int_of_str (u "+ 3") = None /\ int_of_str (u "") = None /\
  int_of_str (u "0-beta") = None /\ int_of_str [28; 51]%N = None.
Proof. vm_compute. repeat split. Qed.

Example str_examples :
  split arrow (u "a→b") = [u "a"; u "b"] /\ split colon [] = [[]] /\
  join (u ".") [u "1"; u "2"; u "4"] = u "1.2.4" /\
  strip (u "  v2 ") = u "v2" /\ str_of_int (-12) = u "-12" /\
  find (u "##") (u "a##b##") = 1%Z /\ find (u "x") [] = (-1)%Z /\
  find [] (u "abc") = 0%Z /\ slice_from [1; 2; 3] (-2) = [2; 3] /\
  slice_to (u "abc") 1 = u "a".
Proof. vm_compute. repeat split. Qed.


(** ** The further properties on the sample data *)

(** X2: two mutations of the writer in a row: 1.2.3 becomes 1.2.5. *)
Lemma apply_mutation_repeatable_witness :
  exists w2 again,
    apply_mutation (u "writer") (u "input") (u "v2")
      (world_of (apply_mutation (u "writer") (u "validation") (u "v4")
                                Sample.initial))
    = Return true w2 /\
    skill_files w2 !! u "writer" = Some (Some again) /\
    Skill.version again = Some (u "1.2.5").
Proof.
  destruct (apply_mutation_repeatable
              (u "writer") (u "validation") (u "v4") (u "input") (u "v2")
              Sample.initial
              (world_of (apply_mutation (u "writer") (u "validation") (u "v4")
                                        Sample.initial)))
    as (file & earlier & patch_text & patch & w2 & again & record1 & record2
        & Hfile & Hsplit & Hint & Hrun & Hfile2 & Hversion & _);
    [by vm_compute|].
  exists w2, again. split; [exact Hrun|]. split; [exact Hfile2|].
  assert (file = Some Sample.writer) as ->.
  { change (skill_files Sample.initial !! u "writer")
      with (Some (Some Sample.writer)) in Hfile. congruence. }
  change (split dot _) with ([u "1"; u "2"] ++ [u "3"]) in Hsplit.
  apply app_inj_tail in Hsplit as [<- <-].
  assert (patch = 3%Z) as ->.
  { assert (Hthree : int_of_str (u "3") = Some 3%Z) by (by vm_compute).
    congruence. }
  rewrite Hversion. by vm_compute.
Defined.

(** X3: after the writer took validation v4, that pair is guarded. *)
Lemma apply_mutation_guards_variant_witness :
  exists mutated,
    skill_files (world_of (apply_mutation (u "writer") (u "validation") (u "v4")
                                          Sample.initial))
    !! u "writer" = Some (Some mutated) /\
    u "validation:v4" ∈ get_recently_tried_variants mutated.
Proof.
  destruct (apply_mutation_guards_variant
              (u "writer") (u "validation") (u "v4") Sample.initial
              (world_of (apply_mutation (u "writer") (u "validation") (u "v4")
                                        Sample.initial)))
    as (mutated & Hfile & Hkey & _).
  - by vm_compute.
  - apply (bool_decide_unpack _). by vm_compute.
  - apply (bool_decide_unpack _). by vm_compute.
  - by vm_compute.
  - apply (bool_decide_unpack _). by vm_compute.
  - by vm_compute.
  - intros old_version Hold.
    assert (old_version = u "v3") as ->.
    { match type of Hold with
      | ?selected = _ =>
        assert (Hselected : selected = Some (u "v3")) by (by vm_compute)
      end.
      congruence. }
    split; apply (bool_decide_unpack _); by vm_compute.
  - exists mutated. split; [exact Hfile|exact Hkey].
Defined.

(** X6: the absorb suggestion for the editor is made of the selection of the
    reviewer. *)
Lemma suggest_mutations_sound_witness :
  Suggestion.skill Sample.absorb_validation = u "editor" /\
  exists top file,
    top ∈ Sample.top_performers /\
    Sample.skills !! Score.skill top = Some file /\
    (u "validation", u "v3")
    ∈ default [] (Skill.modules (load_yaml Skill.empty (Some file))).
Proof.
  destruct (suggest_mutations_sound Sample.skills (u "editor") Sample.editor
              0.30%float Sample.registry Sample.top_performers
              Sample.absorb_validation)
    as (_ & Hskill & _ & _ & Hsource).
  - apply (bool_decide_unpack _). by vm_compute.
  - replace (suggest_mutations Sample.skills (u "editor") Sample.editor 0.30
               Sample.registry Sample.top_performers)
      with [Sample.absorb_validation;
            Sample.mutate_to (u "validation") (u "v2") (u "v1");
            Sample.mutate_to (u "input") (u "v1") (u "v2");
            Sample.mutate_to (u "input") (u "v1") (u "v3")]
      by (by vm_compute).
    left.
  - split; [exact Hskill|exact Hsource].
Defined.

(** X4: the float [nan]. *)
Lemma classify_skill_nan_witness : classify_skill nan = failing.
Proof.
  apply classify_skill_nan. unfold is_number. by vm_compute.
Defined.

(** X9: compiling a skill that has no definition file exits with code 0. *)
Lemma recompile_skill_exit_code_witness :
  recompile_skill (u "ghost") Sample.ready
  = Return true (set_compiler_runs [u "ghost"] Sample.ready).
Proof.
  destruct (recompile_skill_exit_code (u "ghost") Sample.ready)
    as (ok & w' & Hrun & _ & Hmissing); [by vm_compute|].
  destruct Hmissing as [-> ->]; [done|by vm_compute|exact Hrun].
Defined.

(** X7: the editor, compiled twice. *)
Lemma compile_skill_idempotent_witness :
  exists w2,
    compile_skill (u "editor") (Some Sample.registry)
      (world_of (compile_skill (u "editor") (Some Sample.registry) Sample.ready))
    = Return true w2 /\
    command_files w2
    = command_files
        (world_of (compile_skill (u "editor") (Some Sample.registry) Sample.ready)).
Proof.
  destruct (compile_skill_idempotent (u "editor") (Some Sample.registry)
              Sample.ready
              (world_of (compile_skill (u "editor") (Some Sample.registry)
                                       Sample.ready)))
    as (w2 & Hrun & Hcommands & _); [by vm_compute|].
  by exists w2.
Defined.

(** X8: prompts for the module type structure change nothing. *)
Lemma compile_skill_reads_five_modules_witness :
  compile_skill (u "editor") (Some Sample.registry) Sample.ready
  = compile_skill (u "editor") (Some Sample.registry_with_structure) Sample.ready.
Proof.
  apply compile_skill_reads_five_modules.
  intros module_type Hin. rewrite !elem_of_cons, elem_of_nil in Hin.
  destruct Hin as [-> | [-> | [-> | [-> | [-> | []]]]]]; by vm_compute.
Defined.

(** X10: three entries on a new changelog. *)
Lemma prepend_entry_newest_first_witness :
  exists header sections,
    changelog_title (u "writer") = header ++ sections /\
    foldl prepend_entry (changelog_title (u "writer")) Sample.three_entries
    = header ++ ((nl :: u "## v1.0.3 (third)") ++ (nl :: u "## v1.0.2 (second)")
                 ++ (nl :: u "## v1.0.1 (first)")) ++ sections.
Proof.
  destruct (prepend_entry_newest_first (changelog_title (u "writer"))
              Sample.three_entries)
    as (header & sections & Hcut & _ & _ & Hfold).
  - repeat constructor.
  - exists header, sections. split; [exact Hcut|]. rewrite Hfold.
    by replace (concat (rev Sample.three_entries))
         with ((nl :: u "## v1.0.3 (third)") ++ (nl :: u "## v1.0.2 (second)")
               ++ (nl :: u "## v1.0.1 (first)")) by (by vm_compute).
Defined.

(** X13: the editor goes through: one mutation applied, at the baseline
    fitness, and one changelog written. *)
Lemma cmd_apply_skill_success_witness :
  exists w3,
    @cmd_apply_skill Sample.reporting Sample.registry Sample.top_performers []
                     (Score.Build (u "editor") 0.30 5) Sample.ready
    = Return [Applied.Build 0.30 0.30 Sample.absorb_validation] w3 /\
    dom (changelog_files w3) = {[ u "editor" ]} /\
    evaluator_runs w3 = 1 /\
    compiler_runs w3 = [u "editor"].
Proof.
  set (w0 := world_of (announce_mutation (u "editor")
                         Sample.absorb_validation Sample.ready)).
  set (w1 := world_of (@apply_mutation Sample.reporting (u "editor")
                         (u "validation") (u "v3") w0)).
  set (w2 := world_of (@recompile_skill Sample.reporting (u "editor") w1)).
  destruct (@cmd_apply_skill_success Sample.reporting Sample.registry
              Sample.top_performers [] (Score.Build (u "editor") 0.30 5)
              Sample.ready (Some Sample.editor) Sample.absorb_validation w1 w2)
    as (w3 & earlier & patch_text & patch & Hrun & _ & _ & Hlogs & _ & _
        & Hevals & Hruns & _).
  - right. by vm_compute.
  - by vm_compute.
  - by vm_compute.
  - by vm_compute.
  - by vm_compute.
  - done.
  - exists w3. split; [exact Hrun|]. split_and!; [|done..].
    rewrite Hlogs. cbn [Score.skill]. rewrite dom_insert_L.
    change (changelog_files Sample.ready) with (∅ : gmap (list N) (list N)).
    rewrite dom_empty_L. apply leibniz_equiv. set_solver.
Defined.

(** X14: the editor is mutated and compiled, and the verification dies. *)
Lemma cmd_apply_verification_crash_witness :
  exists w3 mutated,
    @cmd_apply_skill Sample.garbling Sample.registry Sample.top_performers []
                     (Score.Build (u "editor") 0.30 5) Sample.ready
    = Raise JSONDecodeError w3 /\
    skill_files w3 !! u "editor" = Some (Some mutated) /\
    dict_get (u "validation") (default [] (Skill.modules mutated)) = Some (u "v3") /\
    changelog_files w3 = ∅ /\
    compiler_runs w3 = [u "editor"].
Proof.
  set (w0 := world_of (announce_mutation (u "editor")
                         Sample.absorb_validation Sample.ready)).
  set (w1 := world_of (@apply_mutation Sample.garbling (u "editor")
                         (u "validation") (u "v3") w0)).
  set (w2 := world_of (@recompile_skill Sample.garbling (u "editor") w1)).
  destruct (@cmd_apply_verification_crash Sample.garbling Sample.registry
              Sample.top_performers [] (Score.Build (u "editor") 0.30 5) []
              Sample.ready (Some Sample.editor) Sample.absorb_validation w1 w2)
    as (w3 & earlier & patch_text & patch & mutated & Hrun & _ & _ & _ & Hfile
        & _ & Hmodule & Hlogs & _ & Hruns & _).
  - right. by vm_compute.
  - by vm_compute.
  - by vm_compute.
  - by vm_compute.
  - by vm_compute.
  - done.
  - exists w3, mutated.
    split_and!; [exact Hrun|exact Hfile|exact Hmodule|exact Hlogs|exact Hruns].
Defined.

(** X16: the command [apply] on the sample report leaves the writer alone. *)
Lemma cmd_apply_touches_low_skills_only_witness :
  without_last_compiled
    (skill_files (world_of (@cmd_apply Sample.reporting Sample.ready)))
  !! u "writer"
  = without_last_compiled Sample.skills !! u "writer" /\
  changelog_files (world_of (@cmd_apply Sample.reporting Sample.ready))
  !! u "writer" = None.
Proof.
  destruct (@cmd_apply_touches_low_skills_only Sample.reporting Sample.ready
              (u "writer")) as (Hskill & Hlog & _).
  - apply (bool_decide_unpack _). by vm_compute.
  - split; [exact Hskill|by rewrite Hlog].
Defined.

(** X17: a cycle on the sample report: the snapshot is the report, stamped. *)
Lemma cmd_cycle_snapshot_witness :
  evaluation_files (world_of (@cmd_cycle Sample.reporting Sample.ready))
  = {[ u "%Y-W%V@0" :=
         Evaluation.set_snapshot_time (u "%Y-%m-%dT%H:%M:%SZ@1") Sample.report ]}.
Proof.
  rewrite (@cmd_cycle_snapshot Sample.reporting Sample.ready Sample.report);
    [by vm_compute|done|done].
Defined.

(** X18: a cycle on a report in which every skill does well. *)
Lemma cmd_cycle_all_healthy_witness :
  exists w',
    @cmd_cycle Sample.thriving Sample.ready = Return tt w' /\
    skill_files w' = Sample.skills /\
    compiler_runs w' = [] /\
    evaluator_runs w' = 1.
Proof.
  destruct (@cmd_cycle_all_healthy Sample.thriving Sample.ready
              Sample.healthy_report)
    as (w' & Hrun & Hskills & _ & _ & _ & Hcompiler & Hevaluator & _);
    [done|done|by vm_compute|].
  by exists w'.
Defined.

(** X20: the editor has tried everything: no suggestion is left. *)
Lemma suggest_mutations_all_tried_witness :
  suggest_mutations Sample.skills (u "editor") Sample.editor_exhausted 0.30
                    Sample.registry Sample.top_performers = [].
Proof.
  destruct (suggest_mutations_all_tried Sample.skills (u "editor")
              Sample.editor_exhausted 0.30%float Sample.registry
              Sample.top_performers) as [Hnone _]; [| |exact Hnone].
  - intros top file module_type version Htop Hfile Hpair _.
    apply list_elem_of_singleton in Htop as ->.
    assert (file = Some Sample.reviewer) as ->.
    { change (Sample.skills !! Score.skill (Score.Build (u "reviewer") 0.9 12))
        with (Some (Some Sample.reviewer)) in Hfile. congruence. }
    apply list_elem_of_singleton in Hpair as [= -> ->].
    apply (bool_decide_unpack _). by vm_compute.
  - intros module_type current_version variant Hpair Hvariant Hdiff.
    change (default [] (Skill.modules Sample.editor_exhausted))
      with [(u "validation", u "v2"); (u "input", u "v1")] in Hpair.
    rewrite !elem_of_cons, elem_of_nil in Hpair.
    destruct Hpair as [[= -> ->] | [[= -> ->] | []]].
    + change (get_module_variants Sample.registry (u "validation"))
        with [u "v1"; u "v2"; u "v3"] in Hvariant.
      rewrite !elem_of_cons, elem_of_nil in Hvariant.
      destruct Hvariant as [-> | [-> | [-> | []]]]; try done;
        apply (bool_decide_unpack _); by vm_compute.
    + change (get_module_variants Sample.registry (u "input"))
        with [u "v1"; u "v2"; u "v3"] in Hvariant.
      rewrite !elem_of_cons, elem_of_nil in Hvariant.
      destruct Hvariant as [-> | [-> | [-> | []]]]; try done;
        apply (bool_decide_unpack _); by vm_compute.
Defined.

(** X22: the four sample skills, compiled at once. *)
Lemma compile_main_all_witness :
  exists w' commands,
    compile_main (u "--all") Sample.ready = Return tt w' /\
    command_files w' = Some commands /\
    is_Some (commands !! u "editor") /\
    commands !! u "ghost" = None.
Proof.
  destruct (compile_main_all Sample.ready Sample.registry ∅)
    as (w' & commands & Hrun & Hcommands & Hin & Hout & _);
    [reflexivity|reflexivity| |].
  - intros stem Hnone. unfold Sample.ready, Sample.skills in Hnone.
    fields_in Hnone.
    repeat (apply lookup_insert_Some in Hnone as [[_ ?]|[_ Hnone]]; [done|]).
    by rewrite lookup_empty in Hnone.
  - exists w', commands. split; [exact Hrun|]. split; [exact Hcommands|]. split.
    + apply Hin.
      change (skill_files Sample.ready !! u "editor")
        with (Some (Some Sample.editor)).
      by eexists.
    + rewrite Hout; [reflexivity|by vm_compute].
Defined.
